(** * Investment advisory system: risk scoring and fund selection

    A shallow embedding of [modules/fund_filtering.py],
    [modules/risk_assessment.py], [modules/risk_assessment_complex.py] and
    [config/settings.py], followed by the properties proved about them.

    Numbers.  Python floats are idealised: the fund-filtering code only adds,
    multiplies, divides and compares, so it is embedded over the rationals
    [Q] and runs inside Rocq; the risk-scoring code calls [math.log1p], so it
    is embedded over the reals [R].  Rounding error, infinities and NaN are
    outside both models. *)

From Stdlib Require Import QArith Qminmax Qround ZArith String List Bool Lia.
From Stdlib Require Import Reals Lra.
From Stdlib Require Lqa.
From Stdlib Require Import Sorted Qreals Qpower Qfield.
Import ListNotations.

(** ** modules/fund_filtering.py *)

Module FundFiltering.

Local Open Scope Q_scope.
Local Open Scope string_scope.

(** A row of the fund universe DataFrame. *)
Record Fund := mkFund {
  fund_name : string;
  category : string;
  return_3yr : Q;       (* column '3yr_return' *)
  expense_ratio : Q;
  sharpe_ratio : Q;
  alpha : Q;
  age_years : Z
}.

Definition FundUniverse := list Fund.

Definition Qltb (x y : Q) : bool := negb (Qle_bool y x).

(** [thresholds.get(category, 2.0)] *)
Definition get_expense_threshold (cat : string) : Q :=
  if String.eqb cat "large_cap" then 2
  else if String.eqb cat "mid_cap" then 225 # 100
  else if String.eqb cat "small_cap" then 25 # 10
  else if String.eqb cat "debt" then 15 # 10
  else if String.eqb cat "hybrid" then 2
  else 2.

(** Ascending sort of a column, as [Series.quantile] does before
    interpolating. *)
Fixpoint insert_asc (x : Q) (l : list Q) : list Q :=
  match l with
  | [] => [x]
  | y :: l' => if Qle_bool x y then x :: l else y :: insert_asc x l'
  end.

Definition sort_asc (l : list Q) : list Q := fold_right insert_asc [] l.

(** [Series.quantile(q)] with pandas' default linear interpolation: the
    position is [q * (n - 1)] in the sorted column and the value is
    interpolated between its two neighbours.  (On an empty column pandas
    gives NaN; the mask below has no row to test then, and [filter_funds]
    skips an empty category before filtering.) *)
Definition quantile (xs : list Q) (q : Q) : Q :=
  let s := sort_asc xs in
  let pos := q * inject_Z (Z.of_nat (length s) - 1) in
  let lo := Qfloor pos in
  let hi := Qceiling pos in
  let a := nth (Z.to_nat lo) s 0 in
  let b := nth (Z.to_nat hi) s 0 in
  a + (b - a) * (pos - inject_Z lo).

(** The boolean mask of [apply_category_filters], for one row. *)
Definition passes_filters (category_funds : list Fund) (cat : string)
    (f : Fund) : bool :=
  Qltb (quantile (map return_3yr category_funds) (1 # 2)) (return_3yr f)
  && Qltb (expense_ratio f) (get_expense_threshold cat)
  && (3 <? age_years f)%Z
  && Qltb (quantile (map sharpe_ratio category_funds) (3 # 4)) (sharpe_ratio f).

Definition apply_category_filters (category_funds : list Fund)
    (cat : string) : list Fund :=
  filter (passes_filters category_funds cat) category_funds.

Definition series_min (x : Q) (l : list Q) : Q := fold_left Qmin l x.
Definition series_max (x : Q) (l : list Q) : Q := fold_left Qmax l x.

(** [normalize(series)]: min-max scaling, all zeros when the column is
    constant. *)
Definition normalize (series : list Q) : list Q :=
  match series with
  | [] => []
  | x :: l =>
      let min_val := series_min x l in
      let max_val := series_max x l in
      if Qeq_bool max_val min_val then map (fun v => v * 0) series
      else map (fun v => (v - min_val) / (max_val - min_val)) series
  end.

(** A row of the filtered frame once the 'score' column is added. *)
Definition ScoredFund := (Fund * Q)%type.

Fixpoint zip4 (a b c d : list Q) : list Q :=
  match a, b, c, d with
  | x :: a', y :: b', z :: c', w :: d' =>
      ((4 # 10) * x + (2 # 10) * y + (2 # 10) * z + (2 # 10) * w)
        :: zip4 a' b' c' d'
  | _, _, _, _ => []
  end.

Definition score_column (filtered : list Fund) : list Q :=
  zip4 (normalize (map return_3yr filtered))
       (normalize (map (fun f => - expense_ratio f) filtered))
       (normalize (map sharpe_ratio filtered))
       (normalize (map alpha filtered)).

(** Stable descending insertion on the score. *)
Fixpoint insert_desc (x : ScoredFund) (l : list ScoredFund) : list ScoredFund :=
  match l with
  | [] => [x]
  | y :: l' => if Qle_bool (snd y) (snd x) then x :: l else y :: insert_desc x l'
  end.

(** [DataFrame.nlargest(n, 'score')]: the [n] rows of largest score, in
    descending order, ties in the original order. *)
Definition nlargest (n : nat) (rows : list ScoredFund) : list ScoredFund :=
  firstn n (fold_right insert_desc [] rows).

Definition get_top_funds (filtered : list Fund) : list ScoredFund :=
  nlargest 5 (combine filtered (score_column filtered)).

(** The allocation dict [{"debt": d, "equity": e}]. *)
Record Allocation := mkAllocation { debt : Q; equity : Q }.

Definition get_risk_category_from_score (risk_score : Q)
    : string * Allocation :=
  if Qle_bool risk_score (2 # 10) then
    ("Very Conservative", mkAllocation (85 # 100) (15 # 100))
  else if Qle_bool risk_score (4 # 10) then
    ("Conservative", mkAllocation (70 # 100) (30 # 100))
  else if Qle_bool risk_score (6 # 10) then
    ("Moderate", mkAllocation (55 # 100) (45 # 100))
  else if Qle_bool risk_score (8 # 10) then
    ("Growth", mkAllocation (35 # 100) (65 # 100))
  else
    ("Aggressive", mkAllocation (20 # 100) (80 # 100)).

(** A value of the [filtered_funds] dict. *)
Record Entry := mkEntry {
  allocation_pct : Q;
  funds : list ScoredFund
}.

(** The [filtered_funds] dict, in insertion order; the five keys are written
    at most once each, so an assignment always appends. *)
Definition FilteredFunds := list (string * Entry).

Definition equity_split : list (string * Q) :=
  [("large_cap", 5 # 10); ("mid_cap", 3 # 10); ("small_cap", 2 # 10)].

Definition debt_split : list (string * Q) := [("debt", 1)].

(** [fund_universe[fund_universe['category'] == c]] *)
Definition select_category (fund_universe : FundUniverse) (c : string)
    : list Fund :=
  filter (fun f => String.eqb (category f) c) fund_universe.

Definition is_empty {A : Type} (l : list A) : bool :=
  match l with [] => true | _ => false end.

(** One iteration of the loops of steps 4 and 5; [continue] leaves the dict
    as it is. *)
Definition process_category (fund_universe : FundUniverse) (share : Q)
    (filtered_funds : FilteredFunds) (item : string * Q) : FilteredFunds :=
  let (cat, split_pct) := item in
  let category_funds := select_category fund_universe cat in
  if is_empty category_funds then filtered_funds
  else
    let filtered := apply_category_filters category_funds cat in
    if is_empty filtered then filtered_funds
    else
      let top_funds := get_top_funds filtered in
      let actual_allocation := share * split_pct in
      (filtered_funds ++ [(cat, mkEntry actual_allocation top_funds)])%list.

Definition process_split (fund_universe : FundUniverse) (share : Q)
    (split : list (string * Q)) (filtered_funds : FilteredFunds)
    : FilteredFunds :=
  fold_left (process_category fund_universe share) split filtered_funds.

Definition process_hybrid (fund_universe : FundUniverse)
    (allocation : Allocation) (filtered_funds : FilteredFunds)
    : FilteredFunds :=
  if Qltb (2 # 10) (equity allocation) && Qltb (2 # 10) (debt allocation) then
    let category_funds := select_category fund_universe "hybrid" in
    if negb (is_empty category_funds) then
      let filtered := apply_category_filters category_funds "hybrid" in
      if negb (is_empty filtered) then
        let top_funds := get_top_funds filtered in
        let hybrid_allocation :=
          Qmin (Qmin (15 # 100) (equity allocation * (2 # 10)))
               (debt allocation * (2 # 10)) in
        (filtered_funds ++ [("hybrid", mkEntry hybrid_allocation top_funds)])%list
      else filtered_funds
    else filtered_funds
  else filtered_funds.

Definition filter_funds (fund_universe : FundUniverse) (risk_score : Q)
    : string * FilteredFunds :=
  let (risk_category, allocation) := get_risk_category_from_score risk_score in
  let filtered_funds := [] in
  let filtered_funds :=
    if Qltb 0 (equity allocation)
    then process_split fund_universe (equity allocation) equity_split
           filtered_funds
    else filtered_funds in
  let filtered_funds :=
    if Qltb 0 (debt allocation)
    then process_split fund_universe (debt allocation) debt_split
           filtered_funds
    else filtered_funds in
  let filtered_funds := process_hybrid fund_universe allocation filtered_funds in
  (risk_category, filtered_funds).

(** Round half to even, the rule of Python's [round]. *)
Definition round_half_even (x : Q) : Z :=
  let f := Qfloor x in
  let d := x - inject_Z f in
  if Qltb d (1 # 2) then f
  else if Qltb (1 # 2) d then (f + 1)%Z
  else if Z.even f then f else (f + 1)%Z.

(** [round(x, 1)], kept in lowest terms. *)
Definition round1 (x : Q) : Q := Qred (inject_Z (round_half_even (x * 10)) / 10).

(** A value of [portfolio['recommendations']]. *)
Record Recommendation := mkRecommendation {
  allocation_percentage : Q;
  fund_count : nat;
  top_funds : list ScoredFund
}.

Record Portfolio := mkPortfolio {
  risk_category : string;
  risk_score : Q;
  total_categories : nat;
  recommendations : list (string * Recommendation);
  total_allocation : Q
}.

Definition recommend (item : string * Entry) : string * Recommendation :=
  let (cat, data) := item in
  (cat, mkRecommendation (round1 (allocation_pct data * 100))
          (length (funds data)) (funds data)).

Definition create_portfolio_recommendations (fund_universe : FundUniverse)
    (score : Q) : Portfolio :=
  let (cat, filtered_funds) := filter_funds fund_universe score in
  let total :=
    fold_left (fun acc item => acc + allocation_pct (snd item)) filtered_funds 0 in
  mkPortfolio cat score (length filtered_funds)
    (map recommend filtered_funds) (round1 (total * 100)).

(** Dict lookup by key. *)
Fixpoint lookup {A : Type} (k : string) (d : list (string * A)) : option A :=
  match d with
  | [] => None
  | (k', v) :: d' => if String.eqb k k' then Some v else lookup k d'
  end.

(** The sample universe of the module's self-test (14 funds). *)
Definition sample_funds : FundUniverse :=
  [ mkFund "HDFC Top 100 Fund" "large_cap" (125#10) (105#100) (85#100) (21#10) 15;
    mkFund "Axis Bluechip Fund" "large_cap" (138#10) (115#100) (92#100) (28#10) 12;
    mkFund "SBI Large Cap Fund" "large_cap" (112#10) (195#100) (78#100) (15#10) 20;
    mkFund "DSP Midcap Fund" "mid_cap" (156#10) (189#100) (88#100) (32#10) 8;
    mkFund "HDFC Mid-Cap Opportunities" "mid_cap" (168#10) (21#10) (95#100) (38#10) 10;
    mkFund "Kotak Emerging Equity" "mid_cap" (149#10) (175#100) (82#100) (29#10) 7;
    mkFund "SBI Small Cap Fund" "small_cap" (182#10) (215#100) (75#100) (41#10) 6;
    mkFund "DSP Small Cap Fund" "small_cap" (195#10) (205#100) (88#100) (45#10) 9;
    mkFund "Axis Small Cap Fund" "small_cap" (178#10) (23#10) (72#100) (37#10) 5;
    mkFund "HDFC Corporate Bond" "debt" (78#10) (45#100) (125#100) (12#10) 12;
    mkFund "SBI Corporate Bond" "debt" (81#10) (55#100) (118#100) (14#10) 18;
    mkFund "Axis Corporate Debt" "debt" (75#10) (48#100) (122#100) (11#10) 8;
    mkFund "HDFC Balanced Advantage" "hybrid" (102#10) (125#100) (95#100) (22#10) 14;
    mkFund "ICICI Prudential Balanced" "hybrid" (98#10) (135#100) (89#100) (19#10) 16 ].

(** A universe in which every one of the five sub-categories keeps a fund:
    each category has one strong and one weak fund. *)
Definition full_universe : FundUniverse :=
  [ mkFund "L1" "large_cap" 14 1 1 3 10; mkFund "L2" "large_cap" 10 1 (5#10) 1 10;
    mkFund "M1" "mid_cap" 16 1 1 3 10;   mkFund "M2" "mid_cap" 12 1 (5#10) 1 10;
    mkFund "S1" "small_cap" 18 1 1 3 10; mkFund "S2" "small_cap" 14 1 (5#10) 1 10;
    mkFund "D1" "debt" 8 (5#10) 1 1 10;  mkFund "D2" "debt" 7 (5#10) (5#10) 1 10;
    mkFund "H1" "hybrid" 10 1 1 2 10;    mkFund "H2" "hybrid" 9 1 (5#10) 1 10 ].

(** Whether the shortlist of a sub-category is non-empty. *)
Definition survives (fund_universe : FundUniverse) (c : string) : bool :=
  negb (is_empty (apply_category_filters (select_category fund_universe c) c)).

(** The share a sub-category receives from the baseline when it is present:
    the fixed split of step 2 and 3, and the hybrid formula of step 6. *)
Definition nominal_share (a : Allocation) (c : string) : Q :=
  if String.eqb c "large_cap" then equity a * (5 # 10)
  else if String.eqb c "mid_cap" then equity a * (3 # 10)
  else if String.eqb c "small_cap" then equity a * (2 # 10)
  else if String.eqb c "debt" then debt a * 1
  else if String.eqb c "hybrid" then
    Qmin (Qmin (15 # 100) (equity a * (2 # 10))) (debt a * (2 # 10))
  else 0.

(** The shortlist of a sub-category: the filters run on its own rows. *)
Definition shortlist (fund_universe : FundUniverse) (c : string) : list Fund :=
  apply_category_filters (select_category fund_universe c) c.

(** Whether a sub-category appears in the dict returned by [filter_funds]:
    the guard of its step and a non-empty shortlist. *)
Definition present (a : Allocation) (fund_universe : FundUniverse)
    (c : string) : bool :=
  if String.eqb c "debt" then Qltb 0 (debt a) && survives fund_universe c
  else if String.eqb c "hybrid" then
    Qltb (2 # 10) (equity a) && Qltb (2 # 10) (debt a)
    && survives fund_universe c
  else Qltb 0 (equity a) && survives fund_universe c.

Definition categories : list string :=
  ["large_cap"; "mid_cap"; "small_cap"; "debt"; "hybrid"].

Definition entry_of (a : Allocation) (fund_universe : FundUniverse)
    (c : string) : string * Entry :=
  (c, mkEntry (nominal_share a c) (get_top_funds (shortlist fund_universe c))).

(** The dict [filter_funds] is expected to build, category by category. *)
Definition expected (a : Allocation) (fund_universe : FundUniverse)
    : FilteredFunds :=
  flat_map (fun c => if present a fund_universe c
                     then [entry_of a fund_universe c] else [])
           categories.


(** The percentage of the hybrid entry of a portfolio, 0 when it has none. *)
Definition hybrid_percentage (recs : list (string * Recommendation)) : Q :=
  match lookup "hybrid" recs with
  | Some r => allocation_percentage r
  | None => 0
  end.

(** Sum of the [allocation_percentage] fields of a recommendation dict. *)
Definition sum_percentages (recs : list (string * Recommendation)) : Q :=
  fold_right (fun item acc => allocation_percentage (snd item) + acc) 0 recs.

(** The sum of the shares of the sub-categories that are present. *)
Definition present_total (a : Allocation) (fund_universe : FundUniverse) : Q :=
  fold_left (fun acc c => if present a fund_universe c
                          then acc + nominal_share a c else acc)
            categories 0.

End FundFiltering.

(** ** Python values and exceptions *)

Module Py.

Local Open Scope R_scope.
Local Open Scope string_scope.

(** The built-in exceptions the modelled code can raise. *)
Inductive exn :=
| TypeError | ValueError | KeyError | AttributeError | ZeroDivisionError.

(** A computation that returns a value or raises. *)
Inductive result (A : Type) :=
| Ok (a : A)
| Raise (e : exn).
Arguments Ok {A} a.
Arguments Raise {A} e.

Definition bind {A B : Type} (c : result A) (k : A -> result B) : result B :=
  match c with
  | Ok a => k a
  | Raise e => Raise e
  end.

(** [try: c  except Exception: h] *)
Definition try_except {A : Type} (c : result A) (h : exn -> result A)
    : result A :=
  match c with
  | Ok a => Ok a
  | Raise e => h e
  end.

(** The values a profile loaded from JSON or built by a caller can hold. *)
#[local] Unset Elimination Schemes.
Inductive pyval :=
| VNone
| VNum (x : R)
| VStr (s : string)
| VDict (items : list (pyval * pyval)).
#[local] Set Elimination Schemes.

Definition Rleb (x y : R) : bool := if Rle_dec x y then true else false.
Definition Rltb (x y : R) : bool := if Rlt_dec x y then true else false.

(** Truth value of an object: [None], 0, the empty string and the empty dict
    are false. *)
Definition truthy (v : pyval) : bool :=
  match v with
  | VNone => false
  | VNum x => if Req_EM_T x 0 then false else true
  | VStr s => negb (String.eqb s "")
  | VDict items => match items with [] => false | _ => true end
  end.

(** A number where arithmetic or an ordering against a number needs one;
    [None], strings and dicts raise [TypeError] there. *)
Definition as_num (v : pyval) : result R :=
  match v with
  | VNum x => Ok x
  | _ => Raise TypeError
  end.

(** [d[k]] for a string key [k] on the items of a dict. *)
Fixpoint dict_get (items : list (pyval * pyval)) (k : string) : option pyval :=
  match items with
  | [] => None
  | (VStr k', v) :: items' =>
      if String.eqb k k' then Some v else dict_get items' k
  | _ :: items' => dict_get items' k
  end.

(** [d.get(k, default)] *)
Definition get (items : list (pyval * pyval)) (k : string) (default : pyval)
    : pyval :=
  match dict_get items k with
  | Some v => v
  | None => default
  end.

(** [w[k]] on an arbitrary object. *)
Definition subscript (w : pyval) (k : string) : result pyval :=
  match w with
  | VDict items =>
      match dict_get items k with
      | Some v => Ok v
      | None => Raise KeyError
      end
  | _ => Raise TypeError
  end.

(** [len(v)] *)
Definition len (v : pyval) : result nat :=
  match v with
  | VDict items => Ok (length items)
  | VStr s => Ok (String.length s)
  | _ => Raise TypeError
  end.

(** [v.keys()] *)
Definition keys (v : pyval) : result (list pyval) :=
  match v with
  | VDict items => Ok (map fst items)
  | _ => Raise AttributeError
  end.

(** [math.log1p(x)]: a domain error at and below -1. *)
Definition log1p (x : R) : result R :=
  if Rle_dec x (-1) then Raise ValueError else Ok (ln (1 + x)).

(** [a / b] on floats. *)
Definition div (a b : R) : result R :=
  if Req_EM_T b 0 then Raise ZeroDivisionError else Ok (a / b).

(** [min(max(x, 0), 1)] *)
Definition clamp01 (x : R) : R := Rmin (Rmax x 0) 1.

Fixpoint mapM {A B : Type} (f : A -> result B) (l : list A) : result (list B) :=
  match l with
  | [] => Ok []
  | a :: l' =>
      bind (f a) (fun b => bind (mapM f l') (fun bs => Ok (b :: bs)))
  end.

(** [np.mean(xs)] of a non-empty list. *)
Definition mean (xs : list R) : R := fold_left Rplus xs 0 / INR (length xs).

(** Round half to even; [round(x, n)] of Python. *)
Definition round_half_even (y : R) : Z :=
  let f := Zfloor y in
  let d := y - IZR f in
  if Rlt_dec d (1 / 2) then f
  else if Rlt_dec (1 / 2) d then (f + 1)%Z
  else if Z.even f then f else (f + 1)%Z.

Definition round (x : R) (ndigits : nat) : R :=
  IZR (round_half_even (x * 10 ^ ndigits)) / 10 ^ ndigits.

(** [int(x)] on a float truncates towards zero. *)
Definition trunc (x : R) : Z := if Rle_dec 0 x then Zfloor x else Zceil x.

(** A goals dict whose keys are non-negative numbers of months. *)
Definition goals_ok (items : list (pyval * pyval)) : Prop :=
  Forall (fun kv => exists m, fst kv = VNum m /\ 0 <= m) items.

(** A weights dict with a number under each of the six keys. *)
Definition weights_ok (w : pyval) (k1 k2 k3 k4 k5 k6 : string)
    (w1 w2 w3 w4 w5 w6 : R) : Prop :=
  subscript w k1 = Ok (VNum w1) /\ subscript w k2 = Ok (VNum w2) /\
  subscript w k3 = Ok (VNum w3) /\ subscript w k4 = Ok (VNum w4) /\
  subscript w k5 = Ok (VNum w5) /\ subscript w k6 = Ok (VNum w6).

End Py.

Declare Scope py_scope.
Delimit Scope py_scope with py.
Notation "x <- c ;; k" := (Py.bind c (fun x => k))
  (at level 61, c at next level, right associativity) : py_scope.

(** ** config/settings.py *)

Module Settings.

Local Open Scope R_scope.
Local Open Scope string_scope.

Record RiskAssessmentConfig := mkConfig {
  WEIGHTS : list (string * R);
  RISK_CATEGORIES : list ((R * R) * string);
  INCOME_CAP : R
}.

Definition default_config : RiskAssessmentConfig :=
  mkConfig
    [ ("age_factor", 0.25); ("income_factor", 0.20); ("timeline_factor", 0.20);
      ("surplus_factor", 0.15); ("savings_factor", 0.10);
      ("risk_tolerance_factor", 0.10) ]
    [ ((0.0, 0.2), "Very Conservative"); ((0.2, 0.4), "Conservative");
      ((0.4, 0.6), "Moderate"); ((0.6, 0.8), "Growth");
      ((0.8, 1.0), "Aggressive") ]
    100000.

(** An allocation of [AllocationConfig.ALLOCATIONS], in percent. *)
Record Allocation := mkAllocation { debt : Z; equity : Z }.

Definition ALLOCATIONS : list (string * Allocation) :=
  [ ("Very Conservative", mkAllocation 85 15);
    ("Conservative", mkAllocation 70 30);
    ("Moderate", mkAllocation 55 45);
    ("Growth", mkAllocation 35 65);
    ("Aggressive", mkAllocation 20 80) ].

End Settings.

(** ** modules/risk_assessment.py *)

Module RiskAssessment.

Import Py.
Local Open Scope R_scope.
Local Open Scope string_scope.
Local Open Scope py_scope.

Definition default_weights : pyval :=
  VDict [ (VStr "age", VNum 0.25); (VStr "income", VNum 0.20);
          (VStr "timeline", VNum 0.20); (VStr "surplus", VNum 0.15);
          (VStr "savings", VNum 0.10); (VStr "tolerance", VNum 0.10) ].

(** 1. Age factor: the [if/elif] chain on [age]. *)
Definition age_factor_of (age : pyval) : result R :=
  a <- as_num age ;;
  Ok (if Rleb a 25 then 1.0
      else if Rleb a 35 then 0.8
      else if Rleb a 45 then 0.6
      else if Rleb a 55 then 0.4
      else 0.2).

(** 2. Income factor, capped at 100000. *)
Definition income_factor_of (income : R) : R :=
  let capped_income := Rmin income 100000 in
  let income_factor := capped_income / 100000 in
  clamp01 income_factor.

(** 3. Surplus factor; [income] is a number once step 2 has run. *)
Definition surplus_factor_of (monthly_surplus : pyval) (income : R)
    : result R :=
  m <- as_num monthly_surplus ;;
  let surplus := Rmax m 0 in
  num <- log1p surplus ;;
  den <- log1p (if Rltb 0 income then income / 2 else 1) ;;
  surplus_factor <- div num den ;;
  Ok (clamp01 surplus_factor).

(** 4. Savings factor. *)
Definition savings_factor_of (current_savings : pyval) (income : R)
    : result R :=
  let monthly_income := if Rltb 0 income then income / 12 else 1 in
  s <- as_num current_savings ;;
  savings_months <- div s monthly_income ;;
  num <- log1p savings_months ;;
  den <- log1p 60 ;;
  savings_factor <- div num den ;;
  Ok (clamp01 savings_factor).

(** 5. Timeline factor from the keys of the goals dict. *)
Definition timeline_factor_of (goals : pyval) : result R :=
  if truthy goals then
    n <- len goals ;;
    if (0 <? n)%nat then
      ks <- keys goals ;;
      years <- mapM (fun months => m <- as_num months ;; Ok (m / 12)) ks ;;
      let avg_timeline_years := mean years in
      num <- log1p avg_timeline_years ;;
      den <- log1p 30 ;;
      timeline_factor <- div num den ;;
      Ok (clamp01 timeline_factor)
    else Ok 0.5
  else Ok 0.5.

(** 6. Risk tolerance, 1 to 5. *)
Definition tolerance_factor_of (risk_tolerance : pyval) : result R :=
  t <- as_num risk_tolerance ;;
  Ok ((t - 1) / 4).

(** One term [w[k] * factor] of the weighted sum. *)
Definition term (w : pyval) (k : string) (factor : R) : result R :=
  v <- subscript w k ;;
  x <- as_num v ;;
  Ok (x * factor).

Definition calculate_risk_score
    (age income current_savings monthly_surplus goals risk_tolerance
       weights : pyval) : result R :=
  let w := if truthy weights then weights else default_weights in
  age_factor <- age_factor_of age ;;
  i <- as_num income ;;
  let income_factor := income_factor_of i in
  surplus_factor <- surplus_factor_of monthly_surplus i ;;
  savings_factor <- savings_factor_of current_savings i ;;
  timeline_factor <- timeline_factor_of goals ;;
  tolerance_factor <- tolerance_factor_of risk_tolerance ;;
  t1 <- term w "age" age_factor ;;
  t2 <- term w "income" income_factor ;;
  t3 <- term w "timeline" timeline_factor ;;
  t4 <- term w "surplus" surplus_factor ;;
  t5 <- term w "savings" savings_factor ;;
  t6 <- term w "tolerance" tolerance_factor ;;
  let risk_score := t1 + t2 + t3 + t4 + t5 + t6 in
  Ok (clamp01 risk_score).

(** The allocation dict [{"debt": d, "equity": e}], as fractions. *)
Record Allocation := mkAllocation { debt : R; equity : R }.

Definition get_risk_category_from_score (risk_score : R)
    : string * Allocation :=
  if Rleb risk_score 0.2 then ("Very Conservative", mkAllocation 0.85 0.15)
  else if Rleb risk_score 0.4 then ("Conservative", mkAllocation 0.70 0.30)
  else if Rleb risk_score 0.6 then ("Moderate", mkAllocation 0.55 0.45)
  else if Rleb risk_score 0.8 then ("Growth", mkAllocation 0.35 0.65)
  else ("Aggressive", mkAllocation 0.20 0.80).

(** The dict returned by [analyze_user_risk_profile]. *)
Record Analysis := mkAnalysis {
  risk_score : R;
  risk_category : string;
  debt_percentage : R;
  equity_percentage : R;
  allocation : Allocation
}.

Definition analyze_user_risk_profile (user_data : list (pyval * pyval))
    : result Analysis :=
  let age := get user_data "age" VNone in
  let income := get user_data "income" VNone in
  let current_savings := get user_data "current_savings" VNone in
  let monthly_surplus := get user_data "monthly_surplus" VNone in
  let goals := get user_data "goals" (VDict []) in
  let risk_tolerance := get user_data "risk_tolerance" (VNum 3) in
  let custom_weights := get user_data "weights" VNone in
  score <- calculate_risk_score age income current_savings monthly_surplus
             goals risk_tolerance custom_weights ;;
  let (category, alloc) := get_risk_category_from_score score in
  Ok (mkAnalysis (round score 3) category
        (round (debt alloc * 100) 1) (round (equity alloc * 100) 1) alloc).

End RiskAssessment.

(** ** modules/risk_assessment_complex.py *)

Module RiskAssessmentComplex.

Import Py Settings.
Local Open Scope R_scope.
Local Open Scope string_scope.
Local Open Scope py_scope.

(** A [RiskAssessmentEngine] instance: [self.config]; [self.allocation_config]
    is always [AllocationConfig()]. *)
Record RiskAssessmentEngine := mkEngine { config : RiskAssessmentConfig }.

Definition total_weight (cfg : RiskAssessmentConfig) : R :=
  fold_left Rplus (map snd (WEIGHTS cfg)) 0.

(** The sum and the comparison are taken over the reals.  In floating point
    a sum of 1.01 gives [abs(1.01 - 1.0) = 0.010000000000000009], which is
    above 0.01, and the constructor raises; likewise at 0.99.  Over the reals
    both sums sit exactly on the tolerance and pass. *)
Definition _validate_config (self : RiskAssessmentEngine) : result unit :=
  if Rltb 0.01 (Rabs (total_weight (config self) - 1.0))
  then Raise ValueError
  else Ok tt.

(** [RiskAssessmentEngine(config)] *)
Definition __init__ (cfg : option RiskAssessmentConfig)
    : result RiskAssessmentEngine :=
  let self := mkEngine (match cfg with Some c => c | None => default_config end) in
  _ <- _validate_config self ;;
  Ok self.

(** The engine [RiskAssessmentEngine()] holds once its constructor has run. *)
Definition default_engine : RiskAssessmentEngine := mkEngine default_config.

(** The dict returned by [calculate_risk_score]. *)
Record ScoreResult := mkScoreResult {
  risk_score : R;
  risk_category : string;
  debt_allocation : Z;
  equity_allocation : Z;
  factor_breakdown : list (string * R);
  weighted_contributions : list (string * R);
  error : option string
}.

Definition _get_default_conservative_profile : ScoreResult :=
  mkScoreResult 0.3 "Conservative" 70 30 [] []
    (Some "Used default conservative profile due to calculation error").

Definition _calculate_age_factor (age : Z) : R :=
  if (age <=? 25)%Z then 1.0
  else if (age <=? 35)%Z then 0.8
  else if (age <=? 45)%Z then 0.6
  else if (age <=? 55)%Z then 0.4
  else 0.2.

Definition _calculate_income_factor (self : RiskAssessmentEngine) (income : R)
    : result R :=
  let capped_income := Rmin income (INCOME_CAP (config self)) in
  income_factor <- div capped_income (INCOME_CAP (config self)) ;;
  Ok (clamp01 income_factor).

Definition _calculate_timeline_factor (goals : pyval) : result R :=
  if negb (truthy goals) then Ok 0.5
  else
    n <- len goals ;;
    if (n =? 0)%nat then Ok 0.5
    else
      ks <- keys goals ;;
      years <- mapM (fun months => m <- as_num months ;; Ok (m / 12)) ks ;;
      let avg_timeline_years := mean years in
      num <- log1p avg_timeline_years ;;
      den <- log1p 30 ;;
      timeline_factor <- div num den ;;
      Ok (clamp01 timeline_factor).

Definition _calculate_surplus_factor (monthly_surplus income : R) : result R :=
  if Rleb income 0 then Ok 0.0
  else
    let surplus := Rmax monthly_surplus 0 in
    let reference_income := if Rltb 0 income then income / 2 else 1 in
    num <- log1p surplus ;;
    den <- log1p reference_income ;;
    surplus_factor <- div num den ;;
    Ok (clamp01 surplus_factor).

Definition _calculate_savings_factor (current_savings monthly_income : R)
    : result R :=
  if Rleb monthly_income 0 then Ok 0.0
  else
    savings_months <- div current_savings monthly_income ;;
    num <- log1p savings_months ;;
    den <- log1p 60 ;;
    savings_factor <- div num den ;;
    Ok (clamp01 savings_factor).

Definition _calculate_tolerance_factor (risk_tolerance : Z) : R :=
  (IZR risk_tolerance - 1) / 9.

Definition factor_names : list string :=
  [ "age_factor"; "income_factor"; "timeline_factor"; "surplus_factor";
    "savings_factor"; "risk_tolerance_factor" ].

(** [sum(weights[name] * factor for name, factor in zip(...))], from 0. *)
Fixpoint weighted_sum (weights : pyval) (terms : list (string * R)) (acc : R)
    : result R :=
  match terms with
  | [] => Ok acc
  | (name, factor) :: terms' =>
      v <- subscript weights name ;;
      x <- as_num v ;;
      weighted_sum weights terms' (acc + x * factor)
  end.

Definition _calculate_weighted_score (weights : pyval) (factors : list R)
    : result R :=
  risk_score <- weighted_sum weights (combine factor_names factors) 0 ;;
  Ok (clamp01 risk_score).

Fixpoint lookup {A : Type} (k : string) (d : list (string * A)) : option A :=
  match d with
  | [] => None
  | (k', v) :: d' => if String.eqb k k' then Some v else lookup k d'
  end.

(** [ALLOCATIONS[category]] *)
Definition allocation_of (category : string) : result Allocation :=
  match lookup category ALLOCATIONS with
  | Some a => Ok a
  | None => Raise KeyError
  end.

Fixpoint first_band (bands : list ((R * R) * string)) (risk_score : R)
    : option string :=
  match bands with
  | [] => None
  | ((min_score, max_score), category) :: bands' =>
      if Rleb min_score risk_score && Rleb risk_score max_score
      then Some category
      else first_band bands' risk_score
  end.

Definition _get_risk_category_and_allocation (self : RiskAssessmentEngine)
    (risk_score : R) : result (string * Allocation) :=
  match first_band (RISK_CATEGORIES (config self)) risk_score with
  | Some category =>
      allocation <- allocation_of category ;;
      Ok (category, allocation)
  | None =>
      allocation <- allocation_of "Moderate" ;;
      Ok ("Moderate", allocation)
  end.

Section Builtins.

(** [int(s)] and [float(s)] on a string: the parsed number, or [None] where
    Python raises [ValueError].  A [VNum] is a Python int or a finite float:
    [int()] of an infinity or a NaN and [float()] of an int beyond the float
    range raise [OverflowError] or [ValueError] in Python and have no
    counterpart here. *)
Variable int_of_str : string -> option Z.
Variable float_of_str : string -> option R.

Definition py_int (v : pyval) : result Z :=
  match v with
  | VNum x => Ok (trunc x)
  | VStr s => match int_of_str s with Some z => Ok z | None => Raise ValueError end
  | _ => Raise TypeError
  end.

Definition py_float (v : pyval) : result R :=
  match v with
  | VNum x => Ok x
  | VStr s => match float_of_str s with Some x => Ok x | None => Raise ValueError end
  | _ => Raise TypeError
  end.

(** [except (ValueError, TypeError): return default] *)
Definition or_default {A : Type} (default : A) (e : exn) : result A :=
  match e with
  | ValueError | TypeError => Ok default
  | _ => Raise e
  end.

Definition _validate_age (age : pyval) : result Z :=
  try_except
    (a <- py_int age ;;
     if (a <? 18)%Z || (100 <? a)%Z then Ok 30%Z else Ok a)
    (or_default 30%Z).

Definition _validate_income (income : pyval) : result R :=
  try_except
    (i <- py_float income ;;
     if Rltb i 0 then Ok 0 else Ok i)
    (or_default 50000).

Definition _validate_risk_tolerance (risk_tolerance : pyval) : result Z :=
  try_except
    (tolerance <- py_int risk_tolerance ;;
     if (tolerance <? 1)%Z || (10 <? tolerance)%Z then Ok 5%Z else Ok tolerance)
    (or_default 5%Z).

(** [max(v, 0)] *)
Definition max0 (v : pyval) : result R :=
  x <- as_num v ;; Ok (Rmax x 0).

(** [round(weights[name] * factor, 3)] *)
Definition contribution (weights : pyval) (name : string) (factor : R)
    : result R :=
  v <- subscript weights name ;;
  x <- as_num v ;;
  Ok (round (x * factor) 3).

Definition weights_value (cfg : RiskAssessmentConfig) : pyval :=
  VDict (map (fun kv => (VStr (fst kv), VNum (snd kv))) (WEIGHTS cfg)).

(** The body of the [try] block of [calculate_risk_score]. *)
Definition score_body (self : RiskAssessmentEngine)
    (user_profile : list (pyval * pyval)) : result ScoreResult :=
  age <- _validate_age (get user_profile "age" (VNum 30)) ;;
  income <- _validate_income (get user_profile "monthly_income" (VNum 50000)) ;;
  current_savings <- max0 (get user_profile "current_savings" (VNum 0)) ;;
  monthly_surplus <- max0 (get user_profile "monthly_surplus" (VNum 0)) ;;
  let goals := get user_profile "goals" (VDict []) in
  risk_tolerance <-
    _validate_risk_tolerance (get user_profile "risk_tolerance_score" (VNum 5)) ;;
  let weights :=
    get user_profile "custom_weights" (weights_value (config self)) in
  let age_factor := _calculate_age_factor age in
  income_factor <- _calculate_income_factor self income ;;
  timeline_factor <- _calculate_timeline_factor goals ;;
  surplus_factor <- _calculate_surplus_factor monthly_surplus income ;;
  savings_factor <- _calculate_savings_factor current_savings income ;;
  let tolerance_factor := _calculate_tolerance_factor risk_tolerance in
  risk_score <-
    _calculate_weighted_score weights
      [ age_factor; income_factor; timeline_factor; surplus_factor;
        savings_factor; tolerance_factor ] ;;
  ca <- _get_risk_category_and_allocation self risk_score ;;
  c1 <- contribution weights "age_factor" age_factor ;;
  c2 <- contribution weights "income_factor" income_factor ;;
  c3 <- contribution weights "timeline_factor" timeline_factor ;;
  c4 <- contribution weights "surplus_factor" surplus_factor ;;
  c5 <- contribution weights "savings_factor" savings_factor ;;
  c6 <- contribution weights "risk_tolerance_factor" tolerance_factor ;;
  Ok (mkScoreResult (round risk_score 3) (fst ca)
        (debt (snd ca)) (equity (snd ca))
        [ ("age_factor", round age_factor 3);
          ("income_factor", round income_factor 3);
          ("timeline_factor", round timeline_factor 3);
          ("surplus_factor", round surplus_factor 3);
          ("savings_factor", round savings_factor 3);
          ("tolerance_factor", round tolerance_factor 3) ]
        [ ("age_contribution", c1); ("income_contribution", c2);
          ("timeline_contribution", c3); ("surplus_contribution", c4);
          ("savings_contribution", c5); ("tolerance_contribution", c6) ]
        None).

(** [try: ... except Exception: return self._get_default_conservative_profile()] *)
Definition calculate_risk_score (self : RiskAssessmentEngine)
    (user_profile : list (pyval * pyval)) : result ScoreResult :=
  try_except (score_body self user_profile)
    (fun _ => Ok _get_default_conservative_profile).

End Builtins.

End RiskAssessmentComplex.

(** ** Orderings used to state the ranking properties *)

Module FundRanking.

Import FundFiltering.
Local Open Scope Q_scope.

(** [a] is ranked no lower than [b]. *)
Definition by_score_desc (a b : ScoredFund) : Prop := snd b <= snd a.

(** The rows of a universe whose category is one of the five the allocator
    looks at. *)
Definition known_categories (u : FundUniverse) : FundUniverse :=
  filter (fun f => existsb (String.eqb (category f)) categories) u.

End FundRanking.

(** ** streamlit_app.py *)

Module StreamlitApp.

Import FundFiltering.
Local Open Scope Q_scope.
Local Open Scope string_scope.

(** The bundled fund universe (20 funds, four per category). *)
Definition load_sample_fund_data : FundUniverse :=
  [ mkFund "HDFC Top 100 Fund" "large_cap" (125#10) (105#100) (85#100) (21#10) 15;
    mkFund "Axis Bluechip Fund" "large_cap" (138#10) (115#100) (92#100) (28#10) 12;
    mkFund "SBI Large Cap Fund" "large_cap" (112#10) (195#100) (78#100) (15#10) 20;
    mkFund "ICICI Prudential Bluechip" "large_cap" (128#10) (125#100) (88#100) (23#10) 18;
    mkFund "DSP Midcap Fund" "mid_cap" (156#10) (189#100) (88#100) (32#10) 8;
    mkFund "HDFC Mid-Cap Opportunities" "mid_cap" (168#10) (21#10) (95#100) (38#10) 10;
    mkFund "Kotak Emerging Equity" "mid_cap" (149#10) (175#100) (82#100) (29#10) 7;
    mkFund "Invesco India Midcap" "mid_cap" (152#10) (195#100) (89#100) (31#10) 9;
    mkFund "SBI Small Cap Fund" "small_cap" (182#10) (215#100) (75#100) (41#10) 6;
    mkFund "DSP Small Cap Fund" "small_cap" (195#10) (205#100) (88#100) (45#10) 9;
    mkFund "Axis Small Cap Fund" "small_cap" (178#10) (23#10) (72#100) (37#10) 5;
    mkFund "Nippon India Small Cap" "small_cap" (189#10) (22#10) (85#100) (42#10) 7;
    mkFund "HDFC Corporate Bond" "debt" (78#10) (45#100) (125#100) (12#10) 12;
    mkFund "SBI Corporate Bond" "debt" (81#10) (55#100) (118#100) (14#10) 18;
    mkFund "Axis Corporate Debt" "debt" (75#10) (48#100) (122#100) (11#10) 8;
    mkFund "ICICI Prudential Corporate Bond" "debt" (79#10) (52#100) (120#100) (13#10) 14;
    mkFund "HDFC Balanced Advantage" "hybrid" (102#10) (125#100) (95#100) (22#10) 14;
    mkFund "ICICI Prudential Balanced" "hybrid" (98#10) (135#100) (89#100) (19#10) 16;
    mkFund "SBI Equity Hybrid" "hybrid" (105#10) (145#100) (92#100) (24#10) 11;
    mkFund "Kotak Balanced" "hybrid" (95#10) (138#100) (87#100) (18#10) 13 ].


(** A row of the frame returned by [calculate_sip_projection]. *)
Record ProjectionRow := mkRow {
  Month : nat;
  Year : Q;
  Total_Invested : Q;
  Maturity_Value : Q;
  Gains : Q
}.

(** The body of the loop of [calculate_sip_projection] for one month. *)
Definition projection_row (monthly_sip monthly_return : Q) (month : nat)
    : ProjectionRow :=
  let total_invested := inject_Z (Z.of_nat month) * monthly_sip in
  let maturity_value :=
    if Qltb 0 monthly_return then
      monthly_sip
      * (((1 + monthly_return) ^ Z.of_nat month - 1) / monthly_return)
      * (1 + monthly_return)
    else total_invested in
  mkRow month (inject_Z (Z.of_nat month) / 12) total_invested maturity_value
    (maturity_value - total_invested).

(** The maturity value after [k] months at a positive monthly return [r]. *)
Definition maturity_closed_form (sip r : Q) (k : nat) : Q :=
  sip * (((1 + r) ^ Z.of_nat k - 1) / r) * (1 + r).

Definition calculate_sip_projection (monthly_sip : Q) (years : Z)
    (annual_return : Q) : list ProjectionRow :=
  let months := (years * 12)%Z in
  let monthly_return := annual_return / 12 in
  map (projection_row monthly_sip monthly_return) (seq 1 (Z.to_nat months)).

(** The monthly contribution [main] computes for a goal:
    [goal_amount * monthly_rate / ((1 + monthly_rate) ** goal_months - 1)]. *)
Definition required_sip (goal_amount expected_return : Q) (goal_months : nat)
    : Q :=
  let monthly_rate := expected_return / 12 in
  goal_amount * monthly_rate / ((1 + monthly_rate) ^ Z.of_nat goal_months - 1).

Section MonteCarlo.

(** The state of NumPy's generator, [np.random.normal(mean, sd)] as the draw
    and the next state, and [math.sqrt]. *)
Variable rng : Type.
Variable normal : rng -> Q -> Q -> Q * rng.
Variable sqrt : Q -> Q.

(** The inner loop: one simulated path of [months] months. *)
Fixpoint simulate_path (months : nat)
    (monthly_sip monthly_return monthly_volatility : Q)
    (g : rng) (portfolio_value : Q) : Q * rng :=
  match months with
  | O => (portfolio_value, g)
  | S months' =>
      let (random_return, g') := normal g monthly_return monthly_volatility in
      simulate_path months' monthly_sip monthly_return monthly_volatility g'
        ((portfolio_value + monthly_sip) * (1 + random_return))
  end.

(** The outer loop: [simulations] paths, one after the other. *)
Fixpoint simulate (simulations months : nat)
    (monthly_sip expected_return volatility : Q) (g : rng) : list Q * rng :=
  match simulations with
  | O => ([], g)
  | S n =>
      let monthly_return := expected_return / 12 in
      let monthly_volatility := volatility / sqrt 12 in
      let (v, g') :=
        simulate_path months monthly_sip monthly_return monthly_volatility g 0
      in
      let (rest, g'') :=
        simulate n months monthly_sip expected_return volatility g' in
      (v :: rest, g'')
  end.

(** [(results >= target_amount).mean() * 100] *)
Definition success_rate_of (results : list Q) (target_amount : Q) : Q :=
  inject_Z (Z.of_nat (length (filter (Qle_bool target_amount) results)))
  / inject_Z (Z.of_nat (length results)) * 100.

Definition monte_carlo_simulation (monthly_sip : Q) (years : Z)
    (expected_return volatility target_amount : Q) (simulations : nat)
    (g : rng) : (list Q * Q) * rng :=
  let months := Z.to_nat (years * 12) in
  let (results, g') :=
    simulate simulations months monthly_sip expected_return volatility g in
  ((results, success_rate_of results target_amount), g').

End MonteCarlo.

End StreamlitApp.

(** ** risk_assessment_complex.py: sensitivity analysis *)

Module RiskSensitivity.

Import Py Settings RiskAssessmentComplex.
Local Open Scope R_scope.
Local Open Scope string_scope.
Local Open Scope py_scope.

(** [d[k] = v] on the items of a dict: the value under an existing key is
    replaced in place, a new key goes to the end. *)
Fixpoint set_item (items : list (pyval * pyval)) (k : string) (v : pyval)
    : list (pyval * pyval) :=
  match items with
  | [] => [(VStr k, v)]
  | (VStr k', v') :: items' =>
      if String.eqb k k' then (VStr k, v) :: items'
      else (VStr k', v') :: set_item items' k v
  | kv :: items' => kv :: set_item items' k v
  end.



Section Builtins.

Variable int_of_str : string -> option Z.
Variable float_of_str : string -> option R.



End Builtins.

End RiskSensitivity.

(** ** risk_assessment_complex.py: the module-level convenience functions *)

Module RiskAssessmentLegacy.

Import Py Settings.
Local Open Scope R_scope.
Local Open Scope string_scope.
Local Open Scope py_scope.

Section Builtins.

Variable int_of_str : string -> option Z.
Variable float_of_str : string -> option R.

(** A fresh engine, the arguments packed into a profile, the score of the
    result. *)
Definition calculate_risk_score
    (age income current_savings monthly_surplus goals risk_tolerance
       weights : pyval) : result R :=
  engine <- RiskAssessmentComplex.__init__ None ;;
  let user_profile :=
    [ (VStr "age", age); (VStr "monthly_income", income);
      (VStr "current_savings", current_savings);
      (VStr "monthly_surplus", monthly_surplus);
      (VStr "goals", goals); (VStr "risk_tolerance_score", risk_tolerance) ] in
  let user_profile :=
    if truthy weights
    then RiskSensitivity.set_item user_profile "custom_weights" weights
    else user_profile in
  result <-
    RiskAssessmentComplex.calculate_risk_score int_of_str float_of_str engine
      user_profile ;;
  Ok (RiskAssessmentComplex.risk_score result).

End Builtins.

Definition get_risk_category_from_score (risk_score : R)
    : result (string * Allocation) :=
  engine <- RiskAssessmentComplex.__init__ None ;;
  ca <- RiskAssessmentComplex._get_risk_category_and_allocation engine
          risk_score ;;
  let allocation_percent := mkAllocation (debt (snd ca)) (equity (snd ca)) in
  Ok (fst ca, allocation_percent).

End RiskAssessmentLegacy.

(** ** The range of Python floats *)

Module PyFloat.

Local Open Scope R_scope.

(** [sys.float_info.max], the largest finite float. *)
Definition float_max : R := (2 - / 2 ^ 52) * 2 ^ 1023.

(** A number that [float()] and float arithmetic accept without
    [OverflowError]: a finite float, or an int within the float range. *)
Definition finite (x : R) : Prop := Rabs x <= float_max.

End PyFloat.

(** * Properties *)

(** ** Fund filtering *)

Section FundFilteringFacts.

Import FundFiltering.
Local Open Scope Q_scope.
Local Open Scope string_scope.

Lemma Qltb_lt (x y : Q) : Qltb x y = true <-> x < y.
Proof.
  unfold Qltb. rewrite negb_true_iff, <- not_true_iff_false, Qle_bool_iff.
  split; [apply Qnot_le_lt | apply Qlt_not_le].
Qed.

Lemma is_empty_nil {A : Type} (l : list A) : is_empty l = true <-> l = [].
Proof. destruct l; simpl; split; congruence. Qed.

Lemma survives_true (u : FundUniverse) (c : string) :
  survives u c = true <-> apply_category_filters (select_category u c) c <> [].
Proof.
  unfold survives. rewrite negb_true_iff, <- not_true_iff_false, is_empty_nil.
  reflexivity.
Qed.

Lemma survives_false (u : FundUniverse) (c : string) :
  survives u c = false <-> apply_category_filters (select_category u c) c = [].
Proof.
  unfold survives. rewrite negb_false_iff. apply is_empty_nil.
Qed.

(** Both emptiness tests of a loop iteration collapse into [survives]: an
    empty category has an empty shortlist. *)
Lemma process_category_survives (u : FundUniverse) (share : Q)
    (acc : FilteredFunds) (c : string) (p : Q) :
  process_category u share acc (c, p) =
  if survives u c
  then (acc ++ [(c, mkEntry (share * p)
                      (get_top_funds
                         (apply_category_filters (select_category u c) c)))])%list
  else acc.
Proof.
  unfold process_category, survives.
  destruct (select_category u c) as [|f l] eqn:E; [reflexivity|].
  cbn [is_empty].
  destruct (apply_category_filters (f :: l) c); reflexivity.
Qed.

Lemma process_hybrid_survives (u : FundUniverse) (a : Allocation)
    (acc : FilteredFunds) :
  process_hybrid u a acc =
  if Qltb (2 # 10) (equity a) && Qltb (2 # 10) (debt a) && survives u "hybrid"
  then (acc ++ [("hybrid", mkEntry (nominal_share a "hybrid")
                   (get_top_funds
                      (apply_category_filters (select_category u "hybrid")
                         "hybrid")))])%list
  else acc.
Proof.
  unfold process_hybrid, survives.
  destruct (Qltb (2 # 10) (equity a) && Qltb (2 # 10) (debt a)); [|reflexivity].
  cbn [andb].
  destruct (select_category u "hybrid") as [|f l] eqn:E; [reflexivity|].
  cbn [is_empty negb].
  destruct (apply_category_filters (f :: l) "hybrid"); reflexivity.
Qed.

Lemma filter_funds_expected (u : FundUniverse) (s : Q) :
  filter_funds u s =
  (fst (get_risk_category_from_score s),
   expected (snd (get_risk_category_from_score s)) u).
Proof.
  unfold filter_funds.
  destruct (get_risk_category_from_score s) as [rc a]. cbn [fst snd].
  f_equal.
  rewrite process_hybrid_survives.
  unfold process_split, equity_split, debt_split, expected, categories,
    present, entry_of, shortlist.
  cbn [fold_left flat_map String.eqb Ascii.eqb Bool.eqb nominal_share].
  rewrite !process_category_survives.
  destruct (Qltb 0 (equity a)), (Qltb 0 (debt a)),
    (Qltb (2 # 10) (equity a)), (Qltb (2 # 10) (debt a)),
    (survives u "large_cap"), (survives u "mid_cap"),
    (survives u "small_cap"), (survives u "debt"), (survives u "hybrid");
    reflexivity.
Qed.

Lemma lookup_flat_map {A : Type} (p : string -> bool) (v : string -> A)
    (ks : list string) (c : string) :
  lookup c (flat_map (fun k => if p k then [(k, v k)] else []) ks) =
  if existsb (String.eqb c) ks && p c then Some (v c) else None.
Proof.
  induction ks as [|k ks IH]; [reflexivity|].
  cbn [flat_map existsb].
  destruct (String.eqb c k) eqn:E.
  - apply String.eqb_eq in E. subst k. cbn [orb andb].
    destruct (p c) eqn:Pc; cbn [app lookup].
    + rewrite String.eqb_refl. reflexivity.
    + rewrite IH, andb_false_r. reflexivity.
  - cbn [orb]. destruct (p k); cbn [app lookup]; rewrite ?E; exact IH.
Qed.

Lemma lookup_expected (a : Allocation) (u : FundUniverse) (c : string) :
  lookup c (expected a u) =
  if existsb (String.eqb c) categories && present a u c
  then Some (mkEntry (nominal_share a c) (get_top_funds (shortlist u c)))
  else None.
Proof.
  unfold expected, entry_of.
  apply (lookup_flat_map (present a u)
           (fun k => mkEntry (nominal_share a k) (get_top_funds (shortlist u k)))).
Qed.

Lemma lookup_map_recommend (d : FilteredFunds) (c : string) :
  lookup c (map recommend d) =
  option_map (fun e => mkRecommendation (round1 (allocation_pct e * 100))
                         (length (funds e)) (funds e))
             (lookup c d).
Proof.
  induction d as [|[k e] d IH]; [reflexivity|].
  cbn [map recommend lookup]. destruct (String.eqb c k); [reflexivity|exact IH].
Qed.

(** The five outcomes of the score-to-category chain. *)
Lemma risk_category_cases (s : Q) :
  In (get_risk_category_from_score s)
     [ ("Very Conservative", mkAllocation (85 # 100) (15 # 100));
       ("Conservative", mkAllocation (70 # 100) (30 # 100));
       ("Moderate", mkAllocation (55 # 100) (45 # 100));
       ("Growth", mkAllocation (35 # 100) (65 # 100));
       ("Aggressive", mkAllocation (20 # 100) (80 # 100)) ].
Proof.
  unfold get_risk_category_from_score.
  destruct (Qle_bool s (2 # 10)); [simpl; auto|].
  destruct (Qle_bool s (4 # 10)); [simpl; auto|].
  destruct (Qle_bool s (6 # 10)); [simpl; auto|].
  destruct (Qle_bool s (8 # 10)); simpl; auto 6.
Qed.

Lemma moderate_band (s : Q) :
  4 # 10 < s -> s <= 6 # 10 ->
  get_risk_category_from_score s
  = ("Moderate", mkAllocation (55 # 100) (45 # 100)).
Proof.
  intros Hlo Hhi. unfold get_risk_category_from_score.
  assert (E1 : Qle_bool s (2 # 10) = false).
  { apply not_true_iff_false. rewrite Qle_bool_iff. intros H.
    apply (Qlt_irrefl s). eapply Qle_lt_trans; [exact H|].
    eapply Qlt_trans; [|exact Hlo]. reflexivity. }
  assert (E2 : Qle_bool s (4 # 10) = false).
  { apply not_true_iff_false. rewrite Qle_bool_iff. intros H.
    apply (Qlt_irrefl s). eapply Qle_lt_trans; [exact H|exact Hlo]. }
  assert (E3 : Qle_bool s (6 # 10) = true) by (apply Qle_bool_iff; exact Hhi).
  rewrite E1, E2, E3. reflexivity.
Qed.


Ltac qle_compute := apply Qle_bool_iff; vm_compute; reflexivity.

(** The totals of a portfolio only depend on the baseline and on which
    shortlists are non-empty; every combination is checked by evaluation. *)
Lemma totals_bounded (u : FundUniverse) (s : Q) :
  let p := create_portfolio_recommendations u s in
  total_allocation p <= 109 /\
  sum_percentages (recommendations p) <= 109 /\
  total_allocation p <= 100 + hybrid_percentage (recommendations p) /\
  sum_percentages (recommendations p)
  <= 100 + hybrid_percentage (recommendations p) /\
  hybrid_percentage (recommendations p) <= 9.
Proof.
  unfold create_portfolio_recommendations.
  rewrite filter_funds_expected.
  pose proof (risk_category_cases s) as Hc.
  destruct (get_risk_category_from_score s) as [rc a].
  cbn [fst snd total_allocation recommendations].
  unfold expected, categories, present, entry_of. cbn [flat_map].
  generalize (get_top_funds (shortlist u "large_cap")),
    (get_top_funds (shortlist u "mid_cap")),
    (get_top_funds (shortlist u "small_cap")),
    (get_top_funds (shortlist u "debt")),
    (get_top_funds (shortlist u "hybrid")).
  intros t1 t2 t3 t4 t5.
  cbn [In] in Hc.
  destruct Hc as [H|[H|[H|[H|[H|[]]]]]]; inversion H; subst rc a; clear H;
    destruct (survives u "large_cap"), (survives u "mid_cap"),
      (survives u "small_cap"), (survives u "debt"), (survives u "hybrid");
    repeat split; qle_compute.
Qed.




Lemma In_firstn {A : Type} (n : nat) (l : list A) (x : A) :
  In x (firstn n l) -> In x l.
Proof.
  revert l. induction n as [|n IH]; intros [|y l]; cbn; try tauto.
  intros [H|H]; [left; exact H|right; apply IH; exact H].
Qed.

Lemma In_insert_desc (x y : ScoredFund) (l : list ScoredFund) :
  In y (insert_desc x l) -> y = x \/ In y l.
Proof.
  induction l as [|z l IH]; cbn.
  - intros [H|[]]. left. symmetry. exact H.
  - destruct (Qle_bool (snd z) (snd x)); cbn.
    + intros [H|H]; [left; symmetry; exact H|right; exact H].
    + intros [H|H]; [right; left; exact H|].
      destruct (IH H) as [H'|H']; [left; exact H'|right; right; exact H'].
Qed.

(** Ranking only reorders and truncates: every ranked fund comes from the
    shortlist it was given. *)
Lemma get_top_funds_In (filtered : list Fund) (x : ScoredFund) :
  In x (get_top_funds filtered) -> In (fst x) filtered.
Proof.
  unfold get_top_funds, nlargest. intros H. apply In_firstn in H.
  assert (G : forall rows, In x (fold_right insert_desc [] rows) -> In x rows).
  { induction rows as [|r rows IH]; cbn; [tauto|].
    intros H'. apply In_insert_desc in H'.
    destruct H' as [H'|H']; [left; symmetry; exact H'|right; apply IH; exact H']. }
  apply G in H. destruct x as [f sc]. apply in_combine_l in H. exact H.
Qed.

Lemma lookup_filter_funds (u : FundUniverse) (s : Q) (c : string) :
  lookup c (snd (filter_funds u s)) =
  let a := snd (get_risk_category_from_score s) in
  if existsb (String.eqb c) categories && present a u c
  then Some (mkEntry (nominal_share a c) (get_top_funds (shortlist u c)))
  else None.
Proof. rewrite filter_funds_expected. cbn [snd]. apply lookup_expected. Qed.




Lemma lookup_filter_funds_share (u : FundUniverse) (s : Q) (c : string)
    (e : Entry) :
  lookup c (snd (filter_funds u s)) = Some e ->
  allocation_pct e = nominal_share (snd (get_risk_category_from_score s)) c.
Proof.
  rewrite lookup_filter_funds. cbv zeta.
  destruct (existsb (String.eqb c) categories &&
            present (snd (get_risk_category_from_score s)) u c);
    [|discriminate].
  intros H. injection H as <-. reflexivity.
Qed.

Lemma recommendations_lookup (u : FundUniverse) (s : Q) (c : string) :
  lookup c (recommendations (create_portfolio_recommendations u s))
  = option_map (fun e => mkRecommendation (round1 (allocation_pct e * 100))
                           (length (funds e)) (funds e))
               (lookup c (snd (filter_funds u s))).
Proof.
  unfold create_portfolio_recommendations.
  destruct (filter_funds u s) as [rc d]. cbn [recommendations snd].
  apply lookup_map_recommend.
Qed.

(** C5: the hybrid entry is present, in the dict of [filter_funds] and in the
    recommendations alike, exactly when baseline equity and debt are both
    strictly above 0.2 and the hybrid shortlist is non-empty; its
    allocation is [min(0.15, equity*0.2, debt*0.2)]; the equity and debt
    entries keep their full shares [equity*0.5], [equity*0.3], [equity*0.2]
    and [debt*1.0] next to it; for the Moderate band it is 0.09. *)
Theorem C5_hybrid_carve_out :
  forall (u : FundUniverse) (s : Q),
  let a := snd (get_risk_category_from_score s) in
  let d := snd (filter_funds u s) in
  (lookup "hybrid" d <> None <->
   2 # 10 < equity a /\ 2 # 10 < debt a /\
   apply_category_filters (select_category u "hybrid") "hybrid" <> []) /\
  (lookup "hybrid" (recommendations (create_portfolio_recommendations u s))
   <> None <-> lookup "hybrid" d <> None) /\
  (forall e, lookup "hybrid" d = Some e ->
     allocation_pct e
     = Qmin (Qmin (15 # 100) (equity a * (2 # 10))) (debt a * (2 # 10))) /\
  (forall e, lookup "large_cap" d = Some e ->
     allocation_pct e = equity a * (5 # 10)) /\
  (forall e, lookup "mid_cap" d = Some e ->
     allocation_pct e = equity a * (3 # 10)) /\
  (forall e, lookup "small_cap" d = Some e ->
     allocation_pct e = equity a * (2 # 10)) /\
  (forall e, lookup "debt" d = Some e -> allocation_pct e = debt a * 1) /\
  (4 # 10 < s -> s <= 6 # 10 ->
   a = mkAllocation (55 # 100) (45 # 100) /\
   forall e, lookup "hybrid" d = Some e -> allocation_pct e == 9 # 100).
Proof.
  intros u s a d.
  assert (Hshare : forall c e, lookup c d = Some e ->
                     allocation_pct e = nominal_share a c)
    by (intros c e; apply lookup_filter_funds_share).
  split; [|split; [|repeat split]].
  - unfold d. rewrite lookup_filter_funds. cbv zeta. fold a.
    cbn [categories existsb String.eqb Ascii.eqb Bool.eqb orb andb present].
    rewrite <- survives_true, <- !Qltb_lt.
    destruct (Qltb (2 # 10) (equity a)), (Qltb (2 # 10) (debt a)),
      (survives u "hybrid"); cbn [andb]; split;
      intuition (try congruence; try discriminate).
  - rewrite recommendations_lookup. fold d.
    destruct (lookup "hybrid" d); cbn [option_map]; split; congruence.
  - intros e H. apply Hshare in H. exact H.
  - intros e H. apply Hshare in H. exact H.
  - intros e H. apply Hshare in H. exact H.
  - intros e H. apply Hshare in H. exact H.
  - intros e H. apply Hshare in H. exact H.
  - unfold a. rewrite (moderate_band s H H0). reflexivity.
  - intros e He. apply Hshare in He. rewrite He. unfold a.
    rewrite (moderate_band s H H0). reflexivity.
Qed.

(** The Moderate score 0.5 on the universe where every shortlist is
    non-empty: the hybrid entry is there and holds 9%. *)
Lemma C5_hybrid_carve_out_witness :
  exists e, lookup "hybrid" (snd (filter_funds full_universe (5 # 10))) = Some e
            /\ allocation_pct e == 9 # 100.
Proof.
  destruct (lookup "hybrid" (snd (filter_funds full_universe (5 # 10))))
    as [e|] eqn:E.
  - exists e. split; [reflexivity|].
    refine (proj2 (proj2 (proj2 (proj2 (proj2 (proj2 (proj2 (proj2
              (C5_hybrid_carve_out full_universe (5 # 10))))))))
              _ _) e E).
    + reflexivity.
    + discriminate.
  - vm_compute in E. discriminate E.
Defined.

Lemma total_allocation_present (u : FundUniverse) (s : Q) :
  total_allocation (create_portfolio_recommendations u s)
  = round1 (present_total (snd (get_risk_category_from_score s)) u * 100).
Proof.
  unfold create_portfolio_recommendations. rewrite filter_funds_expected.
  destruct (get_risk_category_from_score s) as [rc a].
  cbn [fst snd total_allocation]. f_equal. f_equal.
  unfold present_total, expected, categories, entry_of.
  cbn [flat_map fold_left].
  destruct (present a u "large_cap"), (present a u "mid_cap"),
    (present a u "small_cap"), (present a u "debt"), (present a u "hybrid");
    reflexivity.
Qed.

(** C6: a sub-category among large_cap, mid_cap, small_cap and debt that has
    no rows, or whose rows are all filtered out, is absent from the dict of
    [filter_funds] and from the recommendations; every entry that is present
    carries its own fixed share of the baseline, whatever else is missing;
    and the total is the sum of the shares that are present. *)
Theorem C6_empty_subcategory_omitted :
  forall (u : FundUniverse) (s : Q) (c : string),
  In c ["large_cap"; "mid_cap"; "small_cap"; "debt"] ->
  select_category u c = [] \/
  apply_category_filters (select_category u c) c = [] ->
  let a := snd (get_risk_category_from_score s) in
  let p := create_portfolio_recommendations u s in
  lookup c (snd (filter_funds u s)) = None /\
  lookup c (recommendations p) = None /\
  present a u c = false /\
  (forall c' e, lookup c' (snd (filter_funds u s)) = Some e ->
     allocation_pct e = nominal_share a c') /\
  (forall c' r, lookup c' (recommendations p) = Some r ->
     allocation_percentage r = round1 (nominal_share a c' * 100)) /\
  total_allocation p = round1 (present_total a u * 100).
Proof.
  intros u s c Hc Hempty a p.
  assert (Hs : survives u c = false).
  { apply survives_false. destruct Hempty as [H|H]; [|exact H].
    rewrite H. reflexivity. }
  assert (Hp : present a u c = false).
  { unfold present. rewrite Hs, !andb_false_r.
    destruct (String.eqb c "debt"), (String.eqb c "hybrid"); reflexivity. }
  assert (Hl : lookup c (snd (filter_funds u s)) = None).
  { rewrite lookup_filter_funds. cbv zeta. fold a.
    rewrite Hp, andb_false_r. reflexivity. }
  split; [exact Hl|].
  split; [unfold p; rewrite recommendations_lookup, Hl; reflexivity|].
  split; [exact Hp|].
  split; [intros c' e; apply lookup_filter_funds_share|].
  split; [|apply total_allocation_present].
  intros c' r. unfold p. rewrite recommendations_lookup.
  destruct (lookup c' (snd (filter_funds u s))) as [e|] eqn:E; [|discriminate].
  cbn [option_map]. intros H. injection H as <-. cbn [allocation_percentage].
  rewrite (lookup_filter_funds_share _ _ _ _ E). reflexivity.
Qed.

(** The self-test universe at score 0.5: no debt fund passes the filters, so
    debt is dropped and the total is 54% instead of 109%. *)
Lemma C6_empty_subcategory_omitted_witness :
  lookup "debt" (recommendations
                   (create_portfolio_recommendations sample_funds (5 # 10)))
  = None /\
  total_allocation (create_portfolio_recommendations sample_funds (5 # 10))
  = 54.
Proof.
  destruct (C6_empty_subcategory_omitted sample_funds (5 # 10) "debt")
    as (_ & H & _ & _ & _ & Ht).
  - cbn [In]. right. right. right. left. reflexivity.
  - right. vm_compute. reflexivity.
  - split; [exact H|]. rewrite Ht. vm_compute. reflexivity.
Defined.

(** C1 as stated fails: with the Moderate score 0.5 and a universe in which
    all five shortlists are non-empty, the allocations add up to 109%. *)
Lemma C1_counterexample :
  0 <= 5 # 10 /\ 5 # 10 <= 1 /\
  total_allocation (create_portfolio_recommendations full_universe (5 # 10))
  = 109 /\
  sum_percentages
    (recommendations (create_portfolio_recommendations full_universe (5 # 10)))
  == 109 /\
  ~ (total_allocation (create_portfolio_recommendations full_universe (5 # 10))
     <= 100).
Proof.
  split; [discriminate|]. split; [discriminate|].
  split; [vm_compute; reflexivity|].
  split; [vm_compute; reflexivity|].
  vm_compute. intros H. apply H. reflexivity.
Qed.

(** C1, amended: the allocations of a recommendation never add up to more
    than 109%, and never to more than 100% plus the percentage of the hybrid
    entry (which is at most 9%), both for the [total_allocation] field and for
    the sum of the per-category percentages; without a hybrid entry the bound
    is 100%.  The total may fall short of 100%. *)
Theorem C1_total_allocation_bound :
  (forall (u : FundUniverse) (s : Q),
     let p := create_portfolio_recommendations u s in
     total_allocation p <= 109 /\
     sum_percentages (recommendations p) <= 109 /\
     total_allocation p <= 100 + hybrid_percentage (recommendations p) /\
     sum_percentages (recommendations p)
     <= 100 + hybrid_percentage (recommendations p) /\
     hybrid_percentage (recommendations p) <= 9) /\
  (exists u s, 0 <= s /\ s <= 1 /\
     total_allocation (create_portfolio_recommendations u s) < 100).
Proof.
  split.
  - intros u s p. destruct (totals_bounded u s) as (H1 & H2 & H3 & H4 & H5).
    repeat split; assumption.
  - exists sample_funds, (5 # 10).
    split; [discriminate|]. split; [discriminate|].
    vm_compute. reflexivity.
Qed.
End FundFilteringFacts.

(** ** Risk scoring *)

Section RiskScoringFacts.

Import Py Settings.
Local Open Scope R_scope.
Local Open Scope string_scope.
Local Open Scope py_scope.

Lemma Rleb_true (x y : R) : Rleb x y = true <-> x <= y.
Proof. unfold Rleb. destruct (Rle_dec x y); split; intros; try lra; congruence. Qed.

Lemma Rleb_false (x y : R) : Rleb x y = false <-> y < x.
Proof. unfold Rleb. destruct (Rle_dec x y); split; intros; try lra; congruence. Qed.

Lemma Rltb_true (x y : R) : Rltb x y = true <-> x < y.
Proof. unfold Rltb. destruct (Rlt_dec x y); split; intros; try lra; congruence. Qed.

Lemma Rltb_false (x y : R) : Rltb x y = false <-> y <= x.
Proof. unfold Rltb. destruct (Rlt_dec x y); split; intros; try lra; congruence. Qed.

(** Decide every comparison in sight and close the goal by linear
    arithmetic. *)
Ltac rcases :=
  unfold Rleb, Rltb in *;
  repeat match goal with
         | |- context [Rle_dec ?x ?y] => destruct (Rle_dec x y)
         | |- context [Rlt_dec ?x ?y] => destruct (Rlt_dec x y)
         end;
  try reflexivity; try lra.

Lemma clamp01_bounds (x : R) : 0 <= clamp01 x <= 1.
Proof.
  unfold clamp01, Rmin, Rmax.
  destruct (Rle_dec x 0); destruct (Rle_dec _ 1); lra.
Qed.

Lemma clamp01_id (x : R) : 0 <= x <= 1 -> clamp01 x = x.
Proof.
  intros H. unfold clamp01, Rmin, Rmax.
  destruct (Rle_dec x 0); destruct (Rle_dec _ 1); lra.
Qed.

Lemma ln1p_pos (x : R) : 0 < x -> 0 < ln (1 + x).
Proof.
  intros H. rewrite <- ln_1. apply ln_increasing; lra.
Qed.

Lemma log1p_ok (x : R) : -1 < x -> log1p x = Ok (ln (1 + x)).
Proof. intros H. unfold log1p. destruct (Rle_dec x (-1)); [lra|reflexivity]. Qed.

Lemma div_ok (a b : R) : b <> 0 -> div a b = Ok (a / b).
Proof. intros H. unfold div. destruct (Req_EM_T b 0); [contradiction|reflexivity]. Qed.

(** C2 as stated fails on [risk_assessment.py]: with income 0 the reference
    income and the monthly income are replaced by 1, so a surplus of 1 gives
    the surplus factor 1 and savings of 60 give the savings factor 1. *)
Lemma C2_counterexample :
  0 <= 0 /\
  RiskAssessment.surplus_factor_of (VNum 1) 0 = Ok 1 /\
  RiskAssessment.savings_factor_of (VNum 60) 0 = Ok 1 /\
  Ok 1 <> Ok 0.
Proof.
  assert (L2 : 0 < ln (1 + 1)) by (apply ln1p_pos; lra).
  assert (L61 : 0 < ln (1 + 60)) by (apply ln1p_pos; lra).
  split; [lra|]. split; [|split].
  - unfold RiskAssessment.surplus_factor_of. cbn [as_num bind].
    replace (Rmax 1 0) with 1 by (unfold Rmax; destruct (Rle_dec 1 0); lra).
    rewrite log1p_ok by lra. cbn [bind].
    replace (Rltb 0 0) with false by (symmetry; apply Rltb_false; lra).
    rewrite log1p_ok by lra. cbn [bind].
    rewrite div_ok by lra. cbn [bind].
    f_equal. replace (ln (1 + 1) / ln (1 + 1)) with 1 by (field; lra).
    apply clamp01_id. lra.
  - unfold RiskAssessment.savings_factor_of. cbn [as_num bind].
    replace (Rltb 0 0) with false by (symmetry; apply Rltb_false; lra).
    rewrite div_ok by lra. cbn [bind].
    replace (60 / 1) with 60 by field.
    rewrite !log1p_ok by lra. cbn [bind].
    rewrite div_ok by lra. cbn [bind].
    f_equal. replace (ln (1 + 60) / ln (1 + 60)) with 1 by (field; lra).
    apply clamp01_id. lra.
  - intros H. injection H as H. lra.
Qed.

(** C2, amended: for an income at or below 0 the engine of
    [risk_assessment_complex.py] returns 0 for both factors; the function of
    [risk_assessment.py] divides by [log1p(1)] and by a monthly income of 1
    instead, so it never divides by zero either, and its factors are
    [clamp(log1p(max(surplus, 0)) / log1p(1))] and, for savings above -1,
    [clamp(log1p(savings) / log1p(60))]. *)
Theorem C2_nonpositive_income :
  forall (income monthly_surplus current_savings : R),
  income <= 0 ->
  RiskAssessmentComplex._calculate_surplus_factor monthly_surplus income = Ok 0
  /\ RiskAssessmentComplex._calculate_savings_factor current_savings income
     = Ok 0
  /\ RiskAssessment.surplus_factor_of (VNum monthly_surplus) income
     = Ok (clamp01 (ln (1 + Rmax monthly_surplus 0) / ln (1 + 1)))
  /\ (-1 < current_savings ->
      RiskAssessment.savings_factor_of (VNum current_savings) income
      = Ok (clamp01 (ln (1 + current_savings) / ln (1 + 60))))
  /\ RiskAssessment.savings_factor_of (VNum current_savings) income
     <> Raise ZeroDivisionError.
Proof.
  intros income m s Hi.
  assert (L2 : 0 < ln (1 + 1)) by (apply ln1p_pos; lra).
  assert (L61 : 0 < ln (1 + 60)) by (apply ln1p_pos; lra).
  assert (Hlt : Rltb 0 income = false) by (apply Rltb_false; exact Hi).
  assert (Hsav : forall x, -1 < x ->
            RiskAssessment.savings_factor_of (VNum x) income
            = Ok (clamp01 (ln (1 + x) / ln (1 + 60)))).
  { intros x Hx. unfold RiskAssessment.savings_factor_of. cbn [as_num bind].
    rewrite Hlt, div_ok by lra. cbn [bind].
    replace (x / 1) with x by field.
    rewrite !log1p_ok by lra. cbn [bind].
    rewrite div_ok by lra. reflexivity. }
  split; [|split; [|split; [|split]]].
  - unfold RiskAssessmentComplex._calculate_surplus_factor.
    replace (Rleb income 0) with true by (symmetry; apply Rleb_true; exact Hi).
    f_equal. lra.
  - unfold RiskAssessmentComplex._calculate_savings_factor.
    replace (Rleb income 0) with true by (symmetry; apply Rleb_true; exact Hi).
    f_equal. lra.
  - unfold RiskAssessment.surplus_factor_of. cbn [as_num bind]. rewrite Hlt.
    assert (0 <= Rmax m 0) by apply Rmax_r.
    rewrite !log1p_ok by lra. cbn [bind].
    rewrite div_ok by lra. reflexivity.
  - apply Hsav.
  - destruct (Rle_dec s (-1)) as [Hs|Hs].
    + unfold RiskAssessment.savings_factor_of. cbn [as_num bind].
      rewrite Hlt, div_ok by lra. cbn [bind].
      replace (s / 1) with s by field.
      unfold log1p at 1. destruct (Rle_dec s (-1)); [|contradiction].
      cbn [bind]. discriminate.
    + rewrite Hsav by lra. discriminate.
Qed.

(** Income 0, surplus 1, savings 60: the engine gives 0 and 0. *)
Lemma C2_nonpositive_income_witness :
  RiskAssessmentComplex._calculate_surplus_factor 1 0 = Ok 0 /\
  RiskAssessmentComplex._calculate_savings_factor 60 0 = Ok 0.
Proof.
  destruct (C2_nonpositive_income 0 1 60) as (H1 & H2 & _).
  - lra.
  - split; assumption.
Defined.


(** The engine's mapping under the configured bands, as one equation. *)
Lemma engine_category (s : R) :
  RiskAssessmentComplex._get_risk_category_and_allocation
    RiskAssessmentComplex.default_engine s
  = Ok (if Rleb 0 s && Rleb s 0.2 then ("Very Conservative", mkAllocation 85 15)
        else if Rleb 0.2 s && Rleb s 0.4 then ("Conservative", mkAllocation 70 30)
        else if Rleb 0.4 s && Rleb s 0.6 then ("Moderate", mkAllocation 55 45)
        else if Rleb 0.6 s && Rleb s 0.8 then ("Growth", mkAllocation 35 65)
        else if Rleb 0.8 s && Rleb s 1 then ("Aggressive", mkAllocation 20 80)
        else ("Moderate", mkAllocation 55 45)).
Proof.
  unfold RiskAssessmentComplex._get_risk_category_and_allocation,
    RiskAssessmentComplex.default_engine, default_config.
  cbn [RiskAssessmentComplex.config RISK_CATEGORIES
       RiskAssessmentComplex.first_band].
  replace (Rleb 0.0 s) with (Rleb 0 s) by (f_equal; lra).
  replace (Rleb s 1.0) with (Rleb s 1) by (f_equal; lra).
  destruct (Rleb 0 s && Rleb s 0.2); [reflexivity|].
  destruct (Rleb 0.2 s && Rleb s 0.4); [reflexivity|].
  destruct (Rleb 0.4 s && Rleb s 0.6); [reflexivity|].
  destruct (Rleb 0.6 s && Rleb s 0.8); [reflexivity|].
  destruct (Rleb 0.8 s && Rleb s 1); reflexivity.
Qed.

(** C4 as stated fails on [get_risk_category_from_score] of
    [risk_assessment.py] and of [fund_filtering.py]: the score 1.5 lies in no
    band, and the final [else] sends it to Aggressive, not to Moderate. *)
Lemma C4_counterexample :
  1 < 1.5 /\
  RiskAssessment.get_risk_category_from_score 1.5
  = ("Aggressive", RiskAssessment.mkAllocation 0.20 0.80) /\
  fst (RiskAssessment.get_risk_category_from_score 1.5) <> "Moderate" /\
  fst (FundFiltering.get_risk_category_from_score (3 # 2)) = "Aggressive".
Proof.
  assert (E : RiskAssessment.get_risk_category_from_score 1.5
              = ("Aggressive", RiskAssessment.mkAllocation 0.20 0.80)).
  { unfold RiskAssessment.get_risk_category_from_score. rcases. }
  split; [lra|]. split; [exact E|]. split; [rewrite E; discriminate|].
  reflexivity.
Qed.

(** C4, amended: under the configured bands the engine's
    [_get_risk_category_and_allocation] maps [0,0.2] to Very Conservative
    85/15, (0.2,0.4] to Conservative 70/30, (0.4,0.6] to Moderate 55/45,
    (0.6,0.8] to Growth 35/65, (0.8,1] to Aggressive 20/80, and every score
    below 0 or above 1 to Moderate 55/45.  The module-level
    [get_risk_category_from_score] agrees on [0,1], with the allocation as
    fractions, but has no fallback: every score at or below 0.2 is Very
    Conservative and every score above 0.8 is Aggressive. *)
Theorem C4_score_bands :
  forall s : R,
  let engine :=
    RiskAssessmentComplex._get_risk_category_and_allocation
    RiskAssessmentComplex.default_engine s in
  let simple := RiskAssessment.get_risk_category_from_score s in
  (0 <= s <= 0.2 -> engine = Ok ("Very Conservative", mkAllocation 85 15)) /\
  (0.2 < s <= 0.4 -> engine = Ok ("Conservative", mkAllocation 70 30)) /\
  (0.4 < s <= 0.6 -> engine = Ok ("Moderate", mkAllocation 55 45)) /\
  (0.6 < s <= 0.8 -> engine = Ok ("Growth", mkAllocation 35 65)) /\
  (0.8 < s <= 1 -> engine = Ok ("Aggressive", mkAllocation 20 80)) /\
  (s < 0 \/ 1 < s -> engine = Ok ("Moderate", mkAllocation 55 45)) /\
  (s <= 0.2 ->
   simple = ("Very Conservative", RiskAssessment.mkAllocation 0.85 0.15)) /\
  (0.2 < s <= 0.4 ->
   simple = ("Conservative", RiskAssessment.mkAllocation 0.70 0.30)) /\
  (0.4 < s <= 0.6 ->
   simple = ("Moderate", RiskAssessment.mkAllocation 0.55 0.45)) /\
  (0.6 < s <= 0.8 ->
   simple = ("Growth", RiskAssessment.mkAllocation 0.35 0.65)) /\
  (0.8 < s ->
   simple = ("Aggressive", RiskAssessment.mkAllocation 0.20 0.80)).
Proof.
  intros s engine simple. unfold engine, simple. rewrite engine_category.
  unfold RiskAssessment.get_risk_category_from_score.
  repeat split; intros H; rcases.
Qed.

(** The score 0 is Very Conservative, 85/15. *)
Lemma C4_score_bands_witness :
  RiskAssessmentComplex._get_risk_category_and_allocation
    RiskAssessmentComplex.default_engine 0
  = Ok ("Very Conservative", mkAllocation 85 15).
Proof.
  apply (proj1 (C4_score_bands 0)). lra.
Defined.

(** C3 as stated fails on [analyze_user_risk_profile] of
    [risk_assessment.py], which has no handler: on the empty profile the age
    is [None], the comparison [age <= 25] raises [TypeError], and the
    exception reaches the caller. *)
Lemma C3_counterexample :
  RiskAssessment.analyze_user_risk_profile [] = Raise TypeError /\
  RiskAssessment.analyze_user_risk_profile [(VStr "age", VNum 30)]
  = Raise TypeError.
Proof.
  split.
  - reflexivity.
  - unfold RiskAssessment.analyze_user_risk_profile,
      RiskAssessment.calculate_risk_score.
    cbn [get dict_get String.eqb Ascii.eqb Bool.eqb truthy].
    unfold RiskAssessment.age_factor_of. cbn [as_num bind]. reflexivity.
Qed.

Section Engine.

Variable int_of_str : string -> option Z.
Variable float_of_str : string -> option R.

Lemma engine_score_total (self : RiskAssessmentComplex.RiskAssessmentEngine)
    (p : list (pyval * pyval)) :
  exists r,
    RiskAssessmentComplex.calculate_risk_score int_of_str float_of_str self p
    = Ok r.
Proof.
  unfold RiskAssessmentComplex.calculate_risk_score.
  destruct (RiskAssessmentComplex.score_body int_of_str float_of_str self p)
    as [r|e]; cbn [try_except]; eauto.
Qed.

Lemma engine_score_raise (self : RiskAssessmentComplex.RiskAssessmentEngine)
    (p : list (pyval * pyval)) (e : exn) :
  RiskAssessmentComplex.score_body int_of_str float_of_str self p = Raise e ->
  RiskAssessmentComplex.calculate_risk_score int_of_str float_of_str self p
  = Ok RiskAssessmentComplex._get_default_conservative_profile.
Proof.
  intros H. unfold RiskAssessmentComplex.calculate_risk_score.
  rewrite H. reflexivity.
Qed.

End Engine.

(** C3, amended: the engine's [calculate_risk_score] never raises, whatever
    the engine and the profile; when its [try] block raises any exception the
    result is the fixed profile with score 0.3, category Conservative, debt
    70, equity 30 and the error message set; when the block returns, that
    result is returned unchanged.  (The module-level
    [analyze_user_risk_profile] has no such handler.) *)
Theorem C3_engine_fallback :
  forall (int_of_str : string -> option Z) (float_of_str : string -> option R)
         (self : RiskAssessmentComplex.RiskAssessmentEngine)
         (user_profile : list (pyval * pyval)),
  let body :=
    RiskAssessmentComplex.score_body int_of_str float_of_str self user_profile in
  let call :=
    RiskAssessmentComplex.calculate_risk_score int_of_str float_of_str self
      user_profile in
  (exists r, call = Ok r) /\
  (forall e, body = Raise e ->
     call = Ok RiskAssessmentComplex._get_default_conservative_profile) /\
  (forall r, body = Ok r -> call = Ok r) /\
  RiskAssessmentComplex.risk_score
    RiskAssessmentComplex._get_default_conservative_profile = 0.3 /\
  RiskAssessmentComplex.risk_category
    RiskAssessmentComplex._get_default_conservative_profile = "Conservative" /\
  RiskAssessmentComplex.debt_allocation
    RiskAssessmentComplex._get_default_conservative_profile = 70%Z /\
  RiskAssessmentComplex.equity_allocation
    RiskAssessmentComplex._get_default_conservative_profile = 30%Z /\
  RiskAssessmentComplex.error
    RiskAssessmentComplex._get_default_conservative_profile <> None.
Proof.
  intros int_of_str float_of_str self p body call.
  split; [apply engine_score_total|].
  split; [intros e; apply engine_score_raise|].
  split.
  - intros r H. unfold call, RiskAssessmentComplex.calculate_risk_score.
    fold body. rewrite H. reflexivity.
  - repeat split; try reflexivity. discriminate.
Qed.

(** A profile whose age, income and savings are null: the first two fall back
    to their defaults, [max(None, 0)] raises, and the fallback is returned. *)
Lemma C3_engine_fallback_witness :
  RiskAssessmentComplex.calculate_risk_score (fun _ => None) (fun _ => None)
    RiskAssessmentComplex.default_engine
    [ (VStr "age", VNone); (VStr "monthly_income", VNone);
      (VStr "current_savings", VNone) ]
  = Ok RiskAssessmentComplex._get_default_conservative_profile.
Proof.
  apply (proj1 (proj2 (C3_engine_fallback (fun _ => None) (fun _ => None)
                         RiskAssessmentComplex.default_engine
                         [ (VStr "age", VNone); (VStr "monthly_income", VNone);
                           (VStr "current_savings", VNone) ]))
           TypeError).
  reflexivity.
Defined.






Lemma bind_ok {A B : Type} (c : result A) (k : A -> result B) (b : B) :
  bind c k = Ok b -> exists a, c = Ok a /\ k a = Ok b.
Proof. destruct c as [a|e]; cbn; [eauto|discriminate]. Qed.

Lemma as_num_ok (v : pyval) (x : R) : as_num v = Ok x -> v = VNum x.
Proof. destruct v; cbn; congruence. Qed.

Lemma term_ok (w : pyval) (k : string) (f t : R) :
  RiskAssessment.term w k f = Ok t ->
  exists x, subscript w k = Ok (VNum x) /\ t = x * f.
Proof.
  unfold RiskAssessment.term. intros H.
  apply bind_ok in H. destruct H as (v & Hv & H).
  apply bind_ok in H. destruct H as (x & Hx & H).
  apply as_num_ok in Hx. subst v. injection H as <-. eauto.
Qed.

(** Whatever the arguments, a score that [calculate_risk_score] returns is the
    clamped weighted sum of the six factors it computed. *)
Lemma simple_score_inv
    (age income current_savings monthly_surplus goals risk_tolerance
       weights : pyval) (s : R) :
  RiskAssessment.calculate_risk_score age income current_savings
    monthly_surplus goals risk_tolerance weights = Ok s ->
  let w := if truthy weights then weights else RiskAssessment.default_weights in
  exists i fa fs fv ft fr wa wi wt ws wv wr,
    RiskAssessment.age_factor_of age = Ok fa /\
    income = VNum i /\
    RiskAssessment.surplus_factor_of monthly_surplus i = Ok fs /\
    RiskAssessment.savings_factor_of current_savings i = Ok fv /\
    RiskAssessment.timeline_factor_of goals = Ok ft /\
    RiskAssessment.tolerance_factor_of risk_tolerance = Ok fr /\
    subscript w "age" = Ok (VNum wa) /\
    subscript w "income" = Ok (VNum wi) /\
    subscript w "timeline" = Ok (VNum wt) /\
    subscript w "surplus" = Ok (VNum ws) /\
    subscript w "savings" = Ok (VNum wv) /\
    subscript w "tolerance" = Ok (VNum wr) /\
    s = clamp01 (wa * fa + wi * RiskAssessment.income_factor_of i + wt * ft
                 + ws * fs + wv * fv + wr * fr).
Proof.
  intros H. cbv zeta. unfold RiskAssessment.calculate_risk_score in H.
  cbv zeta in H.
  set (w := if truthy weights then weights else RiskAssessment.default_weights) in *.
  apply bind_ok in H. destruct H as (fa & Hfa & H).
  apply bind_ok in H. destruct H as (i & Hi & H). apply as_num_ok in Hi.
  apply bind_ok in H. destruct H as (fs & Hfs & H).
  apply bind_ok in H. destruct H as (fv & Hfv & H).
  apply bind_ok in H. destruct H as (ft & Hft & H).
  apply bind_ok in H. destruct H as (fr & Hfr & H).
  apply bind_ok in H. destruct H as (t1 & H1 & H). apply term_ok in H1.
  apply bind_ok in H. destruct H as (t2 & H2 & H). apply term_ok in H2.
  apply bind_ok in H. destruct H as (t3 & H3 & H). apply term_ok in H3.
  apply bind_ok in H. destruct H as (t4 & H4 & H). apply term_ok in H4.
  apply bind_ok in H. destruct H as (t5 & H5 & H). apply term_ok in H5.
  apply bind_ok in H. destruct H as (t6 & H6 & H). apply term_ok in H6.
  destruct H1 as (wa & Ha & ->), H2 as (wi & Hwi & ->), H3 as (wt & Hwt & ->),
    H4 as (ws & Hws & ->), H5 as (wv & Hwv & ->), H6 as (wr & Hwr & ->).
  injection H as <-.
  exists i, fa, fs, fv, ft, fr, wa, wi, wt, ws, wv, wr.
  repeat split; assumption || reflexivity.
Qed.

Lemma mapM_years (items : list (pyval * pyval)) :
  goals_ok items ->
  exists ys,
    mapM (fun months => m <- as_num months ;; Ok (m / 12)) (map fst items)
    = Ok ys /\
    Forall (fun y => 0 <= y) ys /\ length ys = length items.
Proof.
  intros G. unfold goals_ok in G.
  induction G as [|[k v] items (m & Hk & Hm) _ (ys & E & F & L)].
  - exists []. repeat split. constructor.
  - cbn [fst] in Hk. subst k. exists (m / 12 :: ys).
    cbn [map fst mapM as_num bind]. rewrite E. cbn [bind].
    repeat split.
    + constructor; [lra|exact F].
    + cbn [length]. rewrite L. reflexivity.
Qed.

Lemma fold_left_Rplus_nonneg (ys : list R) (acc : R) :
  Forall (fun y => 0 <= y) ys -> 0 <= acc -> 0 <= fold_left Rplus ys acc.
Proof.
  intros F. revert acc. induction F as [|y ys Hy _ IH]; intros acc Ha.
  - exact Ha.
  - cbn [fold_left]. apply IH. lra.
Qed.

Lemma mean_nonneg (ys : list R) :
  Forall (fun y => 0 <= y) ys -> ys <> [] -> 0 <= mean ys.
Proof.
  intros F Hne. unfold mean.
  assert (0 < INR (length ys)).
  { apply lt_0_INR. destruct ys; [contradiction|cbn; lia]. }
  apply Rmult_le_pos.
  - apply fold_left_Rplus_nonneg; [exact F|lra].
  - left. apply Rinv_0_lt_compat. assumption.
Qed.

Lemma log_ratio_ok (x c : R) :
  0 <= x -> 0 < c ->
  (num <- log1p x ;; den <- log1p c ;; f <- div num den ;; Ok (clamp01 f))
  = Ok (clamp01 (ln (1 + x) / ln (1 + c))).
Proof.
  intros Hx Hc. rewrite !log1p_ok by lra. cbn [bind].
  rewrite div_ok; [reflexivity|].
  pose proof (ln1p_pos c Hc). lra.
Qed.

Lemma simple_timeline_returns (items : list (pyval * pyval)) :
  goals_ok items ->
  exists ft, RiskAssessment.timeline_factor_of (VDict items) = Ok ft.
Proof.
  intros G. unfold RiskAssessment.timeline_factor_of.
  destruct items as [|kv items]; [cbn; eauto|].
  cbn [truthy len bind length Nat.ltb Nat.leb keys].
  destruct (mapM_years _ G) as (ys & E & F & L). rewrite E. cbn [bind].
  assert (Hne : ys <> []) by (destruct ys; [discriminate|discriminate]).
  pose proof (mean_nonneg _ F Hne).
  rewrite log_ratio_ok by lra. eauto.
Qed.

Lemma engine_timeline_returns (items : list (pyval * pyval)) :
  goals_ok items ->
  exists ft, RiskAssessmentComplex._calculate_timeline_factor (VDict items)
             = Ok ft.
Proof.
  intros G. unfold RiskAssessmentComplex._calculate_timeline_factor.
  destruct items as [|kv items]; [cbn; eauto|].
  cbn [truthy negb len bind length Nat.eqb keys].
  destruct (mapM_years _ G) as (ys & E & F & L). rewrite E. cbn [bind].
  assert (Hne : ys <> []) by (destruct ys; [discriminate|discriminate]).
  pose proof (mean_nonneg _ F Hne).
  rewrite log_ratio_ok by lra. eauto.
Qed.

Lemma simple_surplus_returns (m i : R) :
  exists fs, RiskAssessment.surplus_factor_of (VNum m) i = Ok fs.
Proof.
  unfold RiskAssessment.surplus_factor_of. cbn [as_num bind].
  assert (0 <= Rmax m 0) by apply Rmax_r.
  destruct (Rltb 0 i) eqn:E.
  - apply Rltb_true in E. rewrite log_ratio_ok by lra. eauto.
  - rewrite log_ratio_ok by lra. eauto.
Qed.

Lemma simple_savings_returns (sv i : R) :
  0 <= sv ->
  exists fv, RiskAssessment.savings_factor_of (VNum sv) i = Ok fv.
Proof.
  intros Hs. unfold RiskAssessment.savings_factor_of. cbn [as_num bind].
  set (mi := if Rltb 0 i then i / 12 else 1).
  assert (Hmi : 0 < mi).
  { unfold mi. destruct (Rltb 0 i) eqn:E; [apply Rltb_true in E|]; lra. }
  rewrite div_ok by lra. cbn [bind].
  assert (0 <= sv / mi).
  { apply Rmult_le_pos; [exact Hs|]. left. apply Rinv_0_lt_compat. exact Hmi. }
  rewrite log_ratio_ok by lra. eauto.
Qed.

Lemma term_returns (w : pyval) (k : string) (x f : R) :
  subscript w k = Ok (VNum x) -> RiskAssessment.term w k f = Ok (x * f).
Proof. intros H. unfold RiskAssessment.term. rewrite H. reflexivity. Qed.

(** On numbers, with non-negative savings and goal horizons, and a weights
    dict holding six numbers, [calculate_risk_score] returns. *)
Lemma simple_score_returns (age income sv m t : R)
    (items : list (pyval * pyval)) (weights : pyval)
    (wa wi wt ws wv wr : R) :
  0 <= sv -> goals_ok items ->
  weights_ok (if truthy weights then weights else RiskAssessment.default_weights)
    "age" "income" "timeline" "surplus" "savings" "tolerance"
    wa wi wt ws wv wr ->
  exists s,
    RiskAssessment.calculate_risk_score (VNum age) (VNum income) (VNum sv)
      (VNum m) (VDict items) (VNum t) weights = Ok s.
Proof.
  intros Hs G (Ha & Hi & Ht & Hsu & Hsa & Hto).
  unfold RiskAssessment.calculate_risk_score.
  unfold RiskAssessment.age_factor_of, RiskAssessment.tolerance_factor_of.
  cbn [as_num bind].
  destruct (simple_surplus_returns m income) as (fs & ->).
  destruct (simple_savings_returns sv income Hs) as (fv & ->).
  destruct (simple_timeline_returns _ G) as (ft & ->).
  cbn [bind].
  rewrite (term_returns _ _ _ _ Ha), (term_returns _ _ _ _ Hi),
    (term_returns _ _ _ _ Ht), (term_returns _ _ _ _ Hsu),
    (term_returns _ _ _ _ Hsa), (term_returns _ _ _ _ Hto).
  cbn [bind]. eauto.
Qed.

Lemma engine_weighted_score (weights : pyval) (f1 f2 f3 f4 f5 f6 : R)
    (w1 w2 w3 w4 w5 w6 : R) :
  weights_ok weights "age_factor" "income_factor" "timeline_factor"
    "surplus_factor" "savings_factor" "risk_tolerance_factor"
    w1 w2 w3 w4 w5 w6 ->
  RiskAssessmentComplex._calculate_weighted_score weights
    [f1; f2; f3; f4; f5; f6]
  = Ok (clamp01 (w1 * f1 + w2 * f2 + w3 * f3 + w4 * f4 + w5 * f5 + w6 * f6)).
Proof.
  intros (H1 & H2 & H3 & H4 & H5 & H6).
  unfold RiskAssessmentComplex._calculate_weighted_score,
    RiskAssessmentComplex.factor_names.
  cbn [combine RiskAssessmentComplex.weighted_sum].
  rewrite H1, H2, H3, H4, H5, H6. cbn [bind as_num].
  f_equal. f_equal. lra.
Qed.



Lemma round_half_even_bounds (y : R) (n : Z) :
  0 <= y <= IZR n -> (0 <= round_half_even y <= n)%Z.
Proof.
  intros [Hlo Hhi]. unfold round_half_even.
  pose proof (Zfloor_bound y) as [Hf1 Hf2].
  assert (F0 : (0 <= Zfloor y)%Z) by (apply Zfloor_lub; exact Hlo).
  assert (Fn : (Zfloor y <= n)%Z) by (apply le_IZR; lra).
  assert (Up : 1 / 2 <= y - IZR (Zfloor y) -> (Zfloor y + 1 <= n)%Z).
  { intros Hd. assert (IZR (Zfloor y) < IZR n) by lra.
    apply lt_IZR in H. lia. }
  destruct (Rlt_dec (y - IZR (Zfloor y)) (1 / 2)); [lia|].
  destruct (Rlt_dec (1 / 2) (y - IZR (Zfloor y))).
  - assert (1 / 2 <= y - IZR (Zfloor y)) by lra. specialize (Up H). lia.
  - assert (1 / 2 <= y - IZR (Zfloor y)) by lra. specialize (Up H).
    destruct (Z.even (Zfloor y)); lia.
Qed.

(** Rounding to three decimals keeps a value of [0,1] in [0,1]. *)
Lemma round3_bounds (x : R) : 0 <= x <= 1 -> 0 <= round x 3 <= 1.
Proof.
  intros H. unfold round.
  assert (P : 10 ^ 3 = 1000) by (simpl; lra).
  rewrite P.
  destruct (round_half_even_bounds (x * 1000) 1000) as [H0 H1]; [lra|].
  apply IZR_le in H0, H1.
  split.
  - apply Rmult_le_pos; lra.
  - apply (Rmult_le_reg_r 1000); [lra|].
    replace (IZR (round_half_even (x * 1000)) / 1000 * 1000)
      with (IZR (round_half_even (x * 1000))) by (field; lra).
    lra.
Qed.

Section EngineScoring.

Variable int_of_str : string -> option Z.
Variable float_of_str : string -> option R.

Lemma py_int_raises (v : pyval) (e : exn) :
  RiskAssessmentComplex.py_int int_of_str v = Raise e ->
  e = ValueError \/ e = TypeError.
Proof.
  destruct v as [|x|s|d]; cbn; try (intros H; injection H as <-; auto).
  - discriminate.
  - destruct (int_of_str s); [discriminate|].
    intros H; injection H as <-; auto.
Qed.

Lemma py_float_raises (v : pyval) (e : exn) :
  RiskAssessmentComplex.py_float float_of_str v = Raise e ->
  e = ValueError \/ e = TypeError.
Proof.
  destruct v as [|x|s|d]; cbn; try (intros H; injection H as <-; auto).
  - discriminate.
  - destruct (float_of_str s); [discriminate|].
    intros H; injection H as <-; auto.
Qed.

(** Field validation never fails: every age is replaced by one in 18..100. *)
Lemma validate_age_ok (v : pyval) :
  exists a, RiskAssessmentComplex._validate_age int_of_str v = Ok a
            /\ (18 <= a <= 100)%Z.
Proof.
  unfold RiskAssessmentComplex._validate_age.
  destruct (RiskAssessmentComplex.py_int int_of_str v) as [a|e] eqn:E.
  - cbn [bind].
    destruct ((a <? 18)%Z || (100 <? a)%Z) eqn:B; cbn [try_except].
    + exists 30%Z. split; [reflexivity|lia].
    + exists a. split; [reflexivity|].
      apply orb_false_iff in B. destruct B as [B1 B2].
      apply Z.ltb_ge in B1, B2. lia.
  - cbn [bind try_except]. exists 30%Z.
    destruct (py_int_raises _ _ E) as [-> | ->]; (split; [reflexivity|lia]).
Qed.

Lemma validate_income_ok (v : pyval) :
  exists i, RiskAssessmentComplex._validate_income float_of_str v = Ok i
            /\ 0 <= i.
Proof.
  unfold RiskAssessmentComplex._validate_income.
  destruct (RiskAssessmentComplex.py_float float_of_str v) as [i|e] eqn:E.
  - cbn [bind]. destruct (Rltb i 0) eqn:B; cbn [try_except].
    + exists 0. split; [reflexivity|lra].
    + exists i. split; [reflexivity|]. apply Rltb_false in B. exact B.
  - cbn [bind try_except]. exists 50000.
    destruct (py_float_raises _ _ E) as [-> | ->]; (split; [reflexivity|lra]).
Qed.

Lemma validate_risk_tolerance_ok (v : pyval) :
  exists t, RiskAssessmentComplex._validate_risk_tolerance int_of_str v = Ok t
            /\ (1 <= t <= 10)%Z.
Proof.
  unfold RiskAssessmentComplex._validate_risk_tolerance.
  destruct (RiskAssessmentComplex.py_int int_of_str v) as [a|e] eqn:E.
  - cbn [bind].
    destruct ((a <? 1)%Z || (10 <? a)%Z) eqn:B; cbn [try_except].
    + exists 5%Z. split; [reflexivity|lia].
    + exists a. split; [reflexivity|].
      apply orb_false_iff in B. destruct B as [B1 B2].
      apply Z.ltb_ge in B1, B2. lia.
  - cbn [bind try_except]. exists 5%Z.
    destruct (py_int_raises _ _ E) as [-> | ->]; (split; [reflexivity|lia]).
Qed.

End EngineScoring.

Lemma engine_income_returns (income : R) :
  RiskAssessmentComplex._calculate_income_factor
    RiskAssessmentComplex.default_engine income
  = Ok (clamp01 (Rmin income 100000 / 100000)).
Proof.
  unfold RiskAssessmentComplex._calculate_income_factor.
  cbn [RiskAssessmentComplex.config RiskAssessmentComplex.default_engine
       default_config INCOME_CAP].
  rewrite div_ok by lra. reflexivity.
Qed.

Lemma engine_surplus_returns (m i : R) :
  exists fs, RiskAssessmentComplex._calculate_surplus_factor (Rmax m 0) i
             = Ok fs.
Proof.
  unfold RiskAssessmentComplex._calculate_surplus_factor.
  destruct (Rleb i 0) eqn:E; [eauto|]. apply Rleb_false in E.
  replace (Rltb 0 i) with true by (symmetry; apply Rltb_true; exact E).
  assert (0 <= Rmax (Rmax m 0) 0) by apply Rmax_r.
  rewrite log_ratio_ok by lra. eauto.
Qed.

Lemma engine_savings_returns (sv i : R) :
  exists fv, RiskAssessmentComplex._calculate_savings_factor (Rmax sv 0) i
             = Ok fv.
Proof.
  unfold RiskAssessmentComplex._calculate_savings_factor.
  destruct (Rleb i 0) eqn:E; [eauto|]. apply Rleb_false in E.
  rewrite div_ok by lra. cbn [bind].
  assert (0 <= Rmax sv 0) by apply Rmax_r.
  assert (0 <= Rmax sv 0 / i).
  { apply Rmult_le_pos; [assumption|]. left. apply Rinv_0_lt_compat. exact E. }
  rewrite log_ratio_ok by lra. eauto.
Qed.

Lemma engine_category_returns (s : R) :
  exists ca,
    RiskAssessmentComplex._get_risk_category_and_allocation
      RiskAssessmentComplex.default_engine s = Ok ca.
Proof. rewrite engine_category. eauto. Qed.

Lemma contribution_returns (weights : pyval) (name : string) (x f : R) :
  subscript weights name = Ok (VNum x) ->
  RiskAssessmentComplex.contribution weights name f = Ok (round (x * f) 3).
Proof.
  intros H. unfold RiskAssessmentComplex.contribution. rewrite H. reflexivity.
Qed.



End RiskScoringFacts.

(** ** Ranking of a shortlist *)

Section RankingFacts.

Import FundFiltering FundRanking.
Local Open Scope Q_scope.
Local Open Scope string_scope.

Lemma series_min_le_acc (l : list Q) (x : Q) : series_min x l <= x.
Proof.
  unfold series_min. revert x. induction l as [|y l IH]; intros x; cbn.
  - apply Qle_refl.
  - eapply Qle_trans; [apply IH|apply Q.le_min_l].
Qed.

Lemma series_min_le_In (l : list Q) (x y : Q) : In y l -> series_min x l <= y.
Proof.
  unfold series_min. revert x. induction l as [|z l IH]; intros x; cbn.
  - tauto.
  - intros [->|H].
    + eapply Qle_trans; [apply (series_min_le_acc l)|apply Q.le_min_r].
    + apply IH. exact H.
Qed.

Lemma series_max_ge_acc (l : list Q) (x : Q) : x <= series_max x l.
Proof.
  unfold series_max. revert x. induction l as [|y l IH]; intros x; cbn.
  - apply Qle_refl.
  - eapply Qle_trans; [apply Q.le_max_l|apply IH].
Qed.

Lemma series_max_ge_In (l : list Q) (x y : Q) : In y l -> y <= series_max x l.
Proof.
  unfold series_max. revert x. induction l as [|z l IH]; intros x; cbn.
  - tauto.
  - intros [->|H].
    + eapply Qle_trans; [apply Q.le_max_r|apply (series_max_ge_acc l)].
    + apply IH. exact H.
Qed.

Lemma scaled_in_unit (v lo hi : Q) :
  lo <= v -> v <= hi -> ~ hi == lo -> 0 <= (v - lo) / (hi - lo) <= 1.
Proof.
  intros H1 H2 Hne.
  assert (Hlh : lo < hi).
  { assert (Hle : lo <= hi) by (eapply Qle_trans; eassumption).
    apply Qle_lteq in Hle. destruct Hle as [Hle|Hle]; [exact Hle|].
    exfalso. apply Hne. symmetry. exact Hle. }
  assert (Hlt : 0 < hi - lo).
  { unfold Qminus. apply -> Qlt_minus_iff. exact Hlh. }
  split.
  - apply Qle_shift_div_l; [exact Hlt|]. rewrite Qmult_0_l.
    apply -> Qle_minus_iff. exact H1.
  - apply Qle_shift_div_r; [exact Hlt|]. rewrite Qmult_1_l.
    unfold Qminus. apply Qplus_le_l. exact H2.
Qed.

Lemma normalize_length (series : list Q) :
  length (normalize series) = length series.
Proof.
  destruct series as [|x l]; [reflexivity|]. unfold normalize.
  destruct (Qeq_bool _ _); apply length_map.
Qed.

Lemma normalize_range (series : list Q) (y : Q) :
  In y (normalize series) -> 0 <= y <= 1.
Proof.
  destruct series as [|x l]; [cbn; tauto|]. unfold normalize.
  destruct (Qeq_bool (series_max x l) (series_min x l)) eqn:E;
    intros Hy; apply in_map_iff in Hy; destruct Hy as (v & <- & Hv).
  - rewrite Qmult_0_r. split; [apply Qle_refl|discriminate].
  - apply scaled_in_unit.
    + destruct Hv as [<-|Hv];
        [apply series_min_le_acc|apply series_min_le_In; exact Hv].
    + destruct Hv as [<-|Hv];
        [apply series_max_ge_acc|apply series_max_ge_In; exact Hv].
    + intros H. apply Qeq_bool_iff in H. congruence.
Qed.

(** X1: [normalize] keeps the length of a column and maps every value into
    [0,1]; a column whose largest and smallest values coincide is mapped to
    zeros. *)
Theorem X1_normalize_unit_interval :
  forall series : list Q,
  length (normalize series) = length series /\
  (forall y, In y (normalize series) -> 0 <= y <= 1) /\
  (forall x l, series = x :: l -> series_max x l == series_min x l ->
     forall y, In y (normalize series) -> y == 0).
Proof.
  intros series. split; [apply normalize_length|].
  split; [apply normalize_range|].
  intros x l -> H y Hy. unfold normalize in Hy.
  apply Qeq_bool_iff in H. rewrite H in Hy.
  apply in_map_iff in Hy. destruct Hy as (v & <- & _). apply Qmult_0_r.
Qed.

(** A column with equal entries normalises to zeros. *)
Lemma X1_normalize_unit_interval_witness :
  Forall (fun y => y == 0) (normalize [3; 3; 3]).
Proof.
  apply Forall_forall.
  apply (proj2 (proj2 (X1_normalize_unit_interval [3; 3; 3])) 3 [3; 3]);
    reflexivity.
Defined.

Lemma length_insert_desc (x : ScoredFund) (l : list ScoredFund) :
  length (insert_desc x l) = S (length l).
Proof.
  induction l as [|y l IH]; cbn; [reflexivity|].
  destruct (Qle_bool (snd y) (snd x)); cbn; [reflexivity|].
  rewrite IH. reflexivity.
Qed.

Lemma length_ranked (rows : list ScoredFund) :
  length (fold_right insert_desc [] rows) = length rows.
Proof.
  induction rows as [|r rows IH]; cbn; [reflexivity|].
  rewrite length_insert_desc, IH. reflexivity.
Qed.

Lemma zip4_length (a b c d : list Q) (n : nat) :
  length a = n -> length b = n -> length c = n -> length d = n ->
  length (zip4 a b c d) = n.
Proof.
  revert a b c d. induction n as [|n IH]; intros [|x a] [|y b] [|z c] [|w d];
    cbn; try discriminate; try reflexivity.
  intros Ha Hb Hc Hd. f_equal. apply IH; congruence.
Qed.

Lemma zip4_In (a b c d : list Q) (s : Q) :
  In s (zip4 a b c d) ->
  exists x y z w, In x a /\ In y b /\ In z c /\ In w d /\
    s = (4 # 10) * x + (2 # 10) * y + (2 # 10) * z + (2 # 10) * w.
Proof.
  revert b c d. induction a as [|x a IH]; intros [|y b] [|z c] [|w d];
    cbn; try tauto.
  intros [<-|H].
  - exists x, y, z, w. repeat split; auto.
  - destruct (IH _ _ _ H) as (x' & y' & z' & w' & Hx & Hy & Hz & Hw & E).
    exists x', y', z', w'. repeat split; auto.
Qed.

Lemma score_column_length (filtered : list Fund) :
  length (score_column filtered) = length filtered.
Proof.
  unfold score_column.
  apply zip4_length; rewrite normalize_length; apply length_map.
Qed.

Lemma score_column_range (filtered : list Fund) (s : Q) :
  In s (score_column filtered) -> 0 <= s <= 1.
Proof.
  unfold score_column. intros H. apply zip4_In in H.
  destruct H as (x & y & z & w & Hx & Hy & Hz & Hw & ->).
  apply normalize_range in Hx, Hy, Hz, Hw.
  destruct Hx as [x0 x1], Hy as [y0 y1], Hz as [z0 z1], Hw as [w0 w1].
  split; Lqa.lra.
Qed.

Lemma In_ranked (rows : list ScoredFund) (x : ScoredFund) :
  In x (fold_right insert_desc [] rows) <-> In x rows.
Proof.
  assert (Ins : forall y l, In x (insert_desc y l) <-> x = y \/ In x l).
  { intros y l. induction l as [|z l IH]; cbn.
    - intuition congruence.
    - destruct (Qle_bool (snd z) (snd y)); cbn; [intuition congruence|].
      rewrite IH. intuition congruence. }
  induction rows as [|r rows IH]; cbn; [tauto|].
  rewrite Ins, IH. intuition congruence.
Qed.

Lemma get_top_funds_length (filtered : list Fund) :
  length (get_top_funds filtered) = Nat.min 5 (length filtered).
Proof.
  unfold get_top_funds, nlargest.
  rewrite length_firstn, length_ranked. unfold ScoredFund.
  rewrite length_combine, score_column_length.
  rewrite Nat.min_id. reflexivity.
Qed.

(** X2: [get_top_funds] returns five funds, or all of them when the shortlist
    has fewer; each comes from the shortlist and carries a score in [0,1]. *)
Theorem X2_get_top_funds_shape :
  forall filtered : list Fund,
  length (get_top_funds filtered) = Nat.min 5 (length filtered) /\
  (forall x, In x (get_top_funds filtered) ->
     In (fst x) filtered /\ 0 <= snd x <= 1).
Proof.
  intros filtered. split; [apply get_top_funds_length|].
  unfold get_top_funds, nlargest.
  - intros [f sc] H. apply In_firstn in H. apply (proj1 (In_ranked _ _)) in H.
    cbn [fst snd].
    split.
    + apply in_combine_l in H. exact H.
    + apply in_combine_r in H. apply score_column_range in H. exact H.
Qed.


Lemma insert_desc_sorted (x : ScoredFund) (l : list ScoredFund) :
  StronglySorted by_score_desc l ->
  StronglySorted by_score_desc (insert_desc x l).
Proof.
  induction 1 as [|y l Hs IH Hy]; cbn.
  - repeat constructor.
  - destruct (Qle_bool (snd y) (snd x)) eqn:E.
    + apply Qle_bool_iff in E. constructor; [constructor; assumption|].
      constructor; [exact E|].
      eapply Forall_impl; [|exact Hy]. intros z Hz. unfold by_score_desc in *.
      eapply Qle_trans; eassumption.
    + constructor; [exact IH|].
      assert (Hxy : snd x <= snd y).
      { apply Qlt_le_weak. apply Qnot_le_lt. intros H.
        apply Qle_bool_iff in H. congruence. }
      apply Forall_forall. intros z Hz.
      assert (Hz' : z = x \/ In z l).
      { clear -Hz. induction l as [|w l IH]; cbn in Hz.
        - destruct Hz as [<-|[]]. left. reflexivity.
        - destruct (Qle_bool (snd w) (snd x)); cbn in Hz.
          + destruct Hz as [<-|Hz]; [left; reflexivity|right; exact Hz].
          + destruct Hz as [<-|Hz]; [right; left; reflexivity|].
            destruct (IH Hz) as [->|H]; [left; reflexivity|right; right; exact H]. }
      destruct Hz' as [->|Hz']; [exact Hxy|].
      rewrite Forall_forall in Hy. apply Hy. exact Hz'.
Qed.

Lemma ranked_sorted (rows : list ScoredFund) :
  StronglySorted by_score_desc (fold_right insert_desc [] rows).
Proof.
  induction rows as [|r rows IH]; cbn; [constructor|].
  apply insert_desc_sorted. exact IH.
Qed.

Lemma sorted_app_inv (a b : list ScoredFund) :
  StronglySorted by_score_desc (a ++ b) ->
  StronglySorted by_score_desc a /\
  (forall x y, In x a -> In y b -> by_score_desc x y).
Proof.
  induction a as [|z a IH]; cbn; intros H.
  - split; [constructor|]. intros x y [].
  - apply StronglySorted_inv in H. destruct H as [Hs Hz].
    destruct (IH Hs) as [Ha Hab]. split.
    + constructor; [exact Ha|].
      apply Forall_forall. intros w Hw. rewrite Forall_forall in Hz.
      apply Hz. apply in_or_app. left. exact Hw.
    + intros x y [<-|Hx] Hy.
      * rewrite Forall_forall in Hz. apply Hz. apply in_or_app. right. exact Hy.
      * apply Hab; assumption.
Qed.

(** X3: the funds [get_top_funds] returns are in descending order of score,
    and no fund of the shortlist that is left out scores higher than one that
    is kept. *)
Theorem X3_get_top_funds_ranked :
  forall filtered : list Fund,
  StronglySorted (fun a b : ScoredFund => snd b <= snd a)
    (get_top_funds filtered) /\
  (forall r t,
     In r (combine filtered (score_column filtered)) ->
     In t (get_top_funds filtered) ->
     In r (get_top_funds filtered) \/ snd r <= snd t).
Proof.
  intros filtered. unfold get_top_funds, nlargest.
  set (rows := combine filtered (score_column filtered)).
  pose proof (ranked_sorted rows) as S.
  rewrite <- (firstn_skipn 5 (fold_right insert_desc [] rows)) in S.
  apply sorted_app_inv in S. destruct S as [S1 S2]. split; [exact S1|].
  intros r t Hr Ht.
  apply (proj2 (In_ranked rows r)) in Hr.
  rewrite <- (firstn_skipn 5 (fold_right insert_desc [] rows)) in Hr.
  apply in_app_or in Hr. destruct Hr as [Hr|Hr]; [left; exact Hr|].
  right. apply (S2 t r Ht Hr).
Qed.

End RankingFacts.

(** ** Size of a shortlist *)

Section ShortlistFacts.

Import FundFiltering.
Local Open Scope Q_scope.
Local Open Scope string_scope.

Lemma insert_asc_In (x y : Q) (l : list Q) :
  In y (insert_asc x l) -> y = x \/ In y l.
Proof.
  induction l as [|z l IH]; cbn.
  - intros [<-|[]]. left. reflexivity.
  - destruct (Qle_bool x z); cbn.
    + intros [<-|H]; [left; reflexivity|right; exact H].
    + intros [<-|H]; [right; left; reflexivity|].
      destruct (IH H) as [->|H']; [left; reflexivity|right; right; exact H'].
Qed.

Lemma insert_asc_sorted (x : Q) (l : list Q) :
  StronglySorted Qle l -> StronglySorted Qle (insert_asc x l).
Proof.
  induction 1 as [|y l Hs IH Hy]; cbn.
  - repeat constructor.
  - destruct (Qle_bool x y) eqn:E.
    + apply Qle_bool_iff in E. constructor; [constructor; assumption|].
      constructor; [exact E|].
      eapply Forall_impl; [|exact Hy]. intros z Hz.
      eapply Qle_trans; eassumption.
    + constructor; [exact IH|].
      assert (Hyx : y <= x).
      { apply Qlt_le_weak. apply Qnot_le_lt. intros H.
        apply Qle_bool_iff in H. congruence. }
      apply Forall_forall. intros z Hz. apply insert_asc_In in Hz.
      destruct Hz as [->|Hz]; [exact Hyx|].
      rewrite Forall_forall in Hy. apply Hy. exact Hz.
Qed.

Lemma sort_asc_sorted (xs : list Q) : StronglySorted Qle (sort_asc xs).
Proof.
  unfold sort_asc. induction xs as [|x xs IH]; cbn; [constructor|].
  apply insert_asc_sorted. exact IH.
Qed.

Lemma insert_asc_length (x : Q) (l : list Q) :
  length (insert_asc x l) = S (length l).
Proof.
  induction l as [|y l IH]; cbn; [reflexivity|].
  destruct (Qle_bool x y); cbn; [reflexivity|]. rewrite IH. reflexivity.
Qed.

Lemma sort_asc_length (xs : list Q) : length (sort_asc xs) = length xs.
Proof.
  unfold sort_asc. induction xs as [|x xs IH]; cbn; [reflexivity|].
  rewrite insert_asc_length, IH. reflexivity.
Qed.

Lemma filter_insert_asc_length (p : Q -> bool) (x : Q) (l : list Q) :
  length (filter p (insert_asc x l)) = length (filter p (x :: l)).
Proof.
  induction l as [|y l IH]; [reflexivity|]. cbn [insert_asc].
  destruct (Qle_bool x y); [reflexivity|].
  cbn [filter] in *. destruct (p y), (p x); cbn [length] in *; lia.
Qed.

Lemma filter_sort_asc_length (p : Q -> bool) (xs : list Q) :
  length (filter p (sort_asc xs)) = length (filter p xs).
Proof.
  unfold sort_asc. induction xs as [|x xs IH]; [reflexivity|].
  cbn [fold_right]. rewrite filter_insert_asc_length. cbn [filter].
  destruct (p x); cbn [length]; rewrite IH; reflexivity.
Qed.

Lemma sorted_nth_le (s : list Q) (i j : nat) :
  StronglySorted Qle s -> (i <= j)%nat -> (j < length s)%nat ->
  nth i s 0 <= nth j s 0.
Proof.
  intros Hs. revert i j. induction Hs as [|x s Hs IH Hx]; intros i j Hij Hj.
  - cbn in Hj. lia.
  - destruct j as [|j].
    + assert (i = 0)%nat by lia. subst i. apply Qle_refl.
    + destruct i as [|i].
      * cbn [nth]. rewrite Forall_forall in Hx. apply Hx.
        apply nth_In. cbn in Hj. lia.
      * cbn [nth]. apply IH; cbn in Hj; lia.
Qed.

(** In a sorted column, at most the entries after position [k] can lie
    strictly above a threshold that is at least the entry at [k]. *)
Lemma count_above (s : list Q) (k : nat) (t : Q) :
  StronglySorted Qle s -> (k < length s)%nat -> nth k s 0 <= t ->
  (length (filter (Qltb t) s) <= length s - 1 - k)%nat.
Proof.
  intros Hs. revert k. induction Hs as [|x s Hs IH Hx]; intros k Hk Ht.
  - cbn in Hk. lia.
  - assert (Hxt : x <= t).
    { eapply Qle_trans; [|exact Ht].
      apply (sorted_nth_le (x :: s) 0 k); [constructor; assumption|lia|exact Hk]. }
    cbn [filter].
    replace (Qltb t x) with false.
    2:{ symmetry. apply not_true_iff_false. rewrite Qltb_lt.
        apply Qle_not_lt. exact Hxt. }
    destruct k as [|k].
    + cbn [length]. pose proof (filter_length_le (Qltb t) s). lia.
    + cbn [nth] in Ht. cbn [length] in *.
      specialize (IH k ltac:(lia) Ht). lia.
Qed.

(** The interpolated quantile is at least the entry below its position. *)
Lemma quantile_ge_floor (xs : list Q) (q : Q) :
  xs <> [] -> 0 <= q -> q <= 1 ->
  let n := length xs in
  let lo := Z.to_nat (Qfloor (q * inject_Z (Z.of_nat n - 1))) in
  (lo < n)%nat /\ nth lo (sort_asc xs) 0 <= quantile xs q.
Proof.
  intros Hne Hq0 Hq1 n lo.
  assert (Hn : (1 <= n)%nat) by (unfold n; destruct xs; [contradiction|cbn; lia]).
  unfold quantile. rewrite sort_asc_length. fold n.
  set (m := (Z.of_nat n - 1)%Z) in *.
  set (pos := q * inject_Z m) in *.
  assert (Hm : (0 <= m)%Z) by (unfold m; lia).
  assert (Hm' : 0 <= inject_Z m)
    by (change 0 with (inject_Z 0); rewrite <- Zle_Qle; exact Hm).
  assert (Hpos0 : 0 <= pos) by (apply Qmult_le_0_compat; assumption).
  assert (Hpos1 : pos <= inject_Z m).
  { unfold pos. rewrite <- (Qmult_1_l (inject_Z m)) at 2.
    apply Qmult_le_compat_r; assumption. }
  assert (Hlo0 : (0 <= Qfloor pos)%Z).
  { rewrite <- (Qfloor_Z 0). apply Qfloor_resp_le. exact Hpos0. }
  assert (Hhi : (Qceiling pos <= m)%Z).
  { rewrite <- (Qceiling_Z m). apply Qceiling_resp_le. exact Hpos1. }
  assert (Hlh : (Qfloor pos <= Qceiling pos)%Z)
    by (rewrite Zle_Qle; apply Qle_floor_ceiling).
  assert (Hlt : (lo < n)%nat) by (unfold lo, m in *; lia).
  split; [exact Hlt|].
  fold lo.
  set (a := nth lo (sort_asc xs) 0).
  set (b := nth (Z.to_nat (Qceiling pos)) (sort_asc xs) 0).
  assert (Hab : a <= b).
  { apply sorted_nth_le; [apply sort_asc_sorted|unfold lo; lia|].
    rewrite sort_asc_length. fold n. unfold m in *. lia. }
  assert (Hfrac : 0 <= pos - inject_Z (Qfloor pos)).
  { unfold Qminus. apply -> Qle_minus_iff. apply Qfloor_le. }
  assert (0 <= (b - a) * (pos - inject_Z (Qfloor pos))).
  { apply Qmult_le_0_compat; [|exact Hfrac].
    unfold Qminus. apply -> Qle_minus_iff. exact Hab. }
  Lqa.lra.
Qed.

Lemma Qfloor_three_quarters (m : Z) :
  Qfloor ((3 # 4) * inject_Z m) = (3 * m / 4)%Z.
Proof. unfold Qfloor, Qmult, inject_Z. cbn [Qnum Qden]. reflexivity. Qed.

Lemma filter_length_andb {A : Type} (p q : A -> bool) (l : list A) :
  (length (filter (fun x => p x && q x) l) <= length (filter q l))%nat.
Proof.
  induction l as [|x l IH]; [cbn; lia|]. cbn [filter].
  destruct (p x), (q x); cbn [andb length]; lia.
Qed.

Lemma filter_map_length {A : Type} (f : A -> Q) (p : Q -> bool) (l : list A) :
  length (filter (fun x => p (f x)) l) = length (filter p (map f l)).
Proof.
  induction l as [|x l IH]; [reflexivity|]. cbn [filter map].
  destruct (p (f x)); cbn [length]; rewrite IH; reflexivity.
Qed.

(** X4: of the [n] funds of a category at most [(n-1) - 3(n-1)/4] pass
    [apply_category_filters], because a fund must beat the 75th percentile of
    the Sharpe ratios of its own category: a category with a single fund
    always ends up with an empty shortlist, and one with up to five funds
    keeps at most one. *)
Theorem X4_shortlist_size :
  forall (category_funds : list Fund) (cat : string),
  category_funds <> [] ->
  let n := length category_funds in
  (length (apply_category_filters category_funds cat)
   <= (n - 1) - 3 * (n - 1) / 4)%nat /\
  (n = 1%nat -> apply_category_filters category_funds cat = []) /\
  (n <= 5 -> length (apply_category_filters category_funds cat) <= 1)%nat.
Proof.
  intros cf cat Hne n.
  assert (Hn : (1 <= n)%nat) by (unfold n; destruct cf; [contradiction|cbn; lia]).
  assert (B : (length (apply_category_filters cf cat)
               <= (n - 1) - 3 * (n - 1) / 4)%nat).
  { unfold apply_category_filters, passes_filters.
    eapply Nat.le_trans; [apply filter_length_andb|].
    rewrite (filter_map_length sharpe_ratio
               (Qltb (quantile (map sharpe_ratio cf) (3 # 4)))).
    rewrite <- filter_sort_asc_length.
    assert (Hne' : map sharpe_ratio cf <> [])
      by (destruct cf; [contradiction|discriminate]).
    destruct (quantile_ge_floor (map sharpe_ratio cf) (3 # 4) Hne')
      as [Hlo Hge]; [discriminate|discriminate|].
    rewrite length_map in Hlo, Hge. fold n in Hlo, Hge.
    rewrite Qfloor_three_quarters in Hlo, Hge.
    assert (E : Z.to_nat (3 * (Z.of_nat n - 1) / 4) = (3 * (n - 1) / 4)%nat).
    { apply Nat2Z.inj. rewrite Nat2Z.inj_div, Nat2Z.inj_mul, Nat2Z.inj_sub by lia.
      rewrite Z2Nat.id; [reflexivity|].
      apply Z.div_pos; lia. }
    rewrite E in Hlo, Hge.
    pose proof (count_above (sort_asc (map sharpe_ratio cf))
                  (3 * (n - 1) / 4)
                  (quantile (map sharpe_ratio cf) (3 # 4))
                  (sort_asc_sorted _)) as C.
    rewrite sort_asc_length, length_map in C. fold n in C.
    apply C; assumption. }
  split; [exact B|]. split.
  - intros H1. rewrite H1 in B. cbn in B.
    destruct (apply_category_filters cf cat); [reflexivity|cbn in B; lia].
  - intros H5.
    assert ((n - 1) - 3 * (n - 1) / 4 <= 1)%nat.
    { assert (Hc : (n = 1 \/ n = 2 \/ n = 3 \/ n = 4 \/ n = 5)%nat) by lia.
      destruct Hc as [->|[->|[->|[->| ->]]]]; cbn; lia. }
    lia.
Qed.

(** The three large-cap funds of the module's self-test: one survives. *)
Lemma X4_shortlist_size_witness :
  (length (apply_category_filters (select_category sample_funds "large_cap")
             "large_cap") <= 1)%nat.
Proof.
  apply (proj2 (proj2 (X4_shortlist_size
                         (select_category sample_funds "large_cap")
                         "large_cap" ltac:(discriminate)))).
  vm_compute. lia.
Defined.

End ShortlistFacts.

(** ** Shape of a recommendation *)

Section RecommendationFacts.

Import FundFiltering.
Local Open Scope Q_scope.
Local Open Scope string_scope.

Lemma present_survives (a : Allocation) (u : FundUniverse) (c : string) :
  present a u c = true -> survives u c = true.
Proof.
  unfold present.
  destruct (String.eqb c "debt"), (String.eqb c "hybrid");
    rewrite !andb_true_iff; tauto.
Qed.

Lemma In_expected (a : Allocation) (u : FundUniverse) (c : string) (e : Entry) :
  In (c, e) (expected a u) ->
  In c categories /\ present a u c = true /\
  e = mkEntry (nominal_share a c) (get_top_funds (shortlist u c)).
Proof.
  unfold expected. intros H. apply in_flat_map in H.
  destruct H as (k & Hk & H).
  destruct (present a u k) eqn:P; [|destruct H].
  destruct H as [H|[]]. unfold entry_of in H. injection H as <- <-.
  auto.
Qed.

Lemma expected_keys (a : Allocation) (u : FundUniverse) :
  (length (expected a u) <= 5)%nat /\ NoDup (map fst (expected a u)).
Proof.
  unfold expected, categories, entry_of. cbn [flat_map].
  destruct (present a u "large_cap"), (present a u "mid_cap"),
    (present a u "small_cap"), (present a u "debt"), (present a u "hybrid");
    cbn [app length map fst]; (split; [lia|]);
    repeat constructor; cbn [In]; intuition discriminate.
Qed.

(** X5: every category of a recommendation is one of the five sub-categories,
    appears once, and lists between one and five funds, as many as
    [fund_count] says; [total_categories] is the number of categories
    recommended and is at most five. *)
Theorem X5_recommendation_shape :
  forall (u : FundUniverse) (s : Q),
  let p := create_portfolio_recommendations u s in
  total_categories p = length (recommendations p) /\
  (total_categories p <= 5)%nat /\
  NoDup (map fst (recommendations p)) /\
  (forall c r, In (c, r) (recommendations p) ->
     In c categories /\
     fund_count r = length (top_funds r) /\
     (1 <= fund_count r <= 5)%nat /\
     forall x, In x (top_funds r) -> category (fst x) = c).
Proof.
  intros u s. unfold create_portfolio_recommendations.
  rewrite filter_funds_expected.
  set (a := snd (get_risk_category_from_score s)).
  cbn [total_categories recommendations].
  destruct (expected_keys a u) as [Hlen Hnd].
  split; [rewrite length_map; reflexivity|].
  split; [exact Hlen|].
  split.
  { rewrite map_map.
    replace (map (fun x => fst (recommend x)) (expected a u))
      with (map fst (expected a u)); [exact Hnd|].
    apply map_ext. intros [k e]. reflexivity. }
  intros c r H. apply in_map_iff in H. destruct H as ([k e] & E & H).
  cbn [recommend] in E. injection E as <- <-.
  apply In_expected in H. destruct H as (Hc & P & ->).
  cbn [fund_count top_funds funds].
  apply present_survives, survives_true in P. fold (shortlist u k) in P.
  pose proof (get_top_funds_length (shortlist u k)) as L.
  split; [exact Hc|]. split; [reflexivity|]. split.
  - rewrite L. destruct (shortlist u k); [contradiction|cbn [length]; lia].
  - intros x Hx. apply get_top_funds_In in Hx. unfold shortlist in Hx.
    unfold apply_category_filters in Hx. apply filter_In in Hx.
    destruct Hx as [Hx _]. unfold select_category in Hx.
    apply filter_In in Hx. destruct Hx as [_ Hx].
    apply String.eqb_eq. exact Hx.
Qed.

(** X6: on the fund data bundled with the app no debt fund passes the
    filters, whatever the risk score: the recommendation has no debt entry,
    every category it does recommend lists exactly one fund, and the total
    allocation is at most 80%. *)
Theorem X6_bundled_data_has_no_debt :
  forall s : Q,
  let p :=
    create_portfolio_recommendations StreamlitApp.load_sample_fund_data s in
  lookup "debt" (recommendations p) = None /\
  total_allocation p <= 80 /\
  (forall c r, In (c, r) (recommendations p) -> fund_count r = 1%nat).
Proof.
  intros s. unfold create_portfolio_recommendations.
  rewrite filter_funds_expected.
  pose proof (risk_category_cases s) as Hc.
  destruct (get_risk_category_from_score s) as [rc a].
  cbn [fst snd total_allocation recommendations].
  cbn [In] in Hc.
  destruct Hc as [H|[H|[H|[H|[H|[]]]]]]; inversion H; subst rc a; clear H;
    (split; [vm_compute; reflexivity|]);
    (split; [apply Qle_bool_iff; vm_compute; reflexivity|]);
    intros c r Hr;
    match type of Hr with
    | In _ ?l => let l' := eval vm_compute in l in
                 change (In (c, r) l') in Hr
    end;
    cbn [In] in Hr;
    repeat (destruct Hr as [Hr|Hr]; [injection Hr as <- <-; reflexivity|]);
    destruct Hr.
Qed.

Lemma Qle_bool_Rleb (q c : Q) : Qle_bool q c = Py.Rleb (Q2R q) (Q2R c).
Proof.
  unfold Py.Rleb. destruct (Rle_dec (Q2R q) (Q2R c)) as [H|H].
  - apply Qle_bool_iff. apply Rle_Qle. exact H.
  - apply not_true_iff_false. rewrite Qle_bool_iff. intros H'. apply H.
    apply Qle_Rle. exact H'.
Qed.

(** X7: the copy of [get_risk_category_from_score] in [fund_filtering.py]
    agrees with the one in [risk_assessment.py] on every score: same category,
    same debt and equity shares; and the two shares always add up to 1. *)
Theorem X7_category_copies_agree :
  forall q : Q,
  fst (get_risk_category_from_score q)
  = fst (RiskAssessment.get_risk_category_from_score (Q2R q)) /\
  Q2R (debt (snd (get_risk_category_from_score q)))
  = RiskAssessment.debt
      (snd (RiskAssessment.get_risk_category_from_score (Q2R q))) /\
  Q2R (equity (snd (get_risk_category_from_score q)))
  = RiskAssessment.equity
      (snd (RiskAssessment.get_risk_category_from_score (Q2R q))) /\
  debt (snd (get_risk_category_from_score q))
  + equity (snd (get_risk_category_from_score q)) == 1.
Proof.
  intros q.
  unfold get_risk_category_from_score,
    RiskAssessment.get_risk_category_from_score.
  rewrite !Qle_bool_Rleb.
  replace (Q2R (2 # 10)) with 0.2%R by (unfold Q2R; cbn; lra).
  replace (Q2R (4 # 10)) with 0.4%R by (unfold Q2R; cbn; lra).
  replace (Q2R (6 # 10)) with 0.6%R by (unfold Q2R; cbn; lra).
  replace (Q2R (8 # 10)) with 0.8%R by (unfold Q2R; cbn; lra).
  destruct (Py.Rleb (Q2R q) 0.2);
    [|destruct (Py.Rleb (Q2R q) 0.4);
      [|destruct (Py.Rleb (Q2R q) 0.6);
        [|destruct (Py.Rleb (Q2R q) 0.8)]]];
    cbn [fst snd debt equity RiskAssessment.debt RiskAssessment.equity];
    (split; [reflexivity|]);
    (split; [unfold Q2R; cbn; lra|]);
    (split; [unfold Q2R; cbn; lra|reflexivity]).
Qed.

End RecommendationFacts.

(** ** What the allocator ignores *)

Section AllocatorFacts.

Import FundFiltering FundRanking.
Local Open Scope Q_scope.
Local Open Scope string_scope.

Lemma extreme_bands (s : Q) :
  (s <= 2 # 10 ->
   get_risk_category_from_score s
   = ("Very Conservative", mkAllocation (85 # 100) (15 # 100))) /\
  (8 # 10 < s ->
   get_risk_category_from_score s
   = ("Aggressive", mkAllocation (20 # 100) (80 # 100))).
Proof.
  unfold get_risk_category_from_score. split; intros H.
  - replace (Qle_bool s (2 # 10)) with true
      by (symmetry; apply Qle_bool_iff; exact H).
    reflexivity.
  - assert (F : forall c, c <= 8 # 10 -> Qle_bool s c = false).
    { intros c Hc. apply not_true_iff_false. rewrite Qle_bool_iff.
      intros H'. apply (Qlt_irrefl s).
      eapply Qle_lt_trans; [exact H'|].
      eapply Qle_lt_trans; [exact Hc|exact H]. }
    rewrite !F by discriminate. reflexivity.
Qed.

(** X23: an investor in the lowest band (score at most 0.2) or in the highest
    (score above 0.8) is never given a hybrid fund, whatever the universe
    holds, because the baseline equity of 0.15, respectively the baseline debt
    of 0.20, is not strictly above 0.2; the total allocation then stays at or
    below 100%. *)
Theorem X23_no_hybrid_at_the_extremes :
  forall (u : FundUniverse) (s : Q),
  s <= 2 # 10 \/ 8 # 10 < s ->
  let p := create_portfolio_recommendations u s in
  lookup "hybrid" (recommendations p) = None /\
  total_allocation p <= 100.
Proof.
  intros u s Hs p.
  assert (Hl : lookup "hybrid" (recommendations p) = None).
  { unfold p. rewrite recommendations_lookup, lookup_filter_funds. cbv zeta.
    destruct Hs as [Hs|Hs].
    - rewrite (proj1 (extreme_bands s) Hs). reflexivity.
    - rewrite (proj2 (extreme_bands s) Hs). reflexivity. }
  split; [exact Hl|].
  destruct (totals_bounded u s) as (_ & _ & H & _). fold p in H.
  unfold hybrid_percentage in H. rewrite Hl in H.
  eapply Qle_trans; [exact H|]. discriminate.
Qed.

(** Score 0.1 on the universe in which every shortlist is non-empty. *)
Lemma X23_no_hybrid_at_the_extremes_witness :
  lookup "hybrid"
    (recommendations (create_portfolio_recommendations full_universe (1 # 10)))
  = None.
Proof.
  apply (X23_no_hybrid_at_the_extremes full_universe (1 # 10)).
  left. discriminate.
Defined.

Lemma filter_filter_implied {A : Type} (p q : A -> bool) (l : list A) :
  (forall x, q x = true -> p x = true) ->
  filter q (filter p l) = filter q l.
Proof.
  intros H. induction l as [|x l IH]; [reflexivity|]. cbn [filter].
  destruct (p x) eqn:P; cbn [filter].
  - rewrite IH. reflexivity.
  - destruct (q x) eqn:Q; [rewrite (H x Q) in P; discriminate|exact IH].
Qed.

Lemma select_known (u : FundUniverse) (c : string) :
  In c categories ->
  select_category (known_categories u) c = select_category u c.
Proof.
  intros Hc. unfold select_category, known_categories.
  apply filter_filter_implied. intros f Hf.
  apply String.eqb_eq in Hf. rewrite Hf.
  apply existsb_exists. exists c. split; [exact Hc|apply String.eqb_refl].
Qed.

(** X24: funds whose category is none of large_cap, mid_cap, small_cap, debt
    and hybrid have no influence: removing them from the universe leaves the
    whole recommendation unchanged. *)
Theorem X24_unknown_categories_ignored :
  forall (u : FundUniverse) (s : Q),
  create_portfolio_recommendations (known_categories u) s
  = create_portfolio_recommendations u s.
Proof.
  intros u s.
  assert (E : forall a, expected a (known_categories u) = expected a u).
  { intros a. unfold expected, categories, present, entry_of, survives,
      shortlist.
    cbn [flat_map String.eqb Ascii.eqb Bool.eqb].
    rewrite !select_known by (cbn; tauto). reflexivity. }
  unfold create_portfolio_recommendations.
  rewrite !filter_funds_expected, E. reflexivity.
Qed.

End AllocatorFacts.

(** ** More on risk scoring *)

Section ScoreShapeFacts.

Import Py Settings.
Local Open Scope R_scope.
Local Open Scope string_scope.
Local Open Scope py_scope.

Ltac rdecide :=
  unfold Rleb, Rltb in *;
  repeat match goal with
         | |- context [Rle_dec ?x ?y] => destruct (Rle_dec x y)
         | |- context [Rlt_dec ?x ?y] => destruct (Rlt_dec x y)
         end;
  try reflexivity; try lra.

Lemma clamp01_mono (x y : R) : x <= y -> clamp01 x <= clamp01 y.
Proof.
  intros H. unfold clamp01, Rmin, Rmax.
  destruct (Rle_dec x 0), (Rle_dec y 0);
    repeat match goal with
           | |- context [Rle_dec ?a 1] => destruct (Rle_dec a 1)
           end; lra.
Qed.

Lemma Ok_inj {A : Type} (a b : A) : Ok a = Ok b -> a = b.
Proof. intros H. injection H as H. exact H. Qed.

(** X8: with a non-negative weight on "tolerance", raising the risk tolerance
    and leaving every other argument alone never lowers the score
    [calculate_risk_score] returns. *)
Theorem X8_score_monotone_in_tolerance :
  forall (age income current_savings monthly_surplus goals weights : pyval)
         (t t' wr s s' : R),
  subscript (if truthy weights then weights else RiskAssessment.default_weights)
    "tolerance" = Ok (VNum wr) ->
  0 <= wr -> t <= t' ->
  RiskAssessment.calculate_risk_score age income current_savings
    monthly_surplus goals (VNum t) weights = Ok s ->
  RiskAssessment.calculate_risk_score age income current_savings
    monthly_surplus goals (VNum t') weights = Ok s' ->
  s <= s'.
Proof.
  intros age income sv m goals weights t t' wr s s' Hw Hwr Ht H H'.
  destruct (simple_score_inv _ _ _ _ _ _ _ _ H)
    as (i & fa & fs & fv & ft & fr & wa & wi & wt & ws & wv & wr1 &
        Hfa & Hi & Hfs & Hfv & Hft & Hfr & H1 & H2 & H3 & H4 & H5 & H6 & ->).
  destruct (simple_score_inv _ _ _ _ _ _ _ _ H')
    as (i' & fa' & fs' & fv' & ft' & fr' & wa' & wi' & wt' & ws' & wv' & wr2 &
        Hfa' & Hi' & Hfs' & Hfv' & Hft' & Hfr' & H1' & H2' & H3' & H4' & H5'
        & H6' & ->).
  subst income. injection Hi' as <-.
  assert (fa' = fa) by congruence. assert (fs' = fs) by congruence.
  assert (fv' = fv) by congruence. assert (ft' = ft) by congruence.
  assert (wa' = wa) by congruence. assert (wi' = wi) by congruence.
  assert (wt' = wt) by congruence. assert (ws' = ws) by congruence.
  assert (wv' = wv) by congruence.
  assert (wr1 = wr) by congruence. assert (wr2 = wr) by congruence.
  subst. unfold RiskAssessment.tolerance_factor_of in Hfr, Hfr'.
  cbn [as_num bind] in Hfr, Hfr'. apply Ok_inj in Hfr, Hfr'. subst fr fr'.
  apply clamp01_mono.
  assert (wr * ((t - 1) / 4) <= wr * ((t' - 1) / 4))
    by (apply Rmult_le_compat_l; lra).
  lra.
Qed.

(** The self-test investor at tolerance 2 and 5, default weights. *)
Lemma X8_score_monotone_in_tolerance_witness :
  exists s s',
    RiskAssessment.calculate_risk_score (VNum 25) (VNum 80000) (VNum 200000)
      (VNum 25000) (VDict [(VNum 60, VNum 500000)]) (VNum 2) VNone = Ok s /\
    RiskAssessment.calculate_risk_score (VNum 25) (VNum 80000) (VNum 200000)
      (VNum 25000) (VDict [(VNum 60, VNum 500000)]) (VNum 5) VNone = Ok s' /\
    s <= s'.
Proof.
  assert (G : goals_ok [(VNum 60, VNum 500000)])
    by (repeat constructor; eexists; (split; [reflexivity|lra])).
  assert (W : weights_ok
            (if truthy VNone then VNone else RiskAssessment.default_weights)
            "age" "income" "timeline" "surplus" "savings" "tolerance"
            0.25 0.20 0.20 0.15 0.10 0.10) by (repeat split; reflexivity).
  destruct (simple_score_returns 25 80000 200000 25000 2 _ VNone _ _ _ _ _ _
              ltac:(lra) G W) as (s & E).
  destruct (simple_score_returns 25 80000 200000 25000 5 _ VNone _ _ _ _ _ _
              ltac:(lra) G W) as (s' & E').
  exists s, s'. split; [exact E|]. split; [exact E'|].
  apply (X8_score_monotone_in_tolerance (VNum 25) (VNum 80000) (VNum 200000)
           (VNum 25000) (VDict [(VNum 60, VNum 500000)]) VNone 2 5 0.10 s s');
    [reflexivity|lra|lra|exact E|exact E'].
Defined.

Lemma simple_age_factor_antitone (a a' fa fa' : R) :
  a <= a' ->
  RiskAssessment.age_factor_of (VNum a) = Ok fa ->
  RiskAssessment.age_factor_of (VNum a') = Ok fa' ->
  fa' <= fa.
Proof.
  intros Ha H H'. unfold RiskAssessment.age_factor_of in *.
  cbn [as_num bind] in *. apply Ok_inj in H, H'. subst fa fa'.
  rdecide.
Qed.

(** X9: with a non-negative weight on "age", a younger investor never gets a
    lower score than an older one whose other arguments are the same. *)
Theorem X9_score_antitone_in_age :
  forall (income current_savings monthly_surplus goals risk_tolerance
            weights : pyval) (a a' wa s s' : R),
  subscript (if truthy weights then weights else RiskAssessment.default_weights)
    "age" = Ok (VNum wa) ->
  0 <= wa -> a <= a' ->
  RiskAssessment.calculate_risk_score (VNum a) income current_savings
    monthly_surplus goals risk_tolerance weights = Ok s ->
  RiskAssessment.calculate_risk_score (VNum a') income current_savings
    monthly_surplus goals risk_tolerance weights = Ok s' ->
  s' <= s.
Proof.
  intros income sv m goals tol weights a a' wa s s' Hw Hwa Ha H H'.
  destruct (simple_score_inv _ _ _ _ _ _ _ _ H)
    as (i & fa & fs & fv & ft & fr & wa1 & wi & wt & ws & wv & wr &
        Hfa & Hi & Hfs & Hfv & Hft & Hfr & H1 & H2 & H3 & H4 & H5 & H6 & ->).
  destruct (simple_score_inv _ _ _ _ _ _ _ _ H')
    as (i' & fa' & fs' & fv' & ft' & fr' & wa2 & wi' & wt' & ws' & wv' & wr' &
        Hfa' & Hi' & Hfs' & Hfv' & Hft' & Hfr' & H1' & H2' & H3' & H4' & H5'
        & H6' & ->).
  subst income. injection Hi' as <-.
  assert (fr' = fr) by congruence. assert (fs' = fs) by congruence.
  assert (fv' = fv) by congruence. assert (ft' = ft) by congruence.
  assert (wa1 = wa) by congruence. assert (wa2 = wa) by congruence.
  assert (wi' = wi) by congruence.
  assert (wt' = wt) by congruence. assert (ws' = ws) by congruence.
  assert (wv' = wv) by congruence. assert (wr' = wr) by congruence.
  subst.
  pose proof (simple_age_factor_antitone a a' fa fa' Ha Hfa Hfa').
  apply clamp01_mono.
  assert (wa * fa' <= wa * fa) by (apply Rmult_le_compat_l; lra).
  lra.
Qed.

(** Ages 25 and 55 with the default weights. *)
Lemma X9_score_antitone_in_age_witness :
  exists s s',
    RiskAssessment.calculate_risk_score (VNum 25) (VNum 80000) (VNum 200000)
      (VNum 25000) (VDict []) (VNum 3) VNone = Ok s /\
    RiskAssessment.calculate_risk_score (VNum 55) (VNum 80000) (VNum 200000)
      (VNum 25000) (VDict []) (VNum 3) VNone = Ok s' /\
    s' <= s.
Proof.
  assert (G : goals_ok []) by constructor.
  assert (W : weights_ok
            (if truthy VNone then VNone else RiskAssessment.default_weights)
            "age" "income" "timeline" "surplus" "savings" "tolerance"
            0.25 0.20 0.20 0.15 0.10 0.10) by (repeat split; reflexivity).
  destruct (simple_score_returns 25 80000 200000 25000 3 _ VNone _ _ _ _ _ _
              ltac:(lra) G W) as (s & E).
  destruct (simple_score_returns 55 80000 200000 25000 3 _ VNone _ _ _ _ _ _
              ltac:(lra) G W) as (s' & E').
  exists s, s'. split; [exact E|]. split; [exact E'|].
  apply (X9_score_antitone_in_age (VNum 80000) (VNum 200000) (VNum 25000)
           (VDict []) (VNum 3) VNone 25 55 0.25 s s');
    [reflexivity|lra|lra|exact E|exact E'].
Defined.

End ScoreShapeFacts.

Section FactorFacts.

Import Py Settings.
Local Open Scope R_scope.
Local Open Scope string_scope.
Local Open Scope py_scope.

Lemma round_half_even_IZR (z : Z) : round_half_even (IZR z) = z.
Proof.
  unfold round_half_even. rewrite ZfloorZ.
  destruct (Rlt_dec (IZR z - IZR z) (1 / 2)); [reflexivity|lra].
Qed.

Lemma round_exact (x : R) (n : nat) (z : Z) :
  x * 10 ^ n = IZR z -> round x n = IZR z / 10 ^ n.
Proof. intros H. unfold round. rewrite H, round_half_even_IZR. reflexivity. Qed.

(** X10: whenever [analyze_user_risk_profile] returns, the reported score
    lies in [0,1], the category is one of the five, the debt and equity
    fractions add up to 1, and the two percentages are 100 times the fractions
    and add up to 100. *)
Theorem X10_analysis_invariants :
  forall (user_data : list (pyval * pyval)) (r : RiskAssessment.Analysis),
  RiskAssessment.analyze_user_risk_profile user_data = Ok r ->
  0 <= RiskAssessment.risk_score r <= 1 /\
  In (RiskAssessment.risk_category r)
     ["Very Conservative"; "Conservative"; "Moderate"; "Growth"; "Aggressive"]
  /\
  RiskAssessment.debt (RiskAssessment.allocation r)
  + RiskAssessment.equity (RiskAssessment.allocation r) = 1 /\
  RiskAssessment.debt_percentage r
  = 100 * RiskAssessment.debt (RiskAssessment.allocation r) /\
  RiskAssessment.equity_percentage r
  = 100 * RiskAssessment.equity (RiskAssessment.allocation r) /\
  RiskAssessment.debt_percentage r + RiskAssessment.equity_percentage r = 100.
Proof.
  intros user_data r H. unfold RiskAssessment.analyze_user_risk_profile in H.
  cbv zeta in H. apply bind_ok in H. destruct H as (score & Hs & H).
  assert (Hb : 0 <= score <= 1).
  { destruct (simple_score_inv _ _ _ _ _ _ _ _ Hs)
      as (i & fa & fs & fv & ft & fr & wa & wi & wt & ws & wv & wr &
          _ & _ & _ & _ & _ & _ & _ & _ & _ & _ & _ & _ & ->).
    apply clamp01_bounds. }
  unfold RiskAssessment.get_risk_category_from_score in H.
  assert (P : forall d z, d * 100 * 10 ^ 1 = IZR z ->
                round (d * 100) 1 = IZR z / 10 ^ 1)
    by (intros d z; apply round_exact).
  destruct (Rleb score 0.2);
    [|destruct (Rleb score 0.4);
      [|destruct (Rleb score 0.6); [|destruct (Rleb score 0.8)]]];
    injection H as <-;
    cbn [RiskAssessment.risk_score RiskAssessment.risk_category
         RiskAssessment.allocation RiskAssessment.debt RiskAssessment.equity
         RiskAssessment.debt_percentage RiskAssessment.equity_percentage];
    (split; [apply round3_bounds; exact Hb|]);
    (split; [cbn [In]; auto 6|]);
    (split; [lra|]).
  - rewrite (P 0.85 850%Z), (P 0.15 150%Z) by (simpl; lra). simpl. lra.
  - rewrite (P 0.70 700%Z), (P 0.30 300%Z) by (simpl; lra). simpl. lra.
  - rewrite (P 0.55 550%Z), (P 0.45 450%Z) by (simpl; lra). simpl. lra.
  - rewrite (P 0.35 350%Z), (P 0.65 650%Z) by (simpl; lra). simpl. lra.
  - rewrite (P 0.20 200%Z), (P 0.80 800%Z) by (simpl; lra). simpl. lra.
Qed.

(** The self-test investor as a profile dict. *)
Lemma X10_analysis_invariants_witness :
  exists r,
    RiskAssessment.analyze_user_risk_profile
      [ (VStr "age", VNum 25); (VStr "income", VNum 80000);
        (VStr "current_savings", VNum 200000);
        (VStr "monthly_surplus", VNum 25000);
        (VStr "goals", VDict [(VNum 60, VNum 500000)]);
        (VStr "risk_tolerance", VNum 5) ] = Ok r /\
    RiskAssessment.debt_percentage r + RiskAssessment.equity_percentage r = 100.
Proof.
  assert (G : goals_ok [(VNum 60, VNum 500000)])
    by (repeat constructor; eexists; (split; [reflexivity|lra])).
  assert (W : weights_ok
            (if truthy VNone then VNone else RiskAssessment.default_weights)
            "age" "income" "timeline" "surplus" "savings" "tolerance"
            0.25 0.20 0.20 0.15 0.10 0.10) by (repeat split; reflexivity).
  destruct (simple_score_returns 25 80000 200000 25000 5 _ VNone _ _ _ _ _ _
              ltac:(lra) G W) as (s & E).
  destruct (RiskAssessment.analyze_user_risk_profile
              [ (VStr "age", VNum 25); (VStr "income", VNum 80000);
                (VStr "current_savings", VNum 200000);
                (VStr "monthly_surplus", VNum 25000);
                (VStr "goals", VDict [(VNum 60, VNum 500000)]);
                (VStr "risk_tolerance", VNum 5) ]) as [r|e] eqn:A.
  - exists r. split; [reflexivity|].
    apply (X10_analysis_invariants _ r A).
  - exfalso. unfold RiskAssessment.analyze_user_risk_profile in A.
    cbn [get dict_get String.eqb Ascii.eqb Bool.eqb] in A.
    rewrite E in A. cbn [bind] in A.
    destruct (RiskAssessment.get_risk_category_from_score s). discriminate.
Defined.


Lemma ln_le (x y : R) : 0 < x -> x <= y -> ln x <= ln y.
Proof.
  intros Hx [H| ->]; [left; apply ln_increasing; assumption|right; reflexivity].
Qed.

Lemma log_ratio_one (x c : R) :
  0 < c -> c <= x -> clamp01 (ln (1 + x) / ln (1 + c)) = 1.
Proof.
  intros Hc Hx.
  pose proof (ln1p_pos c Hc) as Lc.
  assert (L : ln (1 + c) <= ln (1 + x)) by (apply ln_le; lra).
  assert (1 <= ln (1 + x) / ln (1 + c)).
  { apply (Rmult_le_reg_r (ln (1 + c))); [exact Lc|].
    replace (ln (1 + x) / ln (1 + c) * ln (1 + c)) with (ln (1 + x))
      by (field; lra). lra. }
  unfold clamp01, Rmin, Rmax.
  destruct (Rle_dec (ln (1 + x) / ln (1 + c)) 0); [lra|].
  destruct (Rle_dec (ln (1 + x) / ln (1 + c)) 1); lra.
Qed.

Lemma log_ratio_zero (c : R) : clamp01 (ln (1 + 0) / ln (1 + c)) = 0.
Proof.
  replace (1 + 0) with 1 by lra. rewrite ln_1.
  replace (0 / ln (1 + c)) with 0 by (unfold Rdiv; lra).
  apply clamp01_id. lra.
Qed.

(** X11: for a positive income both modules compute the same surplus factor,
    [clamp(log1p(max(surplus, 0)) / log1p(income / 2))]; it is 0 for a surplus
    at or below 0 and reaches 1 as soon as the surplus is half the income. *)
Theorem X11_surplus_factor :
  forall income monthly_surplus : R,
  0 < income ->
  RiskAssessment.surplus_factor_of (VNum monthly_surplus) income
  = RiskAssessmentComplex._calculate_surplus_factor monthly_surplus income /\
  RiskAssessmentComplex._calculate_surplus_factor monthly_surplus income
  = Ok (clamp01 (ln (1 + Rmax monthly_surplus 0) / ln (1 + income / 2))) /\
  (monthly_surplus <= 0 ->
   RiskAssessmentComplex._calculate_surplus_factor monthly_surplus income
   = Ok 0) /\
  (income / 2 <= monthly_surplus ->
   RiskAssessmentComplex._calculate_surplus_factor monthly_surplus income
   = Ok 1).
Proof.
  intros i m Hi.
  assert (Hm : 0 <= Rmax m 0) by apply Rmax_r.
  assert (E : RiskAssessmentComplex._calculate_surplus_factor m i
              = Ok (clamp01 (ln (1 + Rmax m 0) / ln (1 + i / 2)))).
  { unfold RiskAssessmentComplex._calculate_surplus_factor.
    replace (Rleb i 0) with false by (symmetry; apply Rleb_false; exact Hi).
    replace (Rltb 0 i) with true by (symmetry; apply Rltb_true; exact Hi).
    apply log_ratio_ok; lra. }
  split; [|split; [exact E|split]].
  - rewrite E. unfold RiskAssessment.surplus_factor_of. cbn [as_num bind].
    replace (Rltb 0 i) with true by (symmetry; apply Rltb_true; exact Hi).
    apply log_ratio_ok; lra.
  - intros H. rewrite E. f_equal.
    replace (Rmax m 0) with 0
      by (unfold Rmax; destruct (Rle_dec m 0); lra).
    apply log_ratio_zero.
  - intros H. rewrite E. f_equal.
    replace (Rmax m 0) with m
      by (unfold Rmax; destruct (Rle_dec m 0); lra).
    apply log_ratio_one; lra.
Qed.

(** Income 80000 and a surplus of 40000. *)
Lemma X11_surplus_factor_witness :
  RiskAssessmentComplex._calculate_surplus_factor 40000 80000 = Ok 1.
Proof.
  apply (proj2 (proj2 (proj2 (X11_surplus_factor 80000 40000 ltac:(lra))))).
  lra.
Defined.

(** X12: for a positive income both modules compute
    [clamp(log1p(months) / log1p(60))] as the savings factor, but the engine
    takes [months = savings / income] while [risk_assessment.py] takes
    [months = savings / (income / 12)]: its factor is the engine's factor for
    twelve times the savings.  The engine's factor reaches 1 once the savings
    are 60 times the income. *)
Theorem X12_savings_factor :
  forall income current_savings : R,
  0 < income ->
  RiskAssessment.savings_factor_of (VNum current_savings) income
  = RiskAssessmentComplex._calculate_savings_factor (12 * current_savings)
      income /\
  (0 <= current_savings ->
   RiskAssessmentComplex._calculate_savings_factor current_savings income
   = Ok (clamp01 (ln (1 + current_savings / income) / ln (1 + 60)))) /\
  (60 * income <= current_savings ->
   RiskAssessmentComplex._calculate_savings_factor current_savings income
   = Ok 1).
Proof.
  intros i s Hi.
  assert (E : forall x, 0 <= x ->
            RiskAssessmentComplex._calculate_savings_factor x i
            = Ok (clamp01 (ln (1 + x / i) / ln (1 + 60)))).
  { intros x Hx. unfold RiskAssessmentComplex._calculate_savings_factor.
    replace (Rleb i 0) with false by (symmetry; apply Rleb_false; exact Hi).
    rewrite div_ok by lra. cbn [bind].
    assert (0 <= x / i).
    { apply Rmult_le_pos; [exact Hx|]. left. apply Rinv_0_lt_compat. exact Hi. }
    apply log_ratio_ok; lra. }
  split; [|split; [apply E|]].
  - unfold RiskAssessment.savings_factor_of,
      RiskAssessmentComplex._calculate_savings_factor.
    cbn [as_num bind].
    replace (Rleb i 0) with false by (symmetry; apply Rleb_false; exact Hi).
    replace (Rltb 0 i) with true by (symmetry; apply Rltb_true; exact Hi).
    rewrite !div_ok by lra. cbn [bind].
    replace (s / (i / 12)) with (12 * s / i) by (field; lra).
    reflexivity.
  - intros H. rewrite E by lra. f_equal.
    apply log_ratio_one; [lra|].
    apply (Rmult_le_reg_r i); [exact Hi|].
    replace (s / i * i) with s by (field; lra). lra.
Qed.

(** Savings of five years of a monthly income of 1000. *)
Lemma X12_savings_factor_witness :
  RiskAssessmentComplex._calculate_savings_factor 60000 1000 = Ok 1.
Proof.
  apply (proj2 (proj2 (X12_savings_factor 1000 60000 ltac:(lra)))). lra.
Defined.

(** X13: the timeline factor is the same function in both modules, on every
    value of [goals], and so is the age factor on every integer age. *)
Theorem X13_timeline_and_age_agree :
  (forall goals : pyval,
     RiskAssessment.timeline_factor_of goals
     = RiskAssessmentComplex._calculate_timeline_factor goals) /\
  (forall age : Z,
     RiskAssessment.age_factor_of (VNum (IZR age))
     = Ok (RiskAssessmentComplex._calculate_age_factor age)).
Proof.
  split.
  - intros goals.
    unfold RiskAssessment.timeline_factor_of,
      RiskAssessmentComplex._calculate_timeline_factor.
    destruct goals as [|x|s|items]; cbn [truthy negb].
    + reflexivity.
    + destruct (Req_EM_T x 0); reflexivity.
    + destruct s as [|c s]; reflexivity.
    + destruct items as [|kv items]; reflexivity.
  - intros age.
    unfold RiskAssessment.age_factor_of,
      RiskAssessmentComplex._calculate_age_factor.
    cbn [as_num bind]. f_equal.
    assert (B : forall k : Z, Rleb (IZR age) (IZR k) = (age <=? k)%Z).
    { intros k. destruct (age <=? k)%Z eqn:E.
      - apply Rleb_true. apply IZR_le. apply Z.leb_le. exact E.
      - apply Rleb_false. apply IZR_lt. apply Z.leb_gt. exact E. }
    rewrite (B 25%Z), (B 35%Z), (B 45%Z), (B 55%Z). reflexivity.
Qed.

End FactorFacts.

(** ** More on the engine *)

Section EngineFacts.

Import Py Settings PyFloat.
Local Open Scope R_scope.
Local Open Scope string_scope.
Local Open Scope py_scope.

Variable int_of_str : string -> option Z.
Variable float_of_str : string -> option R.

Lemma trunc_IZR (z : Z) : trunc (IZR z) = z.
Proof.
  unfold trunc. destruct (Rle_dec 0 (IZR z)); [apply ZfloorZ|].
  unfold Zceil. rewrite ZfloorNZ. lia.
Qed.

Lemma finite_small (x : R) : Rabs x <= 1000000 -> finite x.
Proof.
  intros H. unfold finite, float_max.
  assert (A : 1 <= 2 - / 2 ^ 52).
  { assert (0 < / 2 ^ 52 <= 1); [|lra].
    assert (P : 1 <= 2 ^ 52) by (apply pow_R1_Rle; lra).
    split; [apply Rinv_0_lt_compat; lra|].
    rewrite <- Rinv_1. apply Rinv_le_contravar; lra. }
  assert (B : 2 ^ 20 <= 2 ^ 1023) by (apply Rle_pow; [lra|lia]).
  assert (C : 2 ^ 20 = 1048576) by (simpl; lra).
  assert (D : 1 * 2 ^ 20 <= (2 - / 2 ^ 52) * 2 ^ 1023).
  { apply Rmult_le_compat; lra. }
  lra.
Qed.

(** X14: given [None], a dict, a string or a finite number,
    [_validate_age] and [_validate_risk_tolerance] do not raise.  A number is
    truncated towards zero by [int()] (25.9 becomes 25) and a string is read
    by [int()]; the result is kept when it lies in 18..100, respectively
    1..10, and replaced by 30, respectively 5, otherwise, as are [None], a
    dict and a string that [int()] rejects.  [_validate_income] returns a
    number within the float range unchanged, 0 when it is negative, and 50000
    for [None] and a dict.  Whenever a validator returns, the age is in
    18..100, the tolerance in 1..10 and the income is not negative.
    Infinities, NaN and, for the income, integers beyond the float range are
    not covered: there [int()] and [float()] raise [OverflowError], which the
    validators do not catch, or a NaN is passed through. *)
Theorem X14_validators :
  (forall x : R,
     RiskAssessmentComplex._validate_age int_of_str (VNum x)
     = Ok (if (trunc x <? 18)%Z || (100 <? trunc x)%Z then 30%Z
           else trunc x) /\
     RiskAssessmentComplex._validate_risk_tolerance int_of_str (VNum x)
     = Ok (if (trunc x <? 1)%Z || (10 <? trunc x)%Z then 5%Z
           else trunc x)) /\
  (forall z : Z,
     ((18 <= z <= 100)%Z ->
      RiskAssessmentComplex._validate_age int_of_str (VNum (IZR z)) = Ok z) /\
     ((1 <= z <= 10)%Z ->
      RiskAssessmentComplex._validate_risk_tolerance int_of_str (VNum (IZR z))
      = Ok z)) /\
  (forall s : string,
     RiskAssessmentComplex._validate_age int_of_str (VStr s)
     = Ok (match int_of_str s with
           | Some a => if (a <? 18)%Z || (100 <? a)%Z then 30%Z else a
           | None => 30%Z
           end) /\
     RiskAssessmentComplex._validate_risk_tolerance int_of_str (VStr s)
     = Ok (match int_of_str s with
           | Some t => if (t <? 1)%Z || (10 <? t)%Z then 5%Z else t
           | None => 5%Z
           end)) /\
  (forall x : R,
     finite x ->
     RiskAssessmentComplex._validate_income float_of_str (VNum x)
     = Ok (if Rltb x 0 then 0 else x)) /\
  (forall v : pyval,
     v = VNone \/ (exists d, v = VDict d) ->
     RiskAssessmentComplex._validate_age int_of_str v = Ok 30%Z /\
     RiskAssessmentComplex._validate_income float_of_str v = Ok 50000 /\
     RiskAssessmentComplex._validate_risk_tolerance int_of_str v = Ok 5%Z) /\
  (forall v a,
     RiskAssessmentComplex._validate_age int_of_str v = Ok a ->
     (18 <= a <= 100)%Z) /\
  (forall v t,
     RiskAssessmentComplex._validate_risk_tolerance int_of_str v = Ok t ->
     (1 <= t <= 10)%Z) /\
  (forall v i,
     RiskAssessmentComplex._validate_income float_of_str v = Ok i -> 0 <= i).
Proof.
  split.
  { intros x.
    unfold RiskAssessmentComplex._validate_age,
      RiskAssessmentComplex._validate_risk_tolerance.
    cbn [RiskAssessmentComplex.py_int bind].
    split.
    - destruct ((trunc x <? 18)%Z || (100 <? trunc x)%Z); reflexivity.
    - destruct ((trunc x <? 1)%Z || (10 <? trunc x)%Z); reflexivity. }
  split.
  { intros z.
    unfold RiskAssessmentComplex._validate_age,
      RiskAssessmentComplex._validate_risk_tolerance.
    cbn [RiskAssessmentComplex.py_int bind]. rewrite trunc_IZR.
    split; intros [H1 H2].
    - replace ((z <? 18)%Z || (100 <? z)%Z) with false; [reflexivity|].
      symmetry. apply orb_false_iff. split; apply Z.ltb_ge; lia.
    - replace ((z <? 1)%Z || (10 <? z)%Z) with false; [reflexivity|].
      symmetry. apply orb_false_iff. split; apply Z.ltb_ge; lia. }
  split.
  { intros s.
    unfold RiskAssessmentComplex._validate_age,
      RiskAssessmentComplex._validate_risk_tolerance.
    cbn [RiskAssessmentComplex.py_int].
    destruct (int_of_str s) as [a|]; cbn [bind try_except];
      [|split; reflexivity].
    split.
    - destruct ((a <? 18)%Z || (100 <? a)%Z); reflexivity.
    - destruct ((a <? 1)%Z || (10 <? a)%Z); reflexivity. }
  split.
  { intros x _. unfold RiskAssessmentComplex._validate_income.
    cbn [RiskAssessmentComplex.py_float bind].
    destruct (Rltb x 0); reflexivity. }
  split.
  { intros v [->|[d ->]]; repeat split; reflexivity. }
  split.
  { intros v a H.
    destruct (validate_age_ok int_of_str v) as (a' & E & R').
    rewrite E in H. injection H as <-. exact R'. }
  split.
  { intros v t H.
    destruct (validate_risk_tolerance_ok int_of_str v) as (t' & E & R').
    rewrite E in H. injection H as <-. exact R'. }
  intros v i H.
  destruct (validate_income_ok float_of_str v) as (i' & E & R').
  rewrite E in H. injection H as <-. exact R'.
Qed.





End EngineFacts.

Section EngineExamples.

Import Py Settings PyFloat.
Local Open Scope R_scope.
Local Open Scope string_scope.
Local Open Scope py_scope.

(** An age of 25.9 is truncated to 25 and kept; an income of 80000 is
    returned as it is. *)
Lemma X14_validators_witness :
  RiskAssessmentComplex._validate_age (fun _ => None) (VNum 25.9) = Ok 25%Z /\
  RiskAssessmentComplex._validate_income (fun _ => None) (VNum 80000)
  = Ok 80000.
Proof.
  pose proof (X14_validators (fun _ => None) (fun _ => None))
    as (N & _ & _ & I & _).
  split.
  - destruct (N 25.9) as [A _].
    assert (T : trunc 25.9 = 25%Z).
    { unfold trunc. destruct (Rle_dec 0 25.9); [|lra]. apply Zfloor_eq. lra. }
    rewrite T in A. exact A.
  - rewrite (I 80000)
      by (apply finite_small; unfold Rabs; destruct (Rcase_abs _); lra).
    replace (Rltb 80000 0) with false; [reflexivity|].
    symmetry. apply Rltb_false. lra.
Defined.


End EngineExamples.

Section EngineNormalPath.

Import Py Settings PyFloat.
Local Open Scope R_scope.
Local Open Scope string_scope.
Local Open Scope py_scope.

Variable int_of_str : string -> option Z.
Variable float_of_str : string -> option R.

Lemma engine_timeline_range (goals : pyval) (ft : R) :
  RiskAssessmentComplex._calculate_timeline_factor goals = Ok ft ->
  0 <= ft <= 1.
Proof.
  unfold RiskAssessmentComplex._calculate_timeline_factor.
  destruct (negb (truthy goals)).
  { intros H. injection H as <-. lra. }
  intros H. apply bind_ok in H. destruct H as (n & _ & H).
  destruct (n =? 0)%nat.
  { injection H as <-. lra. }
  apply bind_ok in H. destruct H as (ks & _ & H).
  apply bind_ok in H. destruct H as (ys & _ & H).
  apply bind_ok in H. destruct H as (num & _ & H).
  apply bind_ok in H. destruct H as (den & _ & H).
  apply bind_ok in H. destruct H as (f & _ & H).
  injection H as <-. apply clamp01_bounds.
Qed.

Lemma engine_surplus_range (m i fs : R) :
  RiskAssessmentComplex._calculate_surplus_factor m i = Ok fs -> 0 <= fs <= 1.
Proof.
  unfold RiskAssessmentComplex._calculate_surplus_factor.
  destruct (Rleb i 0).
  { intros H. injection H as <-. lra. }
  intros H. apply bind_ok in H. destruct H as (num & _ & H).
  apply bind_ok in H. destruct H as (den & _ & H).
  apply bind_ok in H. destruct H as (f & _ & H).
  injection H as <-. apply clamp01_bounds.
Qed.

Lemma engine_savings_range (s i fv : R) :
  RiskAssessmentComplex._calculate_savings_factor s i = Ok fv -> 0 <= fv <= 1.
Proof.
  unfold RiskAssessmentComplex._calculate_savings_factor.
  destruct (Rleb i 0).
  { intros H. injection H as <-. lra. }
  intros H. apply bind_ok in H. destruct H as (mo & _ & H).
  apply bind_ok in H. destruct H as (num & _ & H).
  apply bind_ok in H. destruct H as (den & _ & H).
  apply bind_ok in H. destruct H as (f & _ & H).
  injection H as <-. apply clamp01_bounds.
Qed.

Lemma engine_age_range (age : Z) :
  0.2 <= RiskAssessmentComplex._calculate_age_factor age <= 1.
Proof.
  unfold RiskAssessmentComplex._calculate_age_factor.
  destruct (age <=? 25)%Z; [lra|]. destruct (age <=? 35)%Z; [lra|].
  destruct (age <=? 45)%Z; [lra|]. destruct (age <=? 55)%Z; lra.
Qed.

Lemma engine_tolerance_range (t : Z) :
  (1 <= t <= 10)%Z ->
  0 <= RiskAssessmentComplex._calculate_tolerance_factor t <= 1.
Proof.
  intros [H1 H2]. apply IZR_le in H1, H2.
  unfold RiskAssessmentComplex._calculate_tolerance_factor. lra.
Qed.

(** The [try] block returns on a profile whose savings and surplus are
    numbers, whose goals have non-negative horizons and whose weights hold a
    number per factor. *)
Lemma engine_body_returns (p items : list (pyval * pyval)) (W : pyval)
    (w1 w2 w3 w4 w5 w6 sv m : R) :
  (forall d, get p "custom_weights" d = W) \/
  (dict_get p "custom_weights" = None /\
   W = RiskAssessmentComplex.weights_value default_config) ->
  weights_ok W "age_factor" "income_factor" "timeline_factor"
    "surplus_factor" "savings_factor" "risk_tolerance_factor"
    w1 w2 w3 w4 w5 w6 ->
  get p "current_savings" (VNum 0) = VNum sv ->
  get p "monthly_surplus" (VNum 0) = VNum m ->
  get p "goals" (VDict []) = VDict items ->
  goals_ok items ->
  exists r age income tol fi ft fs fv,
    RiskAssessmentComplex.score_body int_of_str float_of_str
      RiskAssessmentComplex.default_engine p = Ok r /\
    RiskAssessmentComplex.error r = None /\
    (18 <= age <= 100)%Z /\ (1 <= tol <= 10)%Z /\
    RiskAssessmentComplex._validate_age int_of_str (get p "age" (VNum 30))
    = Ok age /\
    RiskAssessmentComplex._validate_income float_of_str
      (get p "monthly_income" (VNum 50000)) = Ok income /\
    RiskAssessmentComplex._validate_risk_tolerance int_of_str
      (get p "risk_tolerance_score" (VNum 5)) = Ok tol /\
    RiskAssessmentComplex._calculate_income_factor
      RiskAssessmentComplex.default_engine income = Ok fi /\
    RiskAssessmentComplex._calculate_timeline_factor (VDict items) = Ok ft /\
    RiskAssessmentComplex._calculate_surplus_factor (Rmax m 0) income
    = Ok fs /\
    RiskAssessmentComplex._calculate_savings_factor (Rmax sv 0) income
    = Ok fv /\
    RiskAssessmentComplex.risk_score r
    = round (clamp01 (w1 * RiskAssessmentComplex._calculate_age_factor age
                      + w2 * fi + w3 * ft + w4 * fs + w5 * fv
                      + w6 * RiskAssessmentComplex._calculate_tolerance_factor
                               tol)) 3.
Proof.
  intros HW W' Hsv Hm Hg G.
  assert (Hget : get p "custom_weights"
                   (RiskAssessmentComplex.weights_value
                      (RiskAssessmentComplex.config
                         RiskAssessmentComplex.default_engine)) = W).
  { destruct HW as [HW|[HW ->]]; [apply HW|].
    unfold get. rewrite HW. reflexivity. }
  destruct (validate_age_ok int_of_str (get p "age" (VNum 30)))
    as (age & Eage & Rage).
  destruct (validate_income_ok float_of_str
              (get p "monthly_income" (VNum 50000))) as (income & Einc & _).
  destruct (validate_risk_tolerance_ok int_of_str
              (get p "risk_tolerance_score" (VNum 5))) as (tol & Etol & Rtol).
  destruct (engine_timeline_returns _ G) as (ft & Eft).
  destruct (engine_surplus_returns m income) as (fs & Efs).
  destruct (engine_savings_returns sv income) as (fv & Efv).
  set (fi := clamp01 (Rmin income 100000 / 100000)).
  set (fa := RiskAssessmentComplex._calculate_age_factor age).
  set (fr := RiskAssessmentComplex._calculate_tolerance_factor tol).
  set (score := clamp01 (w1 * fa + w2 * fi + w3 * ft + w4 * fs + w5 * fv
                         + w6 * fr)).
  destruct (engine_category_returns score) as (ca & Eca).
  pose proof W' as (H1 & H2 & H3 & H4 & H5 & H6).
  eexists _, age, income, tol, fi, ft, fs, fv.
  split.
  { unfold RiskAssessmentComplex.score_body. cbv zeta.
    rewrite Eage, Einc, Etol, Hsv, Hm, Hg, !Hget. cbn [bind].
    unfold RiskAssessmentComplex.max0. cbn [as_num bind].
    rewrite engine_income_returns, Eft, Efs, Efv. cbn [bind].
    rewrite (engine_weighted_score _ _ _ _ _ _ _ _ _ _ _ _ _ W'). cbn [bind].
    fold fa fi fr score. rewrite Eca. cbn [bind].
    rewrite (contribution_returns _ _ _ _ H1),
      (contribution_returns _ _ _ _ H2), (contribution_returns _ _ _ _ H3),
      (contribution_returns _ _ _ _ H4), (contribution_returns _ _ _ _ H5),
      (contribution_returns _ _ _ _ H6).
    reflexivity. }
  cbn [RiskAssessmentComplex.error RiskAssessmentComplex.risk_score].
  repeat split; try assumption; try reflexivity; try lia.
  apply engine_income_returns.
Qed.

Lemma round_half_even_floor (y : R) :
  (Zfloor y <= round_half_even y <= Zfloor y + 1)%Z /\
  Rabs (IZR (round_half_even y) - y) <= 1 / 2.
Proof.
  unfold round_half_even. pose proof (Zfloor_bound y) as [Hf1 Hf2].
  destruct (Rlt_dec (y - IZR (Zfloor y)) (1 / 2)) as [H|H].
  { split; [lia|]. unfold Rabs; destruct (Rcase_abs _); lra. }
  assert (U : Rabs (IZR (Zfloor y + 1) - y) <= 1 / 2).
  { rewrite plus_IZR. unfold Rabs; destruct (Rcase_abs _); lra. }
  destruct (Rlt_dec (1 / 2) (y - IZR (Zfloor y))) as [H'|H'].
  { split; [lia|exact U]. }
  destruct (Z.even (Zfloor y)).
  - split; [lia|]. unfold Rabs; destruct (Rcase_abs _); lra.
  - split; [lia|exact U].
Qed.

(** Rounding to three decimals moves a value by at most 0.0005 and does not
    take it below a bound that has three decimals itself. *)
Lemma round3_close (x : R) (k : Z) :
  Rabs (round x 3 - x) <= 0.0005 /\
  (IZR k / 1000 <= x -> IZR k / 1000 <= round x 3).
Proof.
  unfold round. assert (P : 10 ^ 3 = 1000) by (simpl; lra). rewrite P.
  destruct (round_half_even_floor (x * 1000)) as [[F _] C].
  split.
  - replace (IZR (round_half_even (x * 1000)) / 1000 - x)
      with ((IZR (round_half_even (x * 1000)) - x * 1000) / 1000) by field.
    revert C. unfold Rabs.
    destruct (Rcase_abs _), (Rcase_abs _); intros C; lra.
  - intros H.
    assert (K : (k <= Zfloor (x * 1000))%Z) by (apply Zfloor_lub; lra).
    assert (K' : IZR k <= IZR (round_half_even (x * 1000)))
      by (apply IZR_le; lia).
    lra.
Qed.

(** X16: on the default engine, take a profile without custom weights whose
    income, savings and surplus are numbers within the float range (or
    missing), the income not strictly between 0 and 1, and whose goals have
    non-negative horizons within the float range (or are missing); the age
    and the tolerance may be [None], a dict, a string or any finite number.
    The scoring call does not take the fallback: the result has no error
    message.  Its score differs by less than 0.001 from the sum, under the
    default weights, of the six factor functions of the engine applied to the
    validated fields; that sum lies in [0.05,1], so the clamp leaves it
    unchanged, and the score itself is between 0.05 and 1. *)
Theorem X16_default_weights_path :
  forall (user_profile items : list (pyval * pyval)) (i sv m : R),
  dict_get user_profile "custom_weights" = None ->
  get user_profile "monthly_income" (VNum 50000) = VNum i ->
  get user_profile "current_savings" (VNum 0) = VNum sv ->
  get user_profile "monthly_surplus" (VNum 0) = VNum m ->
  get user_profile "goals" (VDict []) = VDict items ->
  finite i -> finite sv -> finite m -> (i <= 0 \/ 1 <= i) ->
  goals_ok items ->
  Forall (fun kv => forall mo, fst kv = VNum mo -> finite mo) items ->
  exists r age tol fi ft fs fv,
    RiskAssessmentComplex.calculate_risk_score int_of_str float_of_str
      RiskAssessmentComplex.default_engine user_profile = Ok r /\
    RiskAssessmentComplex.error r = None /\
    RiskAssessmentComplex._validate_age int_of_str
      (get user_profile "age" (VNum 30)) = Ok age /\
    RiskAssessmentComplex._validate_risk_tolerance int_of_str
      (get user_profile "risk_tolerance_score" (VNum 5)) = Ok tol /\
    RiskAssessmentComplex._calculate_income_factor
      RiskAssessmentComplex.default_engine (Rmax i 0) = Ok fi /\
    RiskAssessmentComplex._calculate_timeline_factor (VDict items) = Ok ft /\
    RiskAssessmentComplex._calculate_surplus_factor (Rmax m 0) (Rmax i 0)
    = Ok fs /\
    RiskAssessmentComplex._calculate_savings_factor (Rmax sv 0) (Rmax i 0)
    = Ok fv /\
    let total :=
      0.25 * RiskAssessmentComplex._calculate_age_factor age + 0.20 * fi
      + 0.20 * ft + 0.15 * fs + 0.10 * fv
      + 0.10 * RiskAssessmentComplex._calculate_tolerance_factor tol in
    0.05 <= total <= 1 /\
    Rabs (RiskAssessmentComplex.risk_score r - total) < 0.001 /\
    0.05 <= RiskAssessmentComplex.risk_score r <= 1.
Proof.
  intros p items i sv m Hw Hi Hsv Hm Hg _ _ _ _ G _.
  destruct (engine_body_returns p items
              (RiskAssessmentComplex.weights_value default_config)
              0.25 0.20 0.20 0.15 0.10 0.10 sv m
              (or_intror (conj Hw eq_refl))
              ltac:(repeat split; reflexivity) Hsv Hm Hg G)
    as (r & age & income & tol & fi & ft & fs & fv & Eb & Herr & Rage & Rtol
        & Eage & Einc & Etol & Efi & Eft & Efs & Efv & Hs).
  assert (Ei : income = Rmax i 0).
  { rewrite Hi in Einc. unfold RiskAssessmentComplex._validate_income in Einc.
    cbn [RiskAssessmentComplex.py_float bind] in Einc.
    unfold Rmax. destruct (Rltb i 0) eqn:B; cbn [try_except] in Einc;
      injection Einc as <-.
    - apply Rltb_true in B. destruct (Rle_dec i 0); lra.
    - apply Rltb_false in B. destruct (Rle_dec i 0); lra. }
  subst income.
  exists r, age, tol, fi, ft, fs, fv.
  pose proof (engine_age_range age) as Ba.
  pose proof (engine_tolerance_range tol Rtol) as Br.
  pose proof (engine_timeline_range _ _ Eft) as Bt.
  pose proof (engine_surplus_range _ _ _ Efs) as Bs.
  pose proof (engine_savings_range _ _ _ Efv) as Bv.
  assert (Bi : 0 <= fi <= 1).
  { pose proof Efi as Efi'.
    rewrite engine_income_returns in Efi'. injection Efi' as <-.
    apply clamp01_bounds. }
  split.
  { unfold RiskAssessmentComplex.calculate_risk_score. rewrite Eb.
    reflexivity. }
  do 7 (split; [assumption|]).
  cbv zeta.
  set (total := 0.25 * RiskAssessmentComplex._calculate_age_factor age
                + 0.20 * fi + 0.20 * ft + 0.15 * fs + 0.10 * fv
                + 0.10 * RiskAssessmentComplex._calculate_tolerance_factor tol)
    in *.
  assert (Bt' : 0.05 <= total <= 1) by (unfold total; lra).
  rewrite (clamp01_id total) in Hs by lra.
  destruct (round3_close total 50) as [C L].
  pose proof (round3_bounds total ltac:(lra)) as [_ U].
  rewrite Hs. split; [exact Bt'|]. split; [lra|]. split; [|exact U].
  replace 0.05 with (50 / 1000) by lra. apply L. lra.
Qed.

End EngineNormalPath.

Section EngineNormalPathExample.

Import Py Settings PyFloat.
Local Open Scope R_scope.
Local Open Scope string_scope.

(** An empty profile: every field takes its default, the call succeeds and
    the score is at least 0.05. *)
Lemma X16_default_weights_path_witness :
  exists r,
    RiskAssessmentComplex.calculate_risk_score (fun _ => None) (fun _ => None)
      RiskAssessmentComplex.default_engine [] = Ok r /\
    RiskAssessmentComplex.error r = None /\
    0.05 <= RiskAssessmentComplex.risk_score r <= 1.
Proof.
  assert (F0 : finite 0)
    by (apply finite_small; unfold Rabs; destruct (Rcase_abs _); lra).
  assert (F1 : finite 50000)
    by (apply finite_small; unfold Rabs; destruct (Rcase_abs _); lra).
  destruct (X16_default_weights_path (fun _ => None) (fun _ => None)
              [] [] 50000 0 0 eq_refl eq_refl eq_refl eq_refl eq_refl
              F1 F0 F0 ltac:(right; lra) ltac:(constructor)
              ltac:(constructor))
    as (r & age & tol & fi & ft & fs & fv & E & Herr & _ & _ & _ & _ & _ & _
        & _ & _ & B).
  exists r. repeat split; try assumption; apply B.
Defined.

End EngineNormalPathExample.

(** ** Sensitivity analysis and the convenience functions *)

Section SensitivityFacts.

Import Py Settings.
Local Open Scope R_scope.
Local Open Scope string_scope.
Local Open Scope py_scope.

Variable int_of_str : string -> option Z.
Variable float_of_str : string -> option R.








End SensitivityFacts.

(** ** SIP projection and simulation *)

Section ProjectionFacts.

Import FundFiltering StreamlitApp.
Local Open Scope Q_scope.

Lemma Qpower_succ (a : Q) (k : nat) :
  ~ a == 0 -> a ^ Z.of_nat (S k) == a ^ Z.of_nat k * a.
Proof.
  intros Ha. rewrite Nat2Z.inj_succ, <- Z.add_1_r.
  rewrite Qpower_plus by exact Ha. reflexivity.
Qed.

Lemma maturity_positive_return (sip r : Q) (k : nat) :
  0 < r ->
  Maturity_Value (projection_row sip r k) = maturity_closed_form sip r k.
Proof.
  intros Hr. unfold projection_row, maturity_closed_form. cbn [Maturity_Value].
  replace (Qltb 0 r) with true by (symmetry; apply Qltb_lt; exact Hr).
  reflexivity.
Qed.

Lemma maturity_closed_form_step (sip r : Q) (k : nat) :
  0 < r ->
  maturity_closed_form sip r (S k) == (maturity_closed_form sip r k + sip) * (1 + r).
Proof.
  intros Hr. unfold maturity_closed_form.
  assert (Hne : ~ 1 + r == 0) by Lqa.lra.
  rewrite Qpower_succ by exact Hne. field. Lqa.lra.
Qed.

Lemma maturity_closed_form_increment (sip r : Q) (k : nat) :
  0 < r ->
  maturity_closed_form sip r (S k)
  == sip * (1 + r) ^ Z.of_nat (S k) + maturity_closed_form sip r k.
Proof.
  intros Hr. unfold maturity_closed_form.
  assert (Hne : ~ 1 + r == 0) by Lqa.lra.
  rewrite !Qpower_succ by exact Hne. field. Lqa.lra.
Qed.

Lemma maturity_closed_form_0 (sip r : Q) : 0 < r -> maturity_closed_form sip r 0 == 0.
Proof. intros Hr. unfold maturity_closed_form. cbn [Z.of_nat Qpower]. field. Lqa.lra. Qed.

Lemma maturity_closed_form_ge_invested (sip r : Q) (k : nat) :
  0 < r -> 0 <= sip ->
  inject_Z (Z.of_nat k) * sip <= maturity_closed_form sip r k.
Proof.
  intros Hr Hs. induction k as [|k IH].
  - rewrite maturity_closed_form_0 by exact Hr.
    change (inject_Z (Z.of_nat 0)) with 0. Lqa.lra.
  - rewrite maturity_closed_form_step by exact Hr.
    rewrite Nat2Z.inj_succ, <- Z.add_1_r, inject_Z_plus.
    set (n := inject_Z (Z.of_nat k)) in *.
    set (c := maturity_closed_form sip r k) in *.
    assert (0 <= n) by (unfold n; change 0 with (inject_Z 0);
                        rewrite <- Zle_Qle; lia).
    assert (0 <= n * sip) by (apply Qmult_le_0_compat; assumption).
    assert (0 <= (c + sip) * r)
      by (apply Qmult_le_0_compat; Lqa.lra).
    change (inject_Z 1) with 1. Lqa.lra.
Qed.

(** X19: [calculate_sip_projection] returns one row per month, [12 * years]
    of them (none when [years] is not positive), numbered from 1; each row has
    invested [month * monthly_sip] and gains [maturity - invested].  With a
    positive return and a non-negative contribution the gains are never
    negative; with a zero or negative return the maturity value is simply the
    amount invested, so the gains are 0. *)
Theorem X19_sip_projection_rows :
  forall (monthly_sip : Q) (years : Z) (annual_return : Q),
  let rows := calculate_sip_projection monthly_sip years annual_return in
  length rows = Z.to_nat (years * 12) /\
  map Month rows = seq 1 (Z.to_nat (years * 12)) /\
  (forall row, In row rows ->
     Total_Invested row = inject_Z (Z.of_nat (Month row)) * monthly_sip /\
     Year row = inject_Z (Z.of_nat (Month row)) / 12 /\
     Gains row = Maturity_Value row - Total_Invested row /\
     (0 < annual_return -> 0 <= monthly_sip -> 0 <= Gains row) /\
     (annual_return <= 0 -> Maturity_Value row = Total_Invested row /\
                            Gains row == 0)).
Proof.
  intros sip years annual rows. unfold rows, calculate_sip_projection.
  split; [rewrite length_map, length_seq; reflexivity|].
  split.
  { rewrite map_map. cbn [projection_row Month]. apply map_id. }
  intros row H. apply in_map_iff in H. destruct H as (k & <- & Hk).
  cbn [projection_row Month Total_Invested Year Gains Maturity_Value].
  split; [reflexivity|]. split; [reflexivity|]. split; [reflexivity|].
  split.
  - intros Ha Hs.
    assert (Hr : 0 < annual / 12).
    { apply Qlt_shift_div_l; [reflexivity|]. Lqa.lra. }
    pose proof (maturity_closed_form_ge_invested sip (annual / 12) k Hr Hs) as G.
    rewrite <- (maturity_positive_return sip (annual / 12) k Hr) in G.
    unfold projection_row in G. cbn [Maturity_Value] in G. Lqa.lra.
  - intros Ha.
    assert (E : Qltb 0 (annual / 12) = false).
    { apply not_true_iff_false. rewrite Qltb_lt. apply Qle_not_lt.
      apply Qle_shift_div_r; [reflexivity|]. Lqa.lra. }
    rewrite E. split; [reflexivity|]. Lqa.lra.
Qed.

(** Twelve rows for one year at 12%: no row shows a loss. *)
Lemma X19_sip_projection_rows_witness :
  Forall (fun row => 0 <= Gains row)
    (calculate_sip_projection 1000 1 (12 # 100)).
Proof.
  apply Forall_forall. intros row H.
  destruct (proj2 (proj2 (X19_sip_projection_rows 1000 1 (12 # 100))) row H)
    as (_ & _ & _ & G & _).
  apply G; [reflexivity|discriminate].
Defined.

(** X20: for a positive return the maturity value of the projection follows
    the month-by-month rule "add the contribution, then apply the monthly
    return": it is [sip * (1 + r)] after one month and
    [(previous + sip) * (1 + r)] after each further month. *)
Theorem X20_sip_projection_compounds :
  forall (monthly_sip annual_return : Q) (k : nat),
  0 < annual_return ->
  let r := annual_return / 12 in
  Maturity_Value (projection_row monthly_sip r 1) == monthly_sip * (1 + r) /\
  Maturity_Value (projection_row monthly_sip r (S k))
  == (Maturity_Value (projection_row monthly_sip r k) + monthly_sip) * (1 + r).
Proof.
  intros sip annual k Ha r.
  assert (Hr : 0 < r).
  { unfold r. apply Qlt_shift_div_l; [reflexivity|]. Lqa.lra. }
  rewrite !maturity_positive_return by exact Hr. split.
  - rewrite maturity_closed_form_step, maturity_closed_form_0 by exact Hr. ring.
  - apply maturity_closed_form_step. exact Hr.
Qed.

(** 12% a year, month 1. *)
Lemma X20_sip_projection_compounds_witness :
  Maturity_Value (projection_row 1000 ((12 # 100) / 12) 1)
  == 1000 * (1 + (12 # 100) / 12).
Proof.
  apply (proj1 (X20_sip_projection_compounds 1000 (12 # 100) 0 ltac:(reflexivity))).
Defined.

Lemma Qpower_gt_1 (a : Q) (k : nat) : 1 < a -> 1 < a ^ Z.of_nat (S k).
Proof.
  intros Ha. assert (Hne : ~ a == 0) by Lqa.lra.
  induction k as [|k IH].
  - cbn. exact Ha.
  - rewrite Qpower_succ by exact Hne.
    set (x := a ^ Z.of_nat (S k)) in *.
    assert (0 < (x - 1) * (a - 1)) by (apply Qmult_lt_0_compat; Lqa.lra).
    Lqa.lra.
Qed.

(** X21: the contribution formula of [main] (required SIP of a goal) and the
    maturity formula of [calculate_sip_projection] are not inverse to each
    other: investing [required_sip] every month for the goal's months at the
    same positive return, the maturity value of the projection is the goal
    amount times [1 + monthly_rate], not the goal amount. *)
Theorem X21_required_sip_overshoots :
  forall (goal_amount expected_return : Q) (goal_months : nat),
  0 < expected_return -> (0 < goal_months)%nat ->
  let r := expected_return / 12 in
  Maturity_Value
    (projection_row (required_sip goal_amount expected_return goal_months) r
       goal_months)
  == goal_amount * (1 + r).
Proof.
  intros goal er n Her Hn r.
  assert (Hr : 0 < r).
  { unfold r. apply Qlt_shift_div_l; [reflexivity|]. Lqa.lra. }
  rewrite maturity_positive_return by exact Hr.
  unfold maturity_closed_form, required_sip. fold r.
  destruct n as [|n]; [lia|].
  pose proof (Qpower_gt_1 (1 + r) n ltac:(Lqa.lra)) as P.
  set (x := (1 + r) ^ Z.of_nat (S n)) in *.
  field. split; Lqa.lra.
Qed.

(** A goal of 500000 in 60 months at 12% a year. *)
Lemma X21_required_sip_overshoots_witness :
  Maturity_Value
    (projection_row (required_sip 500000 (12 # 100) 60) ((12 # 100) / 12) 60)
  == 500000 * (1 + (12 # 100) / 12).
Proof.
  apply (X21_required_sip_overshoots 500000 (12 # 100) 60);
    [reflexivity|lia].
Defined.

Lemma simulate_length (rng : Type) (normal : rng -> Q -> Q -> Q * rng)
    (sqrt : Q -> Q) (n months : nat) (sip er vol : Q) (g : rng) :
  length (fst (simulate rng normal sqrt n months sip er vol g)) = n.
Proof.
  revert g. induction n as [|n IH]; intros g; cbn [simulate]; [reflexivity|].
  destruct (simulate_path rng normal months sip (er / 12) (vol / sqrt 12) g 0)
    as [v g'].
  specialize (IH g').
  destruct (simulate rng normal sqrt n months sip er vol g') as [rest g''].
  cbn [fst length] in *. rewrite IH. reflexivity.
Qed.

Lemma success_rate_range (results : list Q) (target : Q) :
  results <> [] -> 0 <= success_rate_of results target <= 100.
Proof.
  intros Hne. unfold success_rate_of.
  set (c := length (filter (Qle_bool target) results)).
  set (n := length results).
  assert (Hc : (c <= n)%nat) by apply filter_length_le.
  assert (Hn : (0 < n)%nat) by (unfold n; destruct results; [contradiction|cbn; lia]).
  assert (Qn : 0 < inject_Z (Z.of_nat n))
    by (change 0 with (inject_Z 0); rewrite <- Zlt_Qlt; lia).
  assert (Qc0 : 0 <= inject_Z (Z.of_nat c))
    by (change 0 with (inject_Z 0); rewrite <- Zle_Qle; lia).
  assert (Qcn : inject_Z (Z.of_nat c) <= inject_Z (Z.of_nat n))
    by (rewrite <- Zle_Qle; lia).
  assert (D0 : 0 <= inject_Z (Z.of_nat c) / inject_Z (Z.of_nat n)).
  { apply Qle_shift_div_l; [exact Qn|]. Lqa.lra. }
  assert (D1 : inject_Z (Z.of_nat c) / inject_Z (Z.of_nat n) <= 1).
  { apply Qle_shift_div_r; [exact Qn|]. Lqa.lra. }
  split; Lqa.lra.
Qed.

Lemma simulate_path_mean (rng : Type) (normal : rng -> Q -> Q -> Q * rng)
    (k : nat) (sip r vol : Q) (g : rng) (v : Q) :
  (forall g m s, fst (normal g m s) = m) -> 0 < r ->
  fst (simulate_path rng normal k sip r vol g v)
  == v * (1 + r) ^ Z.of_nat k + maturity_closed_form sip r k.
Proof.
  intros Hmean Hr. revert g v. induction k as [|k IH]; intros g v.
  - cbn [simulate_path fst]. rewrite maturity_closed_form_0 by exact Hr.
    cbn [Z.of_nat Qpower]. ring.
  - cbn [simulate_path]. pose proof (Hmean g r vol) as E.
    destruct (normal g r vol) as [rr g']. cbn [fst] in E. subst rr.
    rewrite IH. rewrite maturity_closed_form_increment by exact Hr.
    assert (Hne : ~ 1 + r == 0) by Lqa.lra.
    rewrite (Qpower_succ (1 + r) k Hne). ring.
Qed.

Lemma simulate_mean (rng : Type) (normal : rng -> Q -> Q -> Q * rng)
    (sqrt : Q -> Q) (n months : nat) (sip er vol : Q) (g : rng) (x : Q) :
  (forall g m s, fst (normal g m s) = m) -> 0 < er / 12 ->
  In x (fst (simulate rng normal sqrt n months sip er vol g)) ->
  x == maturity_closed_form sip (er / 12) months.
Proof.
  intros Hmean Hr. revert g. induction n as [|n IH]; intros g;
    cbn [simulate]; [cbn; tauto|].
  pose proof (simulate_path_mean rng normal months sip (er / 12)
                (vol / sqrt 12) g 0 Hmean Hr) as P.
  destruct (simulate_path rng normal months sip (er / 12) (vol / sqrt 12) g 0)
    as [v g'].
  specialize (IH g').
  destruct (simulate rng normal sqrt n months sip er vol g') as [rest g''].
  cbn [fst In] in *. intros [<-|H]; [|apply IH; exact H].
  rewrite P. ring.
Qed.

(** X22: whatever the random draws, [monte_carlo_simulation] returns one
    final value per simulation and, with at least one simulation, a success
    rate between 0 and 100.  When every draw equals its mean (no volatility)
    and the expected return is positive, every simulated path ends exactly at
    the maturity value that [calculate_sip_projection] shows for the last
    month. *)
Theorem X22_monte_carlo :
  forall (rng : Type) (normal : rng -> Q -> Q -> Q * rng) (sqrt : Q -> Q)
         (monthly_sip : Q) (years : Z)
         (expected_return volatility target_amount : Q) (simulations : nat)
         (g : rng),
  let out :=
    monte_carlo_simulation rng normal sqrt monthly_sip years expected_return
      volatility target_amount simulations g in
  length (fst (fst out)) = simulations /\
  ((0 < simulations)%nat -> 0 <= snd (fst out) <= 100) /\
  ((forall g m s, fst (normal g m s) = m) -> 0 < expected_return ->
   forall x, In x (fst (fst out)) ->
     x == Maturity_Value
            (projection_row monthly_sip (expected_return / 12)
               (Z.to_nat (years * 12)))).
Proof.
  intros rng normal sqrt sip years er vol target sims g.
  unfold monte_carlo_simulation.
  pose proof (simulate_length rng normal sqrt sims (Z.to_nat (years * 12)) sip
                er vol g) as L.
  pose proof (fun x H1 H2 =>
                simulate_mean rng normal sqrt sims (Z.to_nat (years * 12)) sip
                  er vol g x H1 H2) as M.
  destruct (simulate rng normal sqrt sims (Z.to_nat (years * 12)) sip er vol g)
    as [results g'].
  cbn [fst snd] in *. split; [exact L|]. split.
  - intros Hs. apply success_rate_range. destruct results; [cbn in L; lia|].
    discriminate.
  - intros Hmean Her x Hx.
    assert (Hr : 0 < er / 12).
    { apply Qlt_shift_div_l; [reflexivity|]. Lqa.lra. }
    rewrite maturity_positive_return by exact Hr.
    apply M; assumption.
Qed.

(** A generator that always returns the mean, three simulations of a year. *)
Lemma X22_monte_carlo_witness :
  Forall (fun x => x == Maturity_Value
                         (projection_row 1000 ((12 # 100) / 12) 12))
    (fst (fst (monte_carlo_simulation unit (fun g m _ => (m, g)) (fun x => x)
                 1000 1 (12 # 100) (15 # 100) 12000 3 tt))).
Proof.
  apply Forall_forall. intros x H.
  apply (proj2 (proj2 (X22_monte_carlo unit (fun g m _ => (m, g)) (fun x => x)
                         1000 1 (12 # 100) (15 # 100) 12000 3 tt))
           ltac:(reflexivity) ltac:(reflexivity) x H).
Defined.

End ProjectionFacts.
